(** * Grievix complaint service: a shallow embedding of [rf.py]

    The development follows the source file top-down: Python string
    primitives, the numbers of the store and of Python floats, the keyword
    classifier and the category resolution, the document store, then the
    request handlers [submit_complaint], [update_status], [vote_complaint]
    and [get_recent_activity].

    Conventions.
    - A Python [str] is a [string]; each [ascii] stands for one code point
      below 256, and [str.lower], [str.strip] and [int] are modelled on
      that range.  Beyond it [str.lower] can lengthen a text, which it
      never does here; no statement rests on the length of a lower-cased
      text, only on its being no shorter than the text.
    - Integers are [Z]; where the code hands one to the store, the 8-byte
      range of BSON is checked.  [priority_score] is a rational [Q]: an
      integer at creation and, after a vote, the binary64 number the
      store's [$inc] leaves.
    - A handler is a function from the store to a response and the store
      that results.  A Python exception inside a handler's [try] block is
      the response [Failure 500 _] with the store as it was when the
      exception was raised. *)

From Stdlib Require Import String Ascii ZArith NArith QArith List Bool Lia.
From Stdlib Require Import DecimalString Lqa.
From stdpp Require Import gmap strings list sorting.

Local Open Scope string_scope.
Local Open Scope Z_scope.

(** ** Python string primitives *)

Definition code (c : ascii) : N := N_of_ascii c.

Definition between (lo hi n : N) : bool := ((lo <=? n) && (n <=? hi))%N.

(** [str.lower] on one code point: A-Z, and the Latin-1 capitals
    U+00C0..U+00DE except the multiplication sign U+00D7. *)
Definition lower_char (c : ascii) : ascii :=
  let n := code c in
  if between 65 90 n || (between 192 222 n && negb (n =? 215)%N)
  then ascii_of_N (n + 32) else c.

Fixpoint lower (s : string) : string :=
  match s with
  | EmptyString => EmptyString
  | String c s' => String (lower_char c) (lower s')
  end.

(** [str.isspace] on one code point. *)
Definition isspace (c : ascii) : bool :=
  let n := code c in
  between 9 13 n || between 28 32 n || (n =? 133)%N || (n =? 160)%N.

Fixpoint lstrip (s : string) : string :=
  match s with
  | EmptyString => EmptyString
  | String c s' => if isspace c then lstrip s' else s
  end.

Fixpoint rstrip (s : string) : string :=
  match s with
  | EmptyString => EmptyString
  | String c s' =>
      match rstrip s' with
      | EmptyString => if isspace c then EmptyString else String c EmptyString
      | r => String c r
      end
  end.

(** [s.strip()] *)
Definition strip (s : string) : string := rstrip (lstrip s).

(** [len(s)] *)
Definition len (s : string) : Z := Z.of_nat (String.length s).

(** [hay.startswith(needle)] *)
Fixpoint startswith (needle hay : string) : bool :=
  match needle, hay with
  | EmptyString, _ => true
  | String _ _, EmptyString => false
  | String a needle', String b hay' =>
      Ascii.eqb a b && startswith needle' hay'
  end.

(** [needle in hay] on strings: [needle] occurs as a contiguous run. *)
Fixpoint contains (needle hay : string) : bool :=
  if startswith needle hay then true
  else match hay with
       | EmptyString => false
       | String _ hay' => contains needle hay'
       end.

(** [x in xs] for a list of strings. *)
Definition str_in (x : string) (xs : list string) : bool :=
  existsb (String.eqb x) xs.

(** [any(p(x) for x in xs)] *)
Definition any {A} (p : A -> bool) (xs : list A) : bool := existsb p xs.

(** [s[:n]] *)
Definition slice_to (n : nat) (s : string) : string := String.substring 0 n s.

(** [str(n)] for an integer. *)
Definition str_of_int (n : Z) : string := NilZero.string_of_int (Z.to_int n).

(** *** [int(s)] for a string, base 10

    Optional surrounding white space, an optional sign, then decimal
    digits in which single underscores may separate digits.  White space
    here is what [int] accepts: the ASCII set, and the Latin-1 spaces
    U+0085 and U+00A0 (the separators U+001C..U+001F are not accepted by
    [int] although [str.isspace] holds of them).  [None] stands for
    [ValueError]. *)

Definition int_space (c : ascii) : bool :=
  let n := code c in
  between 9 13 n || (n =? 32)%N || (n =? 133)%N || (n =? 160)%N.

Definition digit_of (c : ascii) : option Z :=
  let n := code c in
  if between 48 57 n then Some (Z.of_N (n - 48)) else None.

Fixpoint skip_int_space (s : string) : string :=
  match s with
  | EmptyString => EmptyString
  | String c s' => if int_space c then skip_int_space s' else s
  end.

(** The run of digits and underscores: value, number of digits, and what
    follows the run.  [prev_us] records that the previous character was an
    underscore; a doubled or trailing underscore is an error. *)
Fixpoint scan_digits (s : string) (prev_us : bool) (acc : Z) (digits : nat)
  : option (Z * nat * string) :=
  match s with
  | EmptyString => if prev_us then None else Some (acc, digits, EmptyString)
  | String c s' =>
      if Ascii.eqb c "_"%char then
        if prev_us then None else scan_digits s' true acc digits
      else
        match digit_of c with
        | Some d => scan_digits s' false (10 * acc + d) (S digits)
        | None => if prev_us then None else Some (acc, digits, s)
        end
  end.

(** [sys.int_info.default_max_str_digits]: longer digit strings raise
    [ValueError]. *)
Definition int_max_str_digits : nat := 4300.

Definition py_int (s : string) : option Z :=
  let s1 := skip_int_space s in
  let '(sign, s2) :=
    match s1 with
    | String "+"%char r => (1, r)
    | String "-"%char r => (-1, r)
    | _ => (1, s1)
    end in
  match s2 with
  | String c _ =>
      match digit_of c with
      | None => None
      | Some _ =>
          match scan_digits s2 false 0 0 with
          | None => None
          | Some (v, digits, rest) =>
              if (int_max_str_digits <? digits)%nat then None
              else match skip_int_space rest with
                   | EmptyString => Some (sign * v)
                   | _ => None
                   end
          end
      end
  | EmptyString => None
  end.

(** ** Integers of the store and binary64 numbers *)

(** BSON encodes a Python integer in at most 8 bytes; the driver raises
    [OverflowError] on any other. *)
Definition int64 (n : Z) : bool := (- 2 ^ 63 <=? n) && (n <? 2 ^ 63).

(** The nearest integer to [a / b], ties to the even one; [b] is positive. *)
Definition round_half_even (a b : Z) : Z :=
  let f := a / b in
  match 2 * (a mod b) ?= b with
  | Lt => f
  | Gt => f + 1
  | Eq => if Z.even f then f else f + 1
  end.

(** The integer part of the binary logarithm of [n / d], both positive. *)
Definition floor_log2 (n d : Z) : Z :=
  let L := Z.log2 n - Z.log2 d in
  if (if 0 <=? L then d * 2 ^ L <=? n else d <=? n * 2 ^ (- L)) then L
  else L - 1.

(** The binary64 number nearest to [n / d], both positive: a multiple of
    [2 ^ e] where [e] leaves 53 significant bits, and is no less than the
    exponent of the subnormal numbers.  Numbers beyond the largest finite
    binary64, which round to infinity, are outside this definition. *)
Definition binary64_pos (n d : Z) : Q :=
  let e := Z.max (floor_log2 n d - 52) (-1074) in
  if 0 <=? e then inject_Z (round_half_even n (d * 2 ^ e) * 2 ^ e)
  else Qmake (round_half_even (n * 2 ^ (- e)) d) (Z.to_pos (2 ^ (- e))).

(** The conversion of a number to binary64, round to nearest even. *)
Definition binary64 (q : Q) : Q :=
  let r := Qred q in
  match Qnum r with
  | 0 => 0%Q
  | Zpos n => binary64_pos (Zpos n) (Zpos (Qden r))
  | Zneg n => Qopp (binary64_pos (Zpos n) (Zpos (Qden r)))
  end.

(** ** Categories and keywords *)

Definition MODEL_VERSION : string := "1.2.0".

Definition CATEGORIES : list string :=
  [ "Water Issues"; "Road Issues"; "Garbage Issues"; "Electricity";
    "Drainage Issues"; "Other" ].

(** A Python dict literal iterates in the order it is written, so the
    table is an association list in that order. *)
Definition CATEGORY_KEYWORDS : list (string * list string) :=
  [ ("Water Issues",
      ["water"; "drinking"; "supply"; "leak"; "pipe"; "tap"; "smell";
       "taste"; "pressure"]);
    ("Road Issues",
      ["road"; "pothole"; "asphalt"; "street"; "highway"; "repair";
       "damage"; "construction"]);
    ("Garbage Issues",
      ["garbage"; "trash"; "waste"; "collection"; "dump"; "bin"; "clean";
       "disposal"]);
    ("Electricity",
      ["electricity"; "power"; "outage"; "blackout"; "wire"; "transformer";
       "voltage"; "flickering"]);
    ("Drainage Issues",
      ["drainage"; "sewer"; "flood"; "waterlogging"; "blockage"; "clog";
       "overflow"]);
    ("Other",
      ["noise"; "loudspeaker"; "park"; "tree"; "animal"; "stray"; "public";
       "nuisance"]) ].

(** The [for] loop of [manual_category_detection] over a table, on a text
    that is already lower-cased. *)
Fixpoint first_match (table : list (string * list string)) (text : string)
  : option string :=
  match table with
  | [] => None
  | (category, keywords) :: rest =>
      if any (fun keyword => contains (lower keyword) text) keywords
      then Some category
      else first_match rest text
  end.

Definition manual_category_detection (complaint_text : string) : option string :=
  let complaint_text := lower complaint_text in
  first_match CATEGORY_KEYWORDS complaint_text.

Definition validate_prediction (predicted_category complaint_text : string)
  : string :=
  if negb (str_in predicted_category CATEGORIES) then "Other"
  else predicted_category.

(** ** The statistical classifier

    The three artifacts loaded at start-up.  Each is [None] when its file
    is missing; a present artifact is a function whose result [None]
    stands for an exception raised by the call.  [F] is the type of
    feature vectors. *)
Record ml_components (F : Type) := {
  model : option (F -> option Z);
  tfidf_vectorizer : option (string -> option F);
  label_encoder : option (Z -> option string)
}.
Arguments model {F} _.
Arguments tfidf_vectorizer {F} _.
Arguments label_encoder {F} _.

(** [vectorizer.transform], [model.predict], [encoder.inverse_transform],
    then [validate_prediction]. *)
Definition ml_predict {F} (predict : F -> option Z)
    (transform : string -> option F) (inverse_transform : Z -> option string)
    (text : string) : option string :=
  complaint_tfidf ← transform text;
  predicted_category_num ← predict complaint_tfidf;
  predicted_category ← inverse_transform predicted_category_num;
  Some (validate_prediction predicted_category text).

(** ** Category resolution

    The block shared by [predict_category] and [submit_complaint]: the
    keyword rules first, the classifier when the rules give nothing and all
    three artifacts are present, ["Other"] otherwise, and the final check
    against [CATEGORIES].  The result pairs [predicted_category] with
    [manual_category]; [None] stands for an exception raised by the
    classifier.  [text] is the text the block works on ([complaint_text]
    lower-cased). *)
Definition resolve_category {F} (ml : ml_components F) (text : string)
  : option (string * option string) :=
  let manual_category := manual_category_detection text in
  predicted_category ←
    match manual_category with
    | Some c => Some c
    | None =>
        match model ml, tfidf_vectorizer ml, label_encoder ml with
        | Some predict, Some transform, Some inverse_transform =>
            ml_predict predict transform inverse_transform text
        | _, _, _ =>
            Some (default "Other" (manual_category_detection text))
        end
    end;
  let predicted_category :=
    if negb (str_in predicted_category CATEGORIES) then "Other"
    else predicted_category in
  Some (predicted_category, manual_category).

(** ** Responses *)

Inductive response (A : Type) : Type :=
| Success (body : A)
| Failure (status_code : nat) (message : string).
Arguments Success {A} _.
Arguments Failure {A} _ _.

(** ** The document store *)

(** A complaint document.  [_id] is the key under which the document is
    stored.  [voters] is absent from a new document and read with
    [get('voters', [])], so absence is the empty list.  The photo, tag and
    comment fields take no part in what follows and are left out. *)
Record complaint := {
  complaint_text : string;
  category : string;
  location : string;
  timestamp : Z;
  prediction_source : string;
  model_version : string;
  status : string;
  priority_score : Q;
  severity : Z;
  anonymous : bool;
  votes : Z;
  submitted_by : string;
  voters : list string
}.

Record activity := {
  activity_type : string;
  activity_message : string;
  activity_timestamp : Z
}.

(** [complaints_collection] is keyed by [_id]; [activity_collection] is kept
    in insertion order. *)
Record store := {
  complaints_collection : gmap string complaint;
  activity_collection : list activity
}.

(** Clock readings count microseconds; a BSON date keeps milliseconds. *)
Definition bson_date (t : Z) : Z := t - t mod 1000.

Definition log_activity (activity_type message : string) (now : Z) (db : store)
  : store :=
  {| complaints_collection := complaints_collection db;
     activity_collection :=
       activity_collection db ++
       [ {| activity_type := activity_type;
            activity_message := message;
            activity_timestamp := bson_date now |} ] |}.

Definition set_complaints (m : gmap string complaint) (db : store) : store :=
  {| complaints_collection := m;
     activity_collection := activity_collection db |}.

(** ** [predict_category] *)

Record prediction := {
  p_category : string;
  p_auto_corrected : bool
}.

(** The JSON body ([request.json]) of a prediction or a submission; a field
    is [None] when the key is absent. *)
Record submit_json := {
  j_complaint : option string;
  j_location : option string;
  j_submitted_by : option string
}.

Definition predict_category {F} (ml : ml_components F) (data : option submit_json)
  : response prediction :=
  let complaint_text :=
    match data with
    | Some data => lower (strip (default "" (j_complaint data)))
    | None => ""
    end in
  if len complaint_text <? 10 then
    Failure 400 "Complaint must be at least 10 characters"
  else
    match resolve_category ml complaint_text with
    | None => Failure 500 "Internal server error"
    | Some (predicted_category, manual_category) =>
        Success {| p_category := predicted_category;
                   p_auto_corrected := bool_decide (is_Some manual_category) |}
    end.

(** ** [submit_complaint] *)

(** The [tags] form field, by what [json.loads] makes of it: no field (the
    default ["[]"], the empty list); a text on which [json.loads] raises
    [JSONDecodeError], which the handler catches and replaces by the empty
    list; a text on which it raises another exception (a nesting too deep
    raises [RecursionError]), which the inner handler does not catch; or a
    JSON value, which BSON can encode or not. *)
Inductive tags_field :=
| TagsAbsent
| TagsNotJson
| TagsRaises
| TagsJson (encodable : bool).

(** The form ([request.form]); it is read for [severity], [tags] and
    [anonymous] whichever way the complaint itself arrived. *)
Record submit_form := {
  f_complaint : option string;
  f_location : option string;
  f_submitted_by : option string;
  f_severity : option string;
  f_anonymous : option string;
  f_tags : tags_field
}.

Record submit_request := {
  is_json : bool;
  json : option submit_json;
  form : submit_form
}.

Record submit_result := {
  r_complaint_id : string;
  r_category : string
}.

(** [severity = request.form.get("severity", 5)] followed by [int(severity)]
    with [ValueError] and [TypeError] caught. *)
Definition parse_severity (field : option string) : Z :=
  match field with
  | None => 5
  | Some s => default 5 (py_int s)
  end.

(** The priority computed at creation, on the text as submitted. *)
Definition initial_priority (severity : Z) (complaint_text : string) : Z :=
  let priority_score := severity in
  if contains "urgent" (lower complaint_text)
     || contains "emergency" (lower complaint_text)
  then Z.min 10 (priority_score + 2)
  else if contains "soon" (lower complaint_text)
          || contains "important" (lower complaint_text)
  then Z.min 10 (priority_score + 1)
  else priority_score.

(** The three variables set by the branch on [request.is_json]. *)
Definition request_text (req : submit_request) : string :=
  if is_json req then
    match json req with
    | Some data => strip (default "" (j_complaint data))
    | None => ""
    end
  else strip (default "" (f_complaint (form req))).

Definition request_location (req : submit_request) : string :=
  if is_json req then
    match json req with
    | Some data => default "" (j_location data)
    | None => ""
    end
  else default "Not specified" (f_location (form req)).

Definition request_submitted_by (req : submit_request) : string :=
  if is_json req then
    match json req with
    | Some data => default "Anonymous" (j_submitted_by data)
    | None => "Anonymous"
    end
  else default "Anonymous" (f_submitted_by (form req)).

(** Whether BSON can encode the [tags] of the document. *)
Definition tags_encodable (tags : tags_field) : bool :=
  match tags with
  | TagsJson encodable => encodable
  | _ => true
  end.

(** [complaint_id] is the value of [uuid.uuid4()] and [now] the reading of
    [datetime.utcnow()].  The handler reads the clock twice, for the
    document and then, in [log_activity], for the activity entry; [now]
    stands for both readings, so the model does not tell the two instants
    apart.  [insert_one] raises on a document BSON cannot encode (an
    integer beyond 8 bytes, tags that cannot be encoded) and on a key
    already stored; the photo and the tags are not kept in the modelled
    document. *)
Definition submit_complaint {F} (ml : ml_components F) (req : submit_request)
    (now : Z) (complaint_id : string) (db : store)
  : response submit_result * store :=
  let complaint_text := request_text req in
  let location := request_location req in
  let submitted_by := request_submitted_by req in
  if len complaint_text <? 10 then
    (Failure 400 "Complaint must be at least 10 characters", db)
  else
    match resolve_category ml (lower complaint_text) with
    | None => (Failure 500 "Internal server error", db)
    | Some (predicted_category, manual_category) =>
        let severity := parse_severity (f_severity (form req)) in
        let tags := f_tags (form req) in
        match tags with
        | TagsRaises => (Failure 500 "Internal server error", db)
        | _ =>
        let anonymous :=
          String.eqb (lower (default "false" (f_anonymous (form req)))) "true" in
        let priority_score := initial_priority severity complaint_text in
        let complaint_entry :=
          {| complaint_text := complaint_text;
             category := predicted_category;
             location := location;
             timestamp := bson_date now;
             prediction_source :=
               match manual_category with
               | Some _ => "manual"
               | None => "model"
               end;
             model_version := MODEL_VERSION;
             status := "new";
             priority_score := inject_Z priority_score;
             severity := severity;
             anonymous := anonymous;
             votes := 0;
             submitted_by := submitted_by;
             voters := [] |} in
        if negb (int64 severity && int64 priority_score && tags_encodable tags)
        then (Failure 500 "Internal server error", db)
        else
        match complaints_collection db !! complaint_id with
        | Some _ => (Failure 500 "Internal server error", db)
        | None =>
            let db := set_complaints
                        (<[complaint_id := complaint_entry]>
                           (complaints_collection db)) db in
            let db := log_activity "new_complaint"
                        ("New complaint submitted in " +:+ predicted_category
                           +:+ " category") now db in
            (Success {| r_complaint_id := complaint_id;
                        r_category := predicted_category |}, db)
        end
        end
    end.

(** ** [update_status] *)

(** The body of the request.  The two fields are read as JSON strings: a
    [complaintId] that is another JSON value is outside this record. *)
Record status_json := {
  s_complaintId : option string;
  s_status : option string
}.

(** [not x] for a value that is [None] or a string. *)
Definition falsy (x : option string) : bool :=
  match x with
  | None => true
  | Some s => String.eqb s ""
  end.

Definition status_text (new_status : string) : string :=
  if String.eqb new_status "new" then "New"
  else if String.eqb new_status "in_progress" then "In Progress"
  else "Resolved".

Definition set_status (new_status : string) (c : complaint) : complaint :=
  {| complaint_text := complaint_text c;
     category := category c;
     location := location c;
     timestamp := timestamp c;
     prediction_source := prediction_source c;
     model_version := model_version c;
     status := new_status;
     priority_score := priority_score c;
     severity := severity c;
     anonymous := anonymous c;
     votes := votes c;
     submitted_by := submitted_by c;
     voters := voters c |}.

Definition update_status (data : option status_json) (now : Z) (db : store)
  : response unit * store :=
  let complaint_id := data ≫= s_complaintId in
  let new_status := data ≫= s_status in
  if falsy complaint_id || falsy new_status then
    (Failure 400 "Missing required fields", db)
  else
    let complaint_id := default "" complaint_id in
    let new_status := default "" new_status in
    if negb (str_in new_status ["new"; "in_progress"; "resolved"]) then
      (Failure 400 "Invalid status value", db)
    else
      match complaints_collection db !! complaint_id with
      | None => (Failure 404 "Complaint not found", db)
      | Some c =>
          let db := set_complaints
                      (<[complaint_id := set_status new_status c]>
                         (complaints_collection db)) db in
          let db := log_activity "status_update"
                      ("Complaint #" +:+ slice_to 8 complaint_id
                         +:+ " marked as " +:+ status_text new_status) now db in
          (Success (), db)
      end.

(** ** [vote_complaint] *)

(** A JSON value as [voteType] may carry it. *)
Inductive jvalue :=
| JNull
| JBool (b : bool)
| JInt (n : Z)
| JStr (s : string).

Record vote_json := {
  v_complaintId : option string;
  v_voteType : option jvalue;
  v_userEmail : option string
}.

Record vote_result := {
  vr_message : string;
  vr_votes : Z;
  vr_priority_score : Q
}.

(** [vote_type == 'upvote'] *)
Definition is_upvote (vote_type : jvalue) : bool :=
  match vote_type with
  | JStr s => String.eqb s "upvote"
  | _ => false
  end.

(** [$addToSet] on an array of strings. *)
Definition add_to_set (x : string) (xs : list string) : list string :=
  if str_in x xs then xs else xs ++ [x].

(** The update document: [$inc] on [votes] and [priority_score], and
    [$addToSet] on [voters] when an e-mail was given.  The increment of
    [priority_score] is the binary64 number one half or minus one half, so
    the store converts the score to binary64 and adds in binary64. *)
Definition apply_vote (vote_change : Z) (user_email : option string)
    (c : complaint) : complaint :=
  {| complaint_text := complaint_text c;
     category := category c;
     location := location c;
     timestamp := timestamp c;
     prediction_source := prediction_source c;
     model_version := model_version c;
     status := status c;
     priority_score :=
       binary64 (binary64 (priority_score c) + inject_Z vote_change * (1 # 2))%Q;
     severity := severity c;
     anonymous := anonymous c;
     votes := votes c + vote_change;
     submitted_by := submitted_by c;
     voters :=
       if falsy user_email then voters c
       else add_to_set (default "" user_email) (voters c) |}.

(** An increment by one is never a no-op, so [modified_count] is 1 whenever
    the document was found and the branch on [modified_count == 0] is not
    taken. *)
Definition vote_complaint (data : option vote_json) (db : store)
  : response vote_result * store :=
  let complaint_id := data ≫= v_complaintId in
  let vote_type :=
    match data with
    | Some data => default (JStr "upvote") (v_voteType data)
    | None => JStr "upvote"
    end in
  let user_email := data ≫= v_userEmail in
  if falsy complaint_id then
    (Failure 400 "Complaint ID is required", db)
  else
    let complaint_id := default "" complaint_id in
    match complaints_collection db !! complaint_id with
    | None => (Failure 404 "Complaint not found", db)
    | Some complaint =>
        if negb (falsy user_email)
           && str_in (default "" user_email) (voters complaint)
        then (Failure 400 "You have already voted on this complaint", db)
        else
          let vote_change := if is_upvote vote_type then 1 else -1 in
          let updated_complaint := apply_vote vote_change user_email complaint in
          let db := set_complaints
                      (<[complaint_id := updated_complaint]>
                         (complaints_collection db)) db in
          (Success {| vr_message :=
                        "Vote " +:+
                        (if is_upvote vote_type then "added" else "removed");
                      vr_votes := votes updated_complaint;
                      vr_priority_score := priority_score updated_complaint |},
           db)
    end.

(** ** [get_recent_activity] *)

(** [sort("timestamp", -1)]: insertion into a list that is already in
    descending order of time stamp. *)
Fixpoint insert_desc (a : activity) (l : list activity) : list activity :=
  match l with
  | [] => [a]
  | b :: l' =>
      if activity_timestamp b <=? activity_timestamp a then a :: l
      else b :: insert_desc a l'
  end.

Definition sort_desc (l : list activity) : list activity :=
  foldr insert_desc [] l.

(** The label of an age.  Time stamps are microseconds; the age is taken
    in seconds by [timedelta.total_seconds()], the binary64 quotient of the
    microseconds by [10 ** 6], compared with 60, 3600 and 86400, divided in
    binary64 by the seconds of the unit and truncated by [int]. *)
Definition total_seconds (microseconds : Z) : Q :=
  binary64 (microseconds # 1000000).

(** [x < y] on two floats. *)
Definition float_lt (x y : Q) : bool := Qnum x * QDen y <? Qnum y * QDen x.

(** [x / y] on two floats, [y] not zero. *)
Definition float_div (x y : Q) : Q := binary64 (x / y).

(** [int(x)]: the float truncated toward zero. *)
Definition int_of_float (x : Q) : Z := Z.quot (Qnum x) (QDen x).

Definition plural (n : Z) : string := if 1 <? n then "s" else "".

Definition time_ago (now timestamp : Z) : string :=
  let diff := total_seconds (now - timestamp) in
  if float_lt diff (inject_Z 60) then "just now"
  else if float_lt diff (inject_Z 3600) then
    let minutes := int_of_float (float_div diff (inject_Z 60)) in
    str_of_int minutes +:+ " minute" +:+ plural minutes +:+ " ago"
  else if float_lt diff (inject_Z 86400) then
    let hours := int_of_float (float_div diff (inject_Z 3600)) in
    str_of_int hours +:+ " hour" +:+ plural hours +:+ " ago"
  else
    let days := int_of_float (float_div diff (inject_Z 86400)) in
    str_of_int days +:+ " day" +:+ plural days +:+ " ago".

(** An entry as the read returns it: the stored fields and the label. *)
Record activity_view := {
  view_type : string;
  view_message : string;
  view_timestamp : Z;
  view_time_ago : string
}.

Definition annotate (now : Z) (a : activity) : activity_view :=
  {| view_type := activity_type a;
     view_message := activity_message a;
     view_timestamp := activity_timestamp a;
     view_time_ago := time_ago now (activity_timestamp a) |}.

(** [datetime.utcnow()] is read anew for each entry of the loop: [clock i]
    is the reading taken for the entry at position [i].  Entries with equal
    time stamps come out in insertion order. *)
Definition get_recent_activity (clock : nat -> Z) (db : store)
  : response (list activity_view) * store :=
  let activities := take 10 (sort_desc (activity_collection db)) in
  (Success (imap (fun i a => annotate (clock i) a) activities), db).

(** * Vocabulary of the statements *)

(** [text] contains [keyword] as a substring, letter case ignored. *)
Definition contains_ci (text keyword : string) : bool :=
  contains (lower keyword) (lower text).

(** [kw] is a configured keyword of category [C]. *)
Definition keyword_of (C kw : string) : Prop :=
  exists kws, (C, kws) ∈ CATEGORY_KEYWORDS /\ kw ∈ kws.

(** [C'] is declared before [C] in [CATEGORIES]. *)
Definition declared_before (C' C : string) : Prop :=
  exists i j, CATEGORIES !! i = Some C' /\ CATEGORIES !! j = Some C /\ (i < j)%nat.

(** One of [kws] occurs in [text], which is already lower-cased: the
    condition of the loop body of [manual_category_detection]. *)
Definition hit (text : string) (kws : list string) : bool :=
  any (fun keyword => contains (lower keyword) text) kws.

(** The statistical classifier is unavailable: one of the three artifacts
    is missing. *)
Definition unavailable {F} (ml : ml_components F) : Prop :=
  model ml = None \/ tfidf_vectorizer ml = None \/ label_encoder ml = None.

(** The document [c] is the one [submit_complaint] builds for [req] once the
    category [cat] and the keyword match [man] are known. *)
Definition entry_of (req : submit_request) (cat : string) (man : option string)
    (now : Z) (c : complaint) : Prop :=
  complaint_text c = request_text req /\
  category c = cat /\
  prediction_source c = match man with Some _ => "manual" | None => "model" end /\
  status c = "new" /\
  severity c = parse_severity (f_severity (form req)) /\
  priority_score c = inject_Z (initial_priority (severity c) (complaint_text c)) /\
  votes c = 0 /\
  voters c = [] /\
  timestamp c = bson_date now.

(** The store can take the document of [req]: the [tags] field did not
    raise, and the severity, the priority score and the tags can be encoded
    in BSON. *)
Definition storable (req : submit_request) : bool :=
  let severity := parse_severity (f_severity (form req)) in
  match f_tags (form req) with
  | TagsRaises => false
  | tags =>
      int64 severity
      && int64 (initial_priority severity (request_text req))
      && tags_encodable tags
  end.

(** The activity entry appended on creation. *)
Definition creation_activity (cat : string) (now : Z) : activity :=
  {| activity_type := "new_complaint";
     activity_message := "New complaint submitted in " +:+ cat +:+ " category";
     activity_timestamp := bson_date now |}.

(** The complaint text as submitted, before [strip]. *)
Definition submitted_text (req : submit_request) : string :=
  if is_json req then
    match json req with
    | Some data => default "" (j_complaint data)
    | None => ""
    end
  else default "" (f_complaint (form req)).

(** ** Sample inputs *)

(** No artifact was loaded. *)
Definition no_classifier : ml_components unit :=
  {| model := None; tfidf_vectorizer := None; label_encoder := None |}.

(** All three artifacts are loaded and every call of them raises. *)
Definition raising_classifier : ml_components unit :=
  {| model := Some (fun _ => None);
     tfidf_vectorizer := Some (fun _ => None);
     label_encoder := Some (fun _ => None) |}.

Definition empty_store : store :=
  {| complaints_collection := ∅; activity_collection := [] |}.

(** A multipart submission with a complaint text and a severity field. *)
Definition form_request (text : string) (severity : option string)
  : submit_request :=
  {| is_json := false;
     json := None;
     form := {| f_complaint := Some text;
                f_location := None;
                f_submitted_by := None;
                f_severity := severity;
                f_anonymous := None;
                f_tags := TagsAbsent |} |}.

(** The request [req] with its [severity] form field replaced. *)
Definition with_severity (severity : option string) (req : submit_request)
  : submit_request :=
  {| is_json := is_json req;
     json := json req;
     form := {| f_complaint := f_complaint (form req);
                f_location := f_location (form req);
                f_submitted_by := f_submitted_by (form req);
                f_severity := severity;
                f_anonymous := f_anonymous (form req);
                f_tags := f_tags (form req) |} |}.

(** The [severity] form field is missing, or is not the writing of an
    integer. *)
Definition no_severity (severity : option string) : Prop :=
  severity = None \/ exists s, severity = Some s /\ py_int s = None.

(** The priority score [p] is a whole number of halves whose magnitude
    stays below [2 ^ 52] through two votes: on such a score the binary64
    additions of one half are exact. *)
Definition exact_score (p : Q) : Prop :=
  exists k, (p == k # 2)%Q /\ Z.abs k + 2 < 2 ^ 53.

(** The voter named by [email] has already voted on [c]. *)
Definition conflicts (email : option string) (c : complaint) : Prop :=
  exists e, email = Some e /\ e <> "" /\ e ∈ voters c.

(** A vote request on [id]. *)
Definition vote_request (id : string) (vote_type : option jvalue)
    (email : option string) : option vote_json :=
  Some {| v_complaintId := Some id;
          v_voteType := vote_type;
          v_userEmail := email |}.

(** The request [data] with its [voteType] replaced. *)
Definition with_voteType (vote_type : option jvalue) (data : option vote_json)
  : option vote_json :=
  match data with
  | Some d => Some {| v_complaintId := v_complaintId d;
                      v_voteType := vote_type;
                      v_userEmail := v_userEmail d |}
  | None => None
  end.

(** The answer to an accepted vote that left the document as [c]. *)
Definition vote_answer (added : bool) (c : complaint) : response vote_result :=
  Success {| vr_message := if added then "Vote added" else "Vote removed";
             vr_votes := votes c;
             vr_priority_score := priority_score c |}.

(** A stored complaint with the given counters and voters. *)
Definition sample_complaint (n : Z) (p : Q) (vs : list string) : complaint :=
  {| complaint_text := "The street lamp is broken";
     category := "Road Issues";
     location := "Not specified";
     timestamp := 0;
     prediction_source := "manual";
     model_version := MODEL_VERSION;
     status := "new";
     priority_score := p;
     severity := 5;
     anonymous := false;
     votes := n;
     submitted_by := "Anonymous";
     voters := vs |}.

Definition sample_store (n : Z) (p : Q) (vs : list string) : store :=
  {| complaints_collection := {[ "c-1" := sample_complaint n p vs ]};
     activity_collection := [] |}.

(** A status update of [id] to [new_status]. *)
Definition status_request (id new_status : string) : option status_json :=
  Some {| s_complaintId := Some id; s_status := Some new_status |}.

Definition valid_statuses : list string := ["new"; "in_progress"; "resolved"].

(** The human labels of the three statuses. *)
Definition status_labels : list (string * string) :=
  [("new", "New"); ("in_progress", "In Progress"); ("resolved", "Resolved")].

(** [a] is at least as recent as [b]. *)
Definition not_older (a b : activity) : Prop :=
  activity_timestamp b <= activity_timestamp a.

(** "1 minute ago", "2 minutes ago", ... *)
Definition count_label (n : Z) (unit : string) : string :=
  str_of_int n +:+ " " +:+ unit +:+ (if n =? 1 then "" else "s") +:+ " ago".

(** The age label for an age of [d] microseconds: the whole minutes under
    one hour, the whole hours under one day, and from one day on a count of
    days, which is the whole days of the age under one hundred years of 365
    days. *)
Definition age_label (d : Z) (label : string) : Prop :=
  (d < 60 * 1000000 -> label = "just now") /\
  (60 * 1000000 <= d < 3600 * 1000000 ->
     label = count_label (d / (60 * 1000000)) "minute") /\
  (3600 * 1000000 <= d < 86400 * 1000000 ->
     label = count_label (d / (3600 * 1000000)) "hour") /\
  (86400 * 1000000 <= d ->
     exists days,
       1 <= days /\
       label = count_label days "day" /\
       (d < 36500 * (86400 * 1000000) -> days = d / (86400 * 1000000))).

(** An activity log of [n] entries, the entry of rank [k] stamped at
    [k] seconds. *)
Definition sample_log (n : nat) : list activity :=
  map (fun k => {| activity_type := "new_complaint";
                   activity_message := str_of_int (Z.of_nat k);
                   activity_timestamp := Z.of_nat k * 1000000 |})
      (seq 0 n).


(** * The other handlers *)

(** ** Departments, admin notes and comments

    The three handlers below write fields of a complaint document that the
    handlers above never read: [assigned_department], [admin_notes] and
    [comments].  A [document] is a complaint together with these fields;
    [admin_notes] is absent until the first [$push], which is the empty
    list, and [assigned_department] is absent until it is set. *)

Record comment := {
  comment_text : string;
  comment_timestamp : Z;
  comment_user : string;
  comment_id : string
}.

Record admin_note := {
  note_text : string;
  note_timestamp : Z;
  note_admin : string
}.

Record document := {
  base : complaint;
  assigned_department : option string;
  admin_notes : list admin_note;
  comments : list comment
}.

Record database := {
  documents : gmap string document;
  activities : list activity
}.

Definition set_documents (m : gmap string document) (db : database) : database :=
  {| documents := m; activities := activities db |}.

(** *** [assign_department] *)




(** *** [save_admin_note] *)

Record note_json := {
  n_complaintId : option string;
  n_noteText : option string
}.

Definition push_admin_note (note : admin_note) (d : document) : document :=
  {| base := base d;
     assigned_department := assigned_department d;
     admin_notes := admin_notes d ++ [note];
     comments := comments d |}.

(** The answer carries the message of the source. *)
Definition save_admin_note (data : option note_json) (now : Z) (db : database)
  : response string * database :=
  let complaint_id := data ≫= n_complaintId in
  let note_text := data ≫= n_noteText in
  if falsy complaint_id || falsy note_text then
    (Failure 400 "Missing required fields", db)
  else
    let complaint_id := default "" complaint_id in
    let admin_note :=
      {| note_text := default "" note_text;
         note_timestamp := bson_date now;
         note_admin := "Administrator" |} in
    match documents db !! complaint_id with
    | None => (Failure 404 "Complaint not found", db)
    | Some d =>
        (Success "Admin note saved successfully",
         set_documents (<[complaint_id := push_admin_note admin_note d]>
                          (documents db)) db)
    end.

(** *** [add_comment] *)





(** ** Sorting

    A stable insertion sort by a comparison [le]: the model of the store's
    [sort]; documents with equal keys keep the order they were met in. *)
Fixpoint insert_by {A} (le : A -> A -> bool) (a : A) (l : list A) : list A :=
  match l with
  | [] => [a]
  | b :: l' => if le a b then a :: l else b :: insert_by le a l'
  end.

Definition sort_by {A} (le : A -> A -> bool) (l : list A) : list A :=
  foldr (insert_by le) [] l.

(** ** [get_analytics] *)

(** [count_documents(filter)] *)
Definition count_documents (p : complaint -> bool) (db : store) : nat :=
  length (List.filter p (snd <$> map_to_list (complaints_collection db))).

(** The [$group] stage: one group per category met, with its count. *)
Fixpoint add_to_group (category : string) (groups : list (string * nat))
  : list (string * nat) :=
  match groups with
  | [] => [(category, 1%nat)]
  | (c, n) :: rest =>
      if String.eqb c category then (c, S n) :: rest
      else (c, n) :: add_to_group category rest
  end.

Definition group_by_category (docs : list complaint) : list (string * nat) :=
  foldr (fun d groups => add_to_group (category d) groups) [] docs.

(** The pipeline [$group], then [$sort] by count, largest first. *)
Definition aggregate_categories (db : store) : list (string * nat) :=
  sort_by (fun g h => (snd h <=? snd g)%nat)
    (group_by_category (snd <$> map_to_list (complaints_collection db))).

(** The answer; [category_counts] is the dict built from the sorted groups,
    one key per group.  The order of the list is the order in which the
    dict was filled; the JSON text of the answer lists the keys in the
    order of the serialiser, so no property of the answer rests on it. *)
Record analytics := {
  total_complaints : nat;
  category_counts : list (string * nat);
  resolved_count : nat;
  pending_count : nat
}.

Definition get_analytics (db : store) : response analytics * store :=
  let total_complaints := count_documents (fun _ => true) db in
  let category_results := aggregate_categories db in
  let category_counts := category_results in
  let resolved_count :=
    count_documents (fun c => String.eqb (status c) "resolved") db in
  let pending_count :=
    count_documents (fun c => negb (String.eqb (status c) "resolved")) db in
  (Success {| total_complaints := total_complaints;
              category_counts := category_counts;
              resolved_count := resolved_count;
              pending_count := pending_count |}, db).

(** ** [get_complaints] *)

(** The query string ([request.args]); a parameter is [None] when absent. *)
Record complaints_args := {
  a_category : option string;
  a_status : option string;
  a_sort : option string;
  a_page : option string;
  a_per_page : option string;
  a_search : option string;
  a_submitted_by : option string
}.

(** [s.split(sep)] for a one-character separator. *)
Fixpoint split_on (sep : ascii) (s : string) : list string :=
  match s with
  | EmptyString => [EmptyString]
  | String c s' =>
      if Ascii.eqb c sep then EmptyString :: split_on sep s'
      else match split_on sep s' with
           | h :: t => String c h :: t
           | [] => [String c EmptyString]
           end
  end.

(** The filter document. *)
Inductive status_filter :=
| StatusIs (s : string)
| StatusIn (statuses : list string).

Record query := {
  q_category : option string;
  q_status : option status_filter;
  q_text : option string;
  q_submitted_by : option string
}.

(** [x and x != "All"] for an optional parameter. *)
Definition given_not_all (x : option string) : bool :=
  negb (falsy x) && negb (String.eqb (default "" x) "All").

Definition build_query (category status : option string) (search : string)
    (submitted_by : option string) : query :=
  {| q_category :=
       if given_not_all category then Some (default "" category) else None;
     q_status :=
       if given_not_all status then
         let status := default "" status in
         if contains "," status then Some (StatusIn (split_on "," status))
         else Some (StatusIs status)
       else None;
     q_text := if String.eqb search "" then None else Some search;
     q_submitted_by :=
       if falsy submitted_by then None else Some (default "" submitted_by) |}.

(** The fields a sort order names, and a sort order: fields with their
    direction, [-1] for descending. *)
Inductive sort_field := Timestamp | PriorityScore | Votes.

Definition sort_order_of (sort_by : string) : list (sort_field * Z) :=
  if String.eqb sort_by "newest" then [(Timestamp, -1)]
  else if String.eqb sort_by "oldest" then [(Timestamp, 1)]
  else if String.eqb sort_by "highest_priority" then
    [(PriorityScore, -1); (Votes, -1); (Timestamp, -1)]
  else if String.eqb sort_by "most_votes" then [(Votes, -1); (Timestamp, -1)]
  else [(Timestamp, -1)].

Definition compare_field (f : sort_field) (a b : complaint) : comparison :=
  match f with
  | Timestamp => timestamp a ?= timestamp b
  | PriorityScore => (priority_score a ?= priority_score b)%Q
  | Votes => votes a ?= votes b
  end.

(** [a] may come before [b] under the sort order: at the first field on
    which they differ, [a] is on the side the direction asks for. *)
Fixpoint order_le (order : list (sort_field * Z)) (a b : complaint) : bool :=
  match order with
  | [] => true
  | (f, direction) :: rest =>
      match compare_field f a b with
      | Eq => order_le rest a b
      | Lt => 0 <? direction
      | Gt => direction <? 0
      end
  end.

Section get_complaints.

(** [text_search s] is the [$text] filter for the search string [s]; it is
    [None] when the store refuses the query. *)
Variable text_search : string -> option (complaint -> bool).

Definition status_matches (f : status_filter) (c : complaint) : bool :=
  match f with
  | StatusIs s => String.eqb (status c) s
  | StatusIn statuses => str_in (status c) statuses
  end.

(** The documents a filter selects; [None] when the store refuses it. *)
Definition matches (q : query) : option (complaint -> bool) :=
  text ← match q_text q with
         | None => Some (fun _ => true)
         | Some s => text_search s
         end;
  Some (fun c =>
          match q_category q with
          | None => true
          | Some x => String.eqb (category c) x
          end
          && match q_status q with
             | None => true
             | Some f => status_matches f c
             end
          && text c
          && match q_submitted_by q with
             | None => true
             | Some x => String.eqb (submitted_by c) x
             end).

(** [find(query, sort=.., skip=.., limit=..)] read to the end.  [skip] and
    the absolute value of [limit] are encoded in BSON, which takes 8-byte
    integers only; a negative [skip] is refused; a [limit] of 0 is no limit
    and a negative one stands for its absolute value.  The store promises
    no order among documents that tie on every field of the sort; here
    they keep the order of the collection. *)
Definition find (p : complaint -> bool) (order : list (sort_field * Z))
    (skip limit : Z) (db : store) : option (list (string * complaint)) :=
  if (skip <? 0) || negb (int64 skip && int64 (Z.abs limit)) then None
  else
    let selected :=
      List.filter (fun kc => p (snd kc)) (map_to_list (complaints_collection db)) in
    let sorted := sort_by (fun x y => order_le order (snd x) (snd y)) selected in
    let rest := drop (Z.to_nat skip) sorted in
    Some (if limit =? 0 then rest else take (Z.to_nat (Z.abs limit)) rest).

Record complaints_page := {
  pg_complaints : list (string * complaint);
  pg_total : Z;
  pg_page : Z;
  pg_per_page : Z;
  pg_total_pages : Z
}.

(** [int(request.args.get(name, default))] *)
Definition int_arg (x : option string) (default : Z) : option Z :=
  match x with
  | None => Some default
  | Some s => py_int s
  end.

(** The handler.  Every exception (a parameter that is no integer, a query
    the store refuses, a division by zero) is answered with status 500.
    [create_index] adds no document and changes none. *)
Definition get_complaints (args : complaints_args) (db : store)
  : response complaints_page * store :=
  let result :=
    page ← int_arg (a_page args) 1;
    per_page ← int_arg (a_per_page args) 10;
    let search := default "" (a_search args) in
    let query :=
      build_query (a_category args) (a_status args) search
        (a_submitted_by args) in
    let sort_order := sort_order_of (default "newest" (a_sort args)) in
    let skip := (page - 1) * per_page in
    p ← matches query;
    let total_count := Z.of_nat (count_documents p db) in
    complaints ← find p sort_order skip per_page db;
    if per_page =? 0 then None
    else
      Some {| pg_complaints := complaints;
              pg_total := total_count;
              pg_page := page;
              pg_per_page := per_page;
              pg_total_pages := (total_count + per_page - 1) / per_page |} in
  match result with
  | Some body => (Success body, db)
  | None => (Failure 500 "Internal server error", db)
  end.

End get_complaints.

(** ** Further vocabulary and sample inputs *)

(** All three artifacts are loaded and the classifier answers [label] on
    every text. *)
Definition constant_classifier (label : string) : ml_components unit :=
  {| model := Some (fun _ => Some 0);
     tfidf_vectorizer := Some (fun _ => Some tt);
     label_encoder := Some (fun _ => Some label) |}.

(** A JSON submission with the given body and form. *)
Definition json_request (body : submit_json) (f : submit_form) : submit_request :=
  {| is_json := true; json := Some body; form := f |}.

Definition empty_form : submit_form :=
  {| f_complaint := None;
     f_location := None;
     f_submitted_by := None;
     f_severity := None;
     f_anonymous := None;
     f_tags := TagsAbsent |}.

(** A JSON body with a complaint text only. *)
Definition text_body (text : string) : submit_json :=
  {| j_complaint := Some text; j_location := None; j_submitted_by := None |}.

Definition first_char (s : string) : option ascii :=
  match s with
  | String c _ => Some c
  | EmptyString => None
  end.

Fixpoint last_char (s : string) : option ascii :=
  match s with
  | EmptyString => None
  | String c EmptyString => Some c
  | String _ s' => last_char s'
  end.

(** The number of documents among [docs] that satisfy [p]. *)
Definition count_if {A} (p : A -> bool) (docs : list A) : nat :=
  length (List.filter p docs).

(** The count the groups hold for [cat]: 0 when no group has that key. *)
Fixpoint group_count (cat : string) (groups : list (string * nat)) : nat :=
  match groups with
  | [] => 0
  | (c, n) :: rest =>
      ((if String.eqb c cat then n else 0) + group_count cat rest)%nat
  end.

(** The stored documents, without their keys. *)
Definition stored (db : store) : list complaint :=
  snd <$> map_to_list (complaints_collection db).

(** The body of the answer of [get_analytics]. *)
Definition analytics_of (db : store) : option analytics :=
  match fst (get_analytics db) with
  | Success a => Some a
  | Failure _ _ => None
  end.


Definition note_request (id text : string) : option note_json :=
  Some {| n_complaintId := Some id; n_noteText := Some text |}.


(** A database holding one document, with the given comments. *)
Definition sample_database (cs : list comment) : database :=
  {| documents :=
       {[ "c-1" := {| base := sample_complaint 0 (inject_Z 5) [];
                      assigned_department := None;
                      admin_notes := [];
                      comments := cs |} ]};
     activities := [] |}.


(** The value a sort field holds in a document, as a rational. *)
Definition sort_key (f : sort_field) (c : complaint) : Q :=
  match f with
  | Timestamp => inject_Z (timestamp c)
  | PriorityScore => priority_score c
  | Votes => inject_Z (votes c)
  end.

(** The stored documents a filter selects, with their keys. *)
Definition selection (p : complaint -> bool) (db : store)
  : list (string * complaint) :=
  List.filter (fun kc => p (snd kc)) (map_to_list (complaints_collection db)).

(** The whole result of a query, in the order asked for. *)
Definition listing (p : complaint -> bool) (order : list (sort_field * Z))
    (db : store) : list (string * complaint) :=
  sort_by (fun x y => order_le order (snd x) (snd y)) (selection p db).

(** No parameter given. *)
Definition no_args : complaints_args :=
  {| a_category := None;
     a_status := None;
     a_sort := None;
     a_page := None;
     a_per_page := None;
     a_search := None;
     a_submitted_by := None |}.

(** No text index: every [$text] query is refused. *)
Definition no_text_search : string -> option (complaint -> bool) :=
  fun _ => None.

(** Four stored complaints. *)
Definition sample_entry (cat st : string) (ts v : Z) (p : Q) : complaint :=
  {| complaint_text := "The street lamp is broken";
     category := cat;
     location := "";
     timestamp := ts;
     prediction_source := "manual";
     model_version := MODEL_VERSION;
     status := st;
     priority_score := p;
     severity := 5;
     anonymous := false;
     votes := v;
     submitted_by := "Anonymous";
     voters := [] |}.

Definition sample_collection : store :=
  {| complaints_collection :=
       list_to_map
         [ ("a", sample_entry "Water Issues" "new" 10 0 (inject_Z 5));
           ("b", sample_entry "Road Issues" "resolved" 20 3 (11 # 2));
           ("c", sample_entry "Water Issues" "in_progress" 30 1 (inject_Z 5));
           ("d", sample_entry "Other" "new" 5 7 (inject_Z 9)) ];
     activity_collection := [] |}.

(** The filter and the sort order a request asks for. *)
Definition query_of (args : complaints_args) : query :=
  build_query (a_category args) (a_status args) (default "" (a_search args))
    (a_submitted_by args).

Definition order_of (args : complaints_args) : list (sort_field * Z) :=
  sort_order_of (default "newest" (a_sort args)).

(** A document is wanted by a request: it has the category asked for, one
    of the statuses asked for, the submitter asked for, and passes the text
    filter [t]; a parameter that is absent, empty or (for category and
    status) ["All"] asks for nothing. *)
Definition wanted (args : complaints_args) (t : complaint -> bool)
    (c : complaint) : bool :=
  match a_category args with
  | None => true
  | Some x => String.eqb x "" || String.eqb x "All" || String.eqb (category c) x
  end
  && match a_status args with
     | None => true
     | Some s => String.eqb s "" || String.eqb s "All"
                 || str_in (status c) (split_on "," s)
     end
  && t c
  && match a_submitted_by args with
     | None => true
     | Some x => String.eqb x "" || String.eqb (submitted_by c) x
     end.

(** The requests [args] with one parameter replaced. *)
Definition with_category (x : option string) (args : complaints_args)
  : complaints_args :=
  {| a_category := x;
     a_status := a_status args;
     a_sort := a_sort args;
     a_page := a_page args;
     a_per_page := a_per_page args;
     a_search := a_search args;
     a_submitted_by := a_submitted_by args |}.

Definition with_status (x : option string) (args : complaints_args)
  : complaints_args :=
  {| a_category := a_category args;
     a_status := x;
     a_sort := a_sort args;
     a_page := a_page args;
     a_per_page := a_per_page args;
     a_search := a_search args;
     a_submitted_by := a_submitted_by args |}.

Definition with_sort (x : option string) (args : complaints_args)
  : complaints_args :=
  {| a_category := a_category args;
     a_status := a_status args;
     a_sort := x;
     a_page := a_page args;
     a_per_page := a_per_page args;
     a_search := a_search args;
     a_submitted_by := a_submitted_by args |}.

Definition with_paging (page per_page : option string) (args : complaints_args)
  : complaints_args :=
  {| a_category := a_category args;
     a_status := a_status args;
     a_sort := a_sort args;
     a_page := page;
     a_per_page := per_page;
     a_search := a_search args;
     a_submitted_by := a_submitted_by args |}.


(** * Properties *)

(** ** Strings *)

Lemma lower_char_idem (c : ascii) : lower_char (lower_char c) = lower_char c.
Proof. destruct c as [[] [] [] [] [] [] [] []]; reflexivity. Qed.

Lemma lower_idem (s : string) : lower (lower s) = lower s.
Proof.
  induction s as [|c s IH]; simpl; [reflexivity|].
  by rewrite lower_char_idem, IH.
Qed.

Lemma startswith_iff (n h : string) :
  startswith n h = true <-> exists b, h = n +:+ b.
Proof.
  revert h. induction n as [|c n IH]; intros h.
  - split; [intros _; by exists h | done].
  - destruct h as [|d h]; simpl.
    + split; [done | intros [b Hb]; discriminate].
    + rewrite andb_true_iff, IH, Ascii.eqb_eq.
      split.
      * intros [-> [b ->]]. by exists b.
      * intros [b Hb]. injection Hb as -> ->. eauto.
Qed.

(** [contains] decides the occurrence of [n] as a contiguous run of [h]. *)
Lemma contains_iff (n h : string) :
  contains n h = true <-> exists a b, h = a +:+ n +:+ b.
Proof.
  induction h as [|d h IH].
  - simpl. destruct (startswith n "") eqn:Hp.
    + apply startswith_iff in Hp as [b Hb]. split; [|done].
      intros _. exists "", b. exact Hb.
    + split; [done|]. intros [a [b Hab]].
      destruct a; [|discriminate]. simpl in Hab.
      assert (startswith n "" = true) by (apply startswith_iff; eauto).
      congruence.
  - simpl. destruct (startswith n (String d h)) eqn:Hp.
    + apply startswith_iff in Hp as [b Hb]. split; [|done].
      intros _. exists "", b. exact Hb.
    + rewrite IH. split.
      * intros [a [b ->]]. by exists (String d a), b.
      * intros [a [b Hab]]. destruct a as [|e a]; simpl in Hab.
        -- assert (startswith n (String d h) = true)
             by (apply startswith_iff; eauto).
           congruence.
        -- injection Hab as _ ->. eauto.
Qed.

Lemma lstrip_length (s : string) : (String.length (lstrip s) <= String.length s)%nat.
Proof.
  induction s as [|c s IH]; simpl; [lia|].
  destruct (isspace c); simpl; lia.
Qed.



(** Lower-casing never shortens a text. *)
Lemma lower_not_shorter (s : string) : len s <= len (lower s).
Proof.
  unfold len. induction s as [|c s IH]; [done|].
  cbn [lower String.length]. lia.
Qed.

Lemma rstrip_idem (s : string) : rstrip (rstrip s) = rstrip s.
Proof.
  induction s as [|c s IH]; [reflexivity|].
  simpl. destruct (rstrip s) as [|d r] eqn:Hr.
  - destruct (isspace c) eqn:Hc; [reflexivity|]. simpl. by rewrite Hc.
  - change (rstrip (String c (String d r))) with
      (match rstrip (String d r) with
       | EmptyString => if isspace c then EmptyString else String c EmptyString
       | r' => String c r'
       end).
    by rewrite IH.
Qed.

Lemma lstrip_fixed (s : string) :
  lstrip s = s <->
  match s with String c _ => isspace c = false | EmptyString => True end.
Proof.
  destruct s as [|c s]; [done|]. simpl.
  destruct (isspace c) eqn:Hc; [|done]. split; [|done].
  intros Heq. pose proof (lstrip_length s) as Hlen.
  rewrite Heq in Hlen. simpl in Hlen. lia.
Qed.

Lemma lstrip_idem (s : string) : lstrip (lstrip s) = lstrip s.
Proof.
  induction s as [|c s IH]; [reflexivity|]. simpl.
  destruct (isspace c) eqn:Hc; [done|]. simpl. by rewrite Hc.
Qed.

Lemma lstrip_rstrip (s : string) : lstrip s = s -> lstrip (rstrip s) = rstrip s.
Proof.
  intros Hs. apply lstrip_fixed in Hs. apply lstrip_fixed.
  destruct s as [|c s]; [done|]. simpl.
  destruct (rstrip s); [rewrite Hs|]; done.
Qed.

(** [strip] is idempotent, and what it returns has no white space at either
    end. *)
Lemma strip_idem (s : string) : strip (strip s) = strip s.
Proof.
  unfold strip.
  rewrite (lstrip_rstrip (lstrip s)) by apply lstrip_idem.
  apply rstrip_idem.
Qed.

(** ** The keyword classifier *)

Lemma CATEGORY_KEYWORDS_order : map fst CATEGORY_KEYWORDS = CATEGORIES.
Proof. reflexivity. Qed.

Lemma any_true {A} (p : A -> bool) (xs : list A) :
  any p xs = true <-> exists x, x ∈ xs /\ p x = true.
Proof.
  unfold any. rewrite existsb_exists.
  split; intros [x [Hx Hp]]; exists x; split; auto; by apply list_elem_of_In.
Qed.

Lemma any_false {A} (p : A -> bool) (xs : list A) :
  any p xs = false <-> forall x, x ∈ xs -> p x = false.
Proof.
  split.
  - intros Hany x Hx. destruct (p x) eqn:Hp; [|done].
    assert (any p xs = true) by (apply any_true; eauto). congruence.
  - intros Hall. destruct (any p xs) eqn:Hany; [|done].
    apply any_true in Hany as [x [Hx Hp]]. rewrite Hall in Hp; done.
Qed.

Section first_match.
Variable text : string.

Lemma first_match_skip (t1 t2 : list (string * list string)) :
  (forall C kws, (C, kws) ∈ t1 -> hit text kws = false) ->
  first_match (t1 ++ t2) text = first_match t2 text.
Proof.
  induction t1 as [|[C kws] t1 IH]; intros Hno; [done|].
  simpl. fold (hit text kws). rewrite (Hno C kws) by left.
  apply IH. intros C' kws' Hin. apply (Hno C' kws'). by right.
Qed.

Lemma first_match_here C kws (t : list (string * list string)) :
  hit text kws = true -> first_match ((C, kws) :: t) text = Some C.
Proof. intros Hhit. simpl. fold (hit text kws). by rewrite Hhit. Qed.

Lemma first_match_None (t : list (string * list string)) :
  first_match t text = None <->
  forall C kws, (C, kws) ∈ t -> hit text kws = false.
Proof.
  induction t as [|[C kws] t IH]; simpl.
  - split; [|done]. intros _ C kws Hin. by apply elem_of_nil in Hin.
  - fold (hit text kws). destruct (hit text kws) eqn:Hhit.
    + split; [done|]. intros Hall.
      rewrite (Hall C kws) in Hhit by left. done.
    + rewrite IH. split.
      * intros Hall C' kws' [Heq|Hin]%elem_of_cons; [congruence|eauto].
      * intros Hall C' kws' Hin. apply (Hall C' kws'). by right.
Qed.
End first_match.

(** The keyword classifier returns the first declared category one of
    whose keywords occurs in the text. *)
Lemma manual_category_detection_first (text C kw : string) :
  keyword_of C kw ->
  contains_ci text kw = true ->
  (forall C' kw', declared_before C' C -> keyword_of C' kw' ->
                  contains_ci text kw' = false) ->
  manual_category_detection text = Some C.
Proof.
  intros (kws & Hin & Hkw) Hhit Hearlier.
  unfold manual_category_detection.
  apply list_elem_of_split in Hin as (t1 & t2 & Htable).
  rewrite Htable. rewrite first_match_skip.
  - apply first_match_here, any_true. eauto.
  - intros C' kws' Hin'. apply any_false. intros kw' Hkw'.
    apply (Hearlier C' kw').
    + apply list_elem_of_lookup in Hin' as [i Hi].
      exists i, (length t1). rewrite <- CATEGORY_KEYWORDS_order, Htable.
      rewrite !list_lookup_fmap.
      rewrite lookup_app_l by (by eapply lookup_lt_Some).
      rewrite Hi. rewrite list_lookup_middle by done.
      split_and!; [done..|]. by eapply lookup_lt_Some.
    + exists kws'. split; [|done]. rewrite Htable.
      apply elem_of_app. by left.
Qed.

(** The keyword classifier finds nothing exactly when no configured
    keyword occurs in the text. *)
Lemma manual_category_detection_None (text : string) :
  manual_category_detection text = None <->
  forall C kw, keyword_of C kw -> contains_ci text kw = false.
Proof.
  unfold manual_category_detection. rewrite first_match_None. split.
  - intros Hall C kw (kws & Hin & Hkw).
    specialize (Hall C kws Hin). by eapply any_false in Hall.
  - intros Hall C kws Hin. apply any_false. intros kw Hkw.
    apply (Hall C kw). by exists kws.
Qed.

Lemma manual_category_detection_lower (text : string) :
  manual_category_detection (lower text) = manual_category_detection text.
Proof. unfold manual_category_detection. by rewrite lower_idem. Qed.

(** A keyword match is a declared category. *)
Lemma first_match_declared (text C : string) :
  first_match CATEGORY_KEYWORDS text = Some C -> str_in C CATEGORIES = true.
Proof.
  unfold CATEGORY_KEYWORDS. simpl.
  repeat (match goal with
          | |- context [if ?b then _ else _] => destruct b
          end; [intros [= <-]; reflexivity|]).
  discriminate.
Qed.

(** ** Category resolution *)

Lemma resolve_category_manual {F} (ml : ml_components F) (text C : string) :
  manual_category_detection text = Some C ->
  resolve_category ml text = Some (C, Some C).
Proof.
  intros Hm. pose proof (first_match_declared _ _ Hm) as Hd.
  unfold resolve_category. rewrite Hm. cbn [mbind option_bind].
  by rewrite Hd.
Qed.

Lemma resolve_category_default {F} (ml : ml_components F) (text : string) :
  manual_category_detection text = None ->
  unavailable ml ->
  resolve_category ml text = Some ("Other", None).
Proof.
  intros Hm Hun. unfold resolve_category. rewrite Hm.
  destruct Hun as [H|[H|H]]; rewrite H;
    repeat match goal with
           | |- context [match ?x with Some _ => _ | None => _ end] =>
               is_var x || (destruct x eqn:?)
           end; reflexivity.
Qed.

(** ** Creation *)

(** What a creation that goes through does: the response carries the
    identifier and the category, one document is inserted under the
    identifier and one activity entry is appended. *)
Lemma submit_complaint_created {F} (ml : ml_components F) req now id db cat man :
  (len (request_text req) <? 10) = false ->
  resolve_category ml (lower (request_text req)) = Some (cat, man) ->
  storable req = true ->
  complaints_collection db !! id = None ->
  exists c db',
    submit_complaint ml req now id db
      = (Success {| r_complaint_id := id; r_category := cat |}, db') /\
    complaints_collection db' = <[id := c]> (complaints_collection db) /\
    activity_collection db' = (activity_collection db ++ [creation_activity cat now])%list /\
    entry_of req cat man now c.
Proof.
  intros Hlen Hres Hst Hfresh. unfold submit_complaint.
  rewrite Hlen, Hres. unfold storable in Hst.
  destruct (f_tags (form req)) eqn:Htags; try discriminate Hst;
    rewrite Hst, Hfresh; cbn [negb];
    (eexists _, _; split; [reflexivity|]; split; [reflexivity|];
     split; [reflexivity|]; unfold entry_of; simpl; split_and!; reflexivity).
Qed.

(** Conversely, a creation that answered with success went through all
    the checks. *)
Lemma submit_complaint_success_inv {F} (ml : ml_components F) req now id db body db' :
  submit_complaint ml req now id db = (Success body, db') ->
  exists cat man c,
    (len (request_text req) <? 10) = false /\
    resolve_category ml (lower (request_text req)) = Some (cat, man) /\
    complaints_collection db !! id = None /\
    body = {| r_complaint_id := id; r_category := cat |} /\
    complaints_collection db' = <[id := c]> (complaints_collection db) /\
    activity_collection db' = (activity_collection db ++ [creation_activity cat now])%list /\
    entry_of req cat man now c.
Proof.
  intros Hsub.
  destruct (len (request_text req) <? 10) eqn:Hlen;
    [unfold submit_complaint in Hsub; rewrite Hlen in Hsub; discriminate|].
  destruct (resolve_category ml (lower (request_text req))) as [[cat man]|] eqn:Hres;
    [|unfold submit_complaint in Hsub; rewrite Hlen, Hres in Hsub; discriminate].
  destruct (storable req) eqn:Hst.
  2:{ unfold submit_complaint in Hsub. rewrite Hlen, Hres in Hsub.
      unfold storable in Hst.
      destruct (f_tags (form req)); try discriminate Hsub;
        rewrite Hst in Hsub; discriminate Hsub. }
  destruct (complaints_collection db !! id) eqn:Hfresh.
  { unfold submit_complaint in Hsub. rewrite Hlen, Hres in Hsub.
    unfold storable in Hst.
    destruct (f_tags (form req)); try discriminate Hst;
      rewrite Hst, Hfresh in Hsub; discriminate Hsub. }
  destruct (submit_complaint_created ml req now id db cat man Hlen Hres Hst Hfresh)
    as (c & db2 & Heq & Hc & Ha & He).
  rewrite Heq in Hsub. injection Hsub as <- <-.
  exists cat, man, c. split_and!; done.
Qed.

(** A creation that answered with success had a document the store takes. *)
Lemma submit_complaint_success_storable {F} (ml : ml_components F)
    req now id db body db' :
  submit_complaint ml req now id db = (Success body, db') ->
  storable req = true.
Proof.
  intros Hsub. destruct (storable req) eqn:Hst; [done|].
  unfold submit_complaint in Hsub. unfold storable in Hst.
  destruct (len (request_text req) <? 10); [discriminate|].
  destruct (resolve_category ml (lower (request_text req))) as [[cat man]|];
    [|discriminate].
  destruct (f_tags (form req)); try discriminate Hsub;
    rewrite Hst in Hsub; discriminate Hsub.
Qed.



(** * Binary64 rounding *)

Lemma round_half_even_lower (a b : Z) : 0 < b -> a / b <= round_half_even a b.
Proof.
  intros Hb. unfold round_half_even. cbv zeta.
  destruct (2 * (a mod b) ?= b); [destruct (Z.even (a / b))| |]; lia.
Qed.

Lemma round_half_even_upper (a b : Z) :
  0 < b -> 2 * b * round_half_even a b <= 2 * a + b.
Proof.
  intros Hb. unfold round_half_even. cbv zeta.
  pose proof (Z.div_mod a b ltac:(lia)) as Hdm.
  pose proof (Z.mod_pos_bound a b Hb) as Hm.
  destruct (Z.compare_spec (2 * (a mod b)) b) as [He|Hl|Hg];
    [destruct (Z.even (a / b))| |]; nia.
Qed.

Lemma round_half_even_multiple (a b m : Z) :
  0 < b -> m * b <= a -> m <= round_half_even a b.
Proof.
  intros Hb Hm. etrans; [|by apply round_half_even_lower].
  apply Z.div_le_lower_bound; lia.
Qed.

Lemma round_half_even_exact (a b q : Z) :
  0 < b -> a = q * b -> round_half_even a b = q.
Proof.
  intros Hb ->. unfold round_half_even. cbv zeta.
  rewrite Z.mod_mul, Z.div_mul by lia.
  destruct (Z.compare_spec (2 * 0) b); (reflexivity || lia).
Qed.

(** The logarithm is below [E] when the quotient is below [2 ^ E]. *)
Lemma floor_log2_lt (n d E : Z) :
  0 < n -> 0 < d -> 0 <= E -> n < d * 2 ^ E -> floor_log2 n d < E.
Proof.
  intros Hn Hd HE Hlt. unfold floor_log2. cbv zeta.
  set (L := Z.log2 n - Z.log2 d).
  destruct (Z.log2_spec n Hn) as [Hn1 Hn2].
  destruct (Z.log2_spec d Hd) as [Hd1 Hd2].
  pose proof (Z.log2_nonneg n). pose proof (Z.log2_nonneg d).
  assert (L <= E) as HLE.
  { destruct (Z.le_gt_cases L E) as [|Hgt]; [done|]. exfalso.
    assert (2 ^ (Z.log2 d + 1 + E) <= 2 ^ Z.log2 n) as Hpow
      by (apply Z.pow_le_mono_r; lia).
    rewrite Z.pow_add_r in Hpow by lia.
    assert (0 < 2 ^ E) by (apply Z.pow_pos_nonneg; lia).
    nia. }
  destruct (0 <=? L) eqn:HL0.
  - apply Z.leb_le in HL0.
    destruct (d * 2 ^ L <=? n) eqn:Ht; [|lia].
    apply Z.leb_le in Ht.
    destruct (Z.eq_dec L E) as [->|]; [lia|lia].
  - apply Z.leb_gt in HL0.
    destruct (d <=? n * 2 ^ (- L)); lia.
Qed.

(** The quotient is at least [2 ^ floor_log2]. *)
Lemma floor_log2_le (n d : Z) :
  0 < n -> 0 < d -> 0 <= floor_log2 n d -> d * 2 ^ floor_log2 n d <= n.
Proof.
  intros Hn Hd. unfold floor_log2. cbv zeta.
  set (L := Z.log2 n - Z.log2 d).
  destruct (Z.log2_spec n Hn) as [Hn1 Hn2].
  destruct (Z.log2_spec d Hd) as [Hd1 Hd2].
  pose proof (Z.log2_nonneg n). pose proof (Z.log2_nonneg d).
  assert (1 <= L -> d * 2 ^ (L - 1) <= n) as Hlow.
  { intros HL.
    assert (Z.log2 n = Z.log2 d + 1 + (L - 1)) as Heq by lia.
    rewrite Heq, Z.pow_add_r in Hn1 by lia.
    assert (0 < 2 ^ (L - 1)) by (apply Z.pow_pos_nonneg; lia).
    nia. }
  destruct (0 <=? L) eqn:HL0.
  - apply Z.leb_le in HL0.
    destruct (d * 2 ^ L <=? n) eqn:Ht.
    + intros _. by apply Z.leb_le in Ht.
    + intros HL1. apply Hlow. lia.
  - apply Z.leb_gt in HL0.
    destruct (d <=? n * 2 ^ (- L)); lia.
Qed.

(** Rounding never goes below an integer that the number reaches. *)
Lemma binary64_pos_lower (n d m : Z) :
  0 < n -> 0 < d -> 0 <= m < 2 ^ 53 -> m * d <= n ->
  (inject_Z m <= binary64_pos n d)%Q.
Proof.
  intros Hn Hd Hm Hle. unfold binary64_pos. cbv zeta.
  set (e := Z.max (floor_log2 n d - 52) (-1074)).
  destruct (0 <=? e) eqn:He.
  - apply Z.leb_le in He. rewrite <- Zle_Qle.
    assert (0 < 2 ^ e) as Hpe by (apply Z.pow_pos_nonneg; lia).
    destruct (Z.eq_dec e 0) as [He0|He0].
    + rewrite He0. change (2 ^ 0) with 1. rewrite !Z.mul_1_r.
      by apply round_half_even_multiple.
    + assert (floor_log2 n d = e + 52) as Hfl by lia.
      pose proof (floor_log2_le n d Hn Hd ltac:(lia)) as Hlow.
      rewrite Hfl, Z.pow_add_r in Hlow by lia.
      assert (2 ^ 52 <= round_half_even n (d * 2 ^ e)) as Hr.
      { apply round_half_even_multiple; lia. }
      assert (2 <= 2 ^ e).
      { change 2 with (2 ^ 1) at 1. apply Z.pow_le_mono_r; lia. }
      change (2 ^ 53) with (2 ^ 52 * 2) in Hm. nia.
  - apply Z.leb_gt in He.
    assert (0 < 2 ^ (- e)) as Hpe by (apply Z.pow_pos_nonneg; lia).
    unfold Qle. cbn [Qnum Qden inject_Z].
    rewrite Z2Pos.id by done. rewrite Z.mul_1_r.
    apply round_half_even_multiple; [done|]. nia.
Qed.

(** Below [2 ^ E] rounding adds at most [2 ^ (E - 54)]. *)
Lemma binary64_pos_upper (n d E : Z) :
  0 < n -> 0 < d -> 0 <= E <= 52 -> n < d * 2 ^ E ->
  (binary64_pos n d <= (n # Z.to_pos d) + (1 # Z.to_pos (2 ^ (54 - E))))%Q.
Proof.
  intros Hn Hd HE Hlt. unfold binary64_pos. cbv zeta.
  pose proof (floor_log2_lt n d E Hn Hd ltac:(lia) Hlt) as Hfl.
  set (e := Z.max (floor_log2 n d - 52) (-1074)).
  assert (e <= E - 53) as He by lia.
  destruct (0 <=? e) eqn:He0; [apply Z.leb_le in He0; lia|].
  clear He0.
  assert (0 < 2 ^ (- e)) as Hpe by (apply Z.pow_pos_nonneg; lia).
  assert (0 < 2 ^ (54 - E)) as Hpc by (apply Z.pow_pos_nonneg; lia).
  assert (2 ^ (54 - E) <= 2 * 2 ^ (- e)) as Hc.
  { change 2 with (2 ^ 1) at 2. rewrite <- Z.pow_add_r by lia.
    apply Z.pow_le_mono_r; lia. }
  pose proof (round_half_even_upper (n * 2 ^ (- e)) d Hd) as Hup.
  unfold Qle, Qplus. cbn [Qnum Qden].
  rewrite Pos2Z.inj_mul, !Z2Pos.id by done.
  set (R := round_half_even (n * 2 ^ (- e)) d) in *.
  set (K := 2 ^ (- e)) in *. set (c := 2 ^ (54 - E)) in *.
  assert (2 * d * R * c <= (2 * (n * K) + d) * c) as H1
    by (apply Z.mul_le_mono_nonneg_r; lia).
  nia.
Qed.

(** A multiple of [2 ^ -k] below [2 ^ 52] is a binary64 number, for [k] up
    to 1. *)
Lemma binary64_pos_exact (n d : Z) :
  0 < n -> 0 < d -> (d = 1 \/ d = 2) -> n < d * 2 ^ 52 ->
  (binary64_pos n d == n # Z.to_pos d)%Q.
Proof.
  intros Hn Hd Hd2 Hlt. unfold binary64_pos. cbv zeta.
  pose proof (floor_log2_lt n d 52 Hn Hd ltac:(lia) Hlt) as Hfl.
  set (e := Z.max (floor_log2 n d - 52) (-1074)).
  assert (e <= -1) as He by lia.
  destruct (0 <=? e) eqn:He0; [apply Z.leb_le in He0; lia|].
  clear He0.
  assert (0 < 2 ^ (- e)) as Hpe by (apply Z.pow_pos_nonneg; lia).
  assert (2 ^ (- e) = 2 * 2 ^ (- e - 1)) as Hk.
  { change 2 with (2 ^ 1) at 2. rewrite <- Z.pow_add_r by lia.
    f_equal. lia. }
  unfold Qeq. cbn [Qnum Qden]. rewrite !Z2Pos.id by done.
  destruct Hd2 as [->| ->].
  - rewrite (round_half_even_exact _ 1 (n * 2 ^ (- e))) by lia. lia.
  - rewrite (round_half_even_exact _ 2 (n * 2 ^ (- e - 1))) by lia. lia.
Qed.

Lemma binary64_proper (p q : Q) : (p == q)%Q -> binary64 p = binary64 q.
Proof. intros Heq. unfold binary64. by rewrite (Qred_complete p q Heq). Qed.

Lemma binary64_pos_nonneg (n d : Z) :
  0 < n -> 0 < d -> (0 <= binary64_pos n d)%Q.
Proof.
  intros Hn Hd. apply (binary64_pos_lower n d 0 Hn Hd); [done|lia].
Qed.

(** Rounding never goes below an integer that the number reaches. *)
Lemma binary64_lower (q : Q) (m : Z) :
  0 <= m < 2 ^ 53 -> (inject_Z m <= q)%Q -> (inject_Z m <= binary64 q)%Q.
Proof.
  intros Hm Hle. rewrite <- (Qred_correct q) in Hle. unfold binary64.
  destruct (Qred q) as [[|n|n] d]; cbn [Qnum Qden] in *.
  - unfold Qle in *. cbn [Qnum Qden inject_Z] in *. lia.
  - apply binary64_pos_lower; [done|done|done|].
    unfold Qle in Hle. cbn [Qnum Qden inject_Z] in Hle. lia.
  - unfold Qle in Hle. cbn [Qnum Qden inject_Z] in Hle. lia.
Qed.

(** A number that is not positive is not rounded to a positive one. *)
Lemma binary64_nonpos (q : Q) : (q <= 0)%Q -> (binary64 q <= 0)%Q.
Proof.
  intros Hle. rewrite <- (Qred_correct q) in Hle. unfold binary64.
  destruct (Qred q) as [[|n|n] d]; cbn [Qnum Qden] in *.
  - apply Qle_refl.
  - unfold Qle in Hle. cbn [Qnum Qden] in Hle. lia.
  - pose proof (binary64_pos_nonneg (Z.pos n) (Z.pos d) eq_refl eq_refl) as H0.
    lra.
Qed.

(** Below [2 ^ E] rounding adds at most [2 ^ (E - 54)]. *)
Lemma binary64_upper (q : Q) (E : Z) :
  0 <= E <= 52 -> (0 <= q)%Q -> (q < inject_Z (2 ^ E))%Q ->
  (binary64 q <= q + (1 # Z.to_pos (2 ^ (54 - E))))%Q.
Proof.
  intros HE H0 Hlt. rewrite <- (Qred_correct q) in H0, Hlt.
  rewrite <- (Qred_correct q) at 2. unfold binary64.
  destruct (Qred q) as [[|n|n] d]; cbn [Qnum Qden] in *.
  - unfold Qle, Qplus. cbn [Qnum Qden]. lia.
  - apply (binary64_pos_upper (Z.pos n) (Z.pos d) E); [done|done|done|].
    unfold Qlt in Hlt. cbn [Qnum Qden inject_Z] in Hlt. lia.
  - unfold Qle in H0. cbn [Qnum Qden] in H0. lia.
Qed.

(** A whole number of halves below [2 ^ 52] is a binary64 number. *)
Lemma binary64_half (k : Z) :
  Z.abs k < 2 ^ 53 -> (binary64 (k # 2) == k # 2)%Q.
Proof.
  intros Hk. pose proof (Qred_correct (k # 2)) as Hred.
  pose proof (gcd_Qred (k # 2)) as Hgcd. unfold binary64.
  destruct (Qred (k # 2)) as [a d]. cbn [Qnum Qden] in *.
  unfold Qeq in Hred. cbn [Qnum Qden] in Hred.
  assert (Z.pos d = 1 \/ Z.pos d = 2) as Hd.
  { assert ((Z.pos d | 2)) as Hdiv.
    { apply (Z.gauss _ a); [|by rewrite Z.gcd_comm].
      exists k. lia. }
    apply Z.divide_pos_le in Hdiv; lia. }
  destruct a as [|n|n].
  - unfold Qeq. cbn [Qnum Qden]. lia.
  - rewrite (binary64_pos_exact (Z.pos n) (Z.pos d)); [|done|done|done|lia].
    unfold Qeq. cbn [Qnum Qden]. rewrite Pos2Z.id. lia.
  - rewrite (binary64_pos_exact (Z.pos n) (Z.pos d)); [|done|done|done|lia].
    unfold Qeq, Qopp. cbn [Qnum Qden]. rewrite Pos2Z.id. lia.
Qed.

(** An increment of one half, up or down, is exact on a whole number of
    halves while the magnitudes stay below [2 ^ 52]. *)
Lemma binary64_half_step (p : Q) (k change : Z) :
  (p == k # 2)%Q -> Z.abs k < 2 ^ 53 -> Z.abs (k + change) < 2 ^ 53 ->
  (binary64 (binary64 p + inject_Z change * (1 # 2))
   == p + inject_Z change * (1 # 2))%Q.
Proof.
  intros Hp Hk Hk'.
  rewrite (binary64_proper p (k # 2) Hp).
  assert (binary64 (k # 2) + inject_Z change * (1 # 2) == (k + change) # 2)%Q
    as Hsum.
  { rewrite (binary64_half k Hk). unfold Qeq, Qplus, Qmult.
    cbn [Qnum Qden inject_Z]. lia. }
  rewrite (binary64_proper _ _ Hsum), (binary64_half _ Hk'), Hp.
  unfold Qeq, Qplus, Qmult. cbn [Qnum Qden inject_Z]. lia.
Qed.

(** * Ages in seconds *)

Lemma float_lt_spec (x y : Q) : float_lt x y = true <-> (x < y)%Q.
Proof. unfold float_lt, Qlt. apply Z.ltb_lt. Qed.

Lemma float_lt_ge (x y : Q) : float_lt x y = false <-> (y <= x)%Q.
Proof. unfold float_lt, Qle. apply Z.ltb_ge. Qed.

Lemma int_of_float_floor (x : Q) (n : Z) :
  0 <= n -> (inject_Z n <= x)%Q -> (x < inject_Z (n + 1))%Q ->
  int_of_float x = n.
Proof.
  intros Hn Hle Hlt. unfold int_of_float. destruct x as [a b].
  unfold Qle, Qlt in *. cbn [Qnum Qden inject_Z] in *.
  rewrite Z.quot_div_nonneg by lia.
  symmetry. apply (Z.div_unique a (Z.pos b) n (a - n * Z.pos b)); lia.
Qed.

Lemma microseconds (d : Z) :
  (d # 1000000 == inject_Z d * (1 # 1000000))%Q.
Proof. unfold Qeq, Qmult. cbn [Qnum Qden inject_Z]. lia. Qed.

(** The seconds of an age of [d] microseconds are not below a whole number
    of seconds that the age reaches. *)
Lemma total_seconds_lower (d m : Z) :
  0 <= m < 2 ^ 53 -> m * 1000000 <= d ->
  (inject_Z m <= total_seconds d)%Q.
Proof.
  intros Hm Hle. apply binary64_lower; [done|].
  unfold Qle. cbn [Qnum Qden inject_Z]. lia.
Qed.

Lemma total_seconds_upper (d E : Z) :
  0 <= E <= 52 -> 0 <= d < 2 ^ E * 1000000 ->
  (total_seconds d
   <= inject_Z d * (1 # 1000000) + (1 # Z.to_pos (2 ^ (54 - E))))%Q.
Proof.
  intros HE Hd. rewrite <- microseconds. apply binary64_upper; [done| |].
  - unfold Qle. cbn [Qnum Qden]. lia.
  - unfold Qlt. cbn [Qnum Qden inject_Z]. lia.
Qed.

(** The comparisons of the age with one minute, one hour and one day give
    what they give on the microseconds. *)
Lemma total_seconds_lt (d m : Z) :
  0 < m <= 86400 ->
  float_lt (total_seconds d) (inject_Z m) = (d <? m * 1000000).
Proof.
  intros Hm. destruct (Z.ltb_spec d (m * 1000000)) as [Hlt|Hge].
  - apply float_lt_spec.
    assert (1 <= inject_Z m)%Q as Hm1
      by (change 1%Q with (inject_Z 1); rewrite <- Zle_Qle; lia).
    destruct (Z.le_gt_cases d 0) as [Hd0|Hd0].
    + assert (total_seconds d <= 0)%Q as H0; [|lra].
      apply binary64_nonpos. unfold Qle. cbn [Qnum Qden]. lia.
    + pose proof (total_seconds_upper d 17 ltac:(lia) ltac:(lia)) as Hup.
      change (1 # Z.to_pos (2 ^ (54 - 17)))%Q with (1 # 137438953472)%Q in Hup.
      assert (inject_Z d + 1 <= inject_Z m * 1000000)%Q as Hd.
      { change 1%Q with (inject_Z 1). change 1000000%Q with (inject_Z 1000000).
        rewrite <- inject_Z_plus, <- inject_Z_mult, <- Zle_Qle. lia. }
      lra.
  - apply float_lt_ge. apply total_seconds_lower; lia.
Qed.

(** The whole units of an age: the quotient of the seconds by the seconds
    [u] of the unit, truncated, is the quotient of the microseconds, when
    the age is below [2 ^ E1] seconds and [2 ^ E2] units and the two
    roundings together stay below one microsecond. *)
Ltac whole_units d u E1 E2 :=
  let U := eval cbv in (u * 1000000) in
  let c1 := eval cbv in (Z.to_pos (2 ^ (54 - E1))) in
  let c2 := eval cbv in (Z.to_pos (2 ^ (54 - E2))) in
  let b2 := eval cbv in (2 ^ E2) in
  let p := eval cbv in (Z.to_pos u) in
  set (n := d / (u * 1000000));
  assert (n * (u * 1000000) <= d < (n + 1) * (u * 1000000)) as [Hlo Hhi]
    by (pose proof (Z.div_mod d (u * 1000000) ltac:(lia));
        pose proof (Z.mod_pos_bound d (u * 1000000) ltac:(lia)); subst n; lia);
  assert (1 <= n) as Hn by (subst n; apply Z.div_le_lower_bound; lia);
  pose proof (total_seconds_lower d (n * u) ltac:(nia) ltac:(lia)) as Hs1;
  pose proof (total_seconds_upper d E1 ltac:(lia) ltac:(lia)) as Hs2;
  change (1 # Z.to_pos (2 ^ (54 - E1)))%Q with (1 # c1)%Q in Hs2;
  assert (inject_Z d + 1 <= (inject_Z n + 1) * inject_Z (u * 1000000))%Q as Hd
    by (change 1%Q with (inject_Z 1);
        rewrite <- !inject_Z_plus, <- inject_Z_mult, <- Zle_Qle; lia);
  rewrite inject_Z_mult in Hs1;
  assert (inject_Z n + 1 <= inject_Z (2 ^ E2))%Q as Hn2
    by (change 1%Q with (inject_Z 1);
        rewrite <- inject_Z_plus, <- Zle_Qle; nia);
  assert (1 <= inject_Z n)%Q as Hn1
    by (change 1%Q with (inject_Z 1); rewrite <- Zle_Qle; lia);
  unfold float_div;
  change (total_seconds d / inject_Z u)%Q with (total_seconds d * (1 # p))%Q;
  set (s := total_seconds d) in *;
  change (inject_Z u) with (u # 1)%Q in Hs1;
  change (inject_Z (u * 1000000)) with (U # 1)%Q in Hd;
  change (inject_Z (2 ^ E2)) with (b2 # 1)%Q in Hn2;
  assert (inject_Z n <= s * (1 # p))%Q as Hy1 by lra;
  assert (0 <= s * (1 # p))%Q as Hy0 by lra;
  assert (s * (1 # p) < inject_Z (2 ^ E2))%Q as Hy2
    by (change (inject_Z (2 ^ E2)) with (b2 # 1)%Q; lra);
  pose proof (binary64_lower (s * (1 # p)) n ltac:(nia) Hy1) as Hx1;
  pose proof (binary64_upper (s * (1 # p)) E2 ltac:(lia) Hy0 Hy2) as Hx2;
  change (1 # Z.to_pos (2 ^ (54 - E2)))%Q with (1 # c2)%Q in Hx2;
  apply int_of_float_floor; [lia|exact Hx1|];
  rewrite inject_Z_plus; change (inject_Z 1) with 1%Q; lra.

Lemma whole_minutes (d : Z) :
  60 * 1000000 <= d < 3600 * 1000000 ->
  int_of_float (float_div (total_seconds d) (inject_Z 60)) = d / (60 * 1000000).
Proof. intros Hrange. whole_units d 60 12 6. Qed.

Lemma whole_hours (d : Z) :
  3600 * 1000000 <= d < 86400 * 1000000 ->
  int_of_float (float_div (total_seconds d) (inject_Z 3600))
    = d / (3600 * 1000000).
Proof. intros Hrange. whole_units d 3600 17 5. Qed.

(** Whole days are exact below one hundred years of 365 days. *)
Lemma whole_days (d : Z) :
  86400 * 1000000 <= d < 36500 * (86400 * 1000000) ->
  int_of_float (float_div (total_seconds d) (inject_Z 86400))
    = d / (86400 * 1000000).
Proof. intros Hrange. whole_units d 86400 32 16. Qed.

(** Whatever the age, from one day on the count of days is at least 1. *)
Lemma some_days (d : Z) :
  86400 * 1000000 <= d ->
  1 <= int_of_float (float_div (total_seconds d) (inject_Z 86400)).
Proof.
  intros Hd.
  pose proof (total_seconds_lower d 86400 ltac:(lia) ltac:(lia)) as Hs.
  unfold float_div.
  change (total_seconds d / inject_Z 86400)%Q
    with (total_seconds d * (1 # 86400))%Q.
  set (s := total_seconds d) in *.
  change (inject_Z 86400) with (86400 # 1)%Q in Hs.
  assert (inject_Z 1 <= s * (1 # 86400))%Q as Hy
    by (change (inject_Z 1) with 1%Q; lra).
  pose proof (binary64_lower _ 1 ltac:(lia) Hy) as Hx.
  unfold int_of_float. destruct (binary64 (s * (1 # 86400))) as [a b].
  unfold Qle in Hx. cbn [Qnum Qden inject_Z] in *.
  rewrite Z.quot_div_nonneg by lia.
  apply Z.div_le_lower_bound; lia.
Qed.

Lemma request_text_strip (req : submit_request) :
  request_text req = strip (submitted_text req).
Proof.
  unfold request_text, submitted_text.
  destruct (is_json req); [destruct (json req)|]; reflexivity.
Qed.

Lemma store_lookup_created (db db' : store) (id : string) (c : complaint) :
  complaints_collection db' = <[id := c]> (complaints_collection db) ->
  complaints_collection db' !! id = Some c.
Proof. intros ->. apply lookup_insert_eq. Qed.

(** ** Classification of a submission *)

(** C1, as the code has it: when no keyword occurs in the text and one of
    the three artifacts is missing, the resolution gives ["Other"] with no
    keyword match, and every creation that succeeds answers with category
    ["Other"] and stores a document of category ["Other"] whose
    [prediction_source] is ["model"]: the field is ["manual"] only when a
    keyword matched. *)
Theorem C1_default_other_recorded_as_model {F} (ml : ml_components F) req :
  manual_category_detection (request_text req) = None ->
  unavailable ml ->
  resolve_category ml (lower (request_text req)) = Some ("Other", None) /\
  forall now id db body db',
    submit_complaint ml req now id db = (Success body, db') ->
    r_category body = "Other" /\
    exists c,
      complaints_collection db' !! r_complaint_id body = Some c /\
      category c = "Other" /\
      prediction_source c = "model".
Proof.
  intros Hnone Hun.
  assert (resolve_category ml (lower (request_text req)) = Some ("Other", None))
    as Hres.
  { apply resolve_category_default; [|done].
    by rewrite manual_category_detection_lower. }
  split; [done|].
  intros now id db body db' Hsub.
  apply submit_complaint_success_inv in Hsub
    as (cat & man & c & _ & Hres' & _ & -> & Hc & _ & He).
  rewrite Hres in Hres'. injection Hres' as <- <-.
  split; [reflexivity|]. exists c.
  split; [by eapply store_lookup_created|].
  destruct He as (_ & Hcat & Hsrc & _). done.
Qed.

Lemma C1_default_other_recorded_as_model_witness :
  exists c,
    complaints_collection
      (snd (submit_complaint no_classifier
              (form_request "hello there my friend" None) 0 "c-1" empty_store))
      !! "c-1" = Some c /\
    category c = "Other" /\
    prediction_source c = "model".
Proof.
  destruct (C1_default_other_recorded_as_model no_classifier
              (form_request "hello there my friend" None))
    as [_ Hsub].
  - reflexivity.
  - left. reflexivity.
  - destruct (Hsub 0 "c-1" empty_store
                {| r_complaint_id := "c-1"; r_category := "Other" |}
                (snd (submit_complaint no_classifier
                        (form_request "hello there my friend" None) 0 "c-1"
                        empty_store)))
      as (_ & c & Hc & Hcat & Hsrc).
    + vm_compute. reflexivity.
    + exists c. split; [exact Hc|]. split; [exact Hcat|exact Hsrc].
Defined.

(** C1 as stated fails: with no keyword in the text and no artifact loaded,
    the document is stored with [prediction_source] ["model"], not
    ["manual"]. *)
Lemma C1_counterexample :
  ~ (forall (ml : ml_components unit) req now id db body db' c,
        manual_category_detection (request_text req) = None ->
        unavailable ml ->
        submit_complaint ml req now id db = (Success body, db') ->
        complaints_collection db' !! r_complaint_id body = Some c ->
        category c = "Other" /\ prediction_source c = "manual").
Proof.
  intros Hclaim.
  destruct (submit_complaint no_classifier
              (form_request "hello there my friend" None) 0 "c-1" empty_store)
    as [r db'] eqn:Hsub.
  vm_compute in Hsub. injection Hsub as <- <-.
  edestruct (Hclaim no_classifier (form_request "hello there my friend" None)
               0 "c-1" empty_store) as [_ Hsrc].
  - reflexivity.
  - left. reflexivity.
  - vm_compute. reflexivity.
  - vm_compute. reflexivity.
  - vm_compute in Hsrc. discriminate Hsrc.
Qed.

(** C4: when the text contains, letter case ignored, a keyword of category
    [C] and no keyword of a category declared before [C], the resolution
    gives [C] with the keyword match recorded, whatever the classifier is
    (absent, present, or raising on every call), and every creation from
    that text that succeeds answers with category [C] and stores a document
    of category [C] whose [prediction_source] is ["manual"]. *)
Theorem C4_first_declared_keyword_category {F} (ml : ml_components F)
    (text C kw : string) :
  keyword_of C kw ->
  contains_ci text kw = true ->
  (forall C' kw', declared_before C' C -> keyword_of C' kw' ->
                  contains_ci text kw' = false) ->
  resolve_category ml text = Some (C, Some C) /\
  forall req now id db body db',
    request_text req = text ->
    submit_complaint ml req now id db = (Success body, db') ->
    r_category body = C /\
    exists c,
      complaints_collection db' !! r_complaint_id body = Some c /\
      category c = C /\
      prediction_source c = "manual".
Proof.
  intros Hkw Hhit Hearlier.
  pose proof (manual_category_detection_first text C kw Hkw Hhit Hearlier) as Hm.
  split; [by apply resolve_category_manual|].
  intros req now id db body db' Htext Hsub. subst text.
  assert (resolve_category ml (lower (request_text req)) = Some (C, Some C))
    as Hres.
  { apply resolve_category_manual. by rewrite manual_category_detection_lower. }
  apply submit_complaint_success_inv in Hsub
    as (cat & man & c & _ & Hres' & _ & -> & Hc & _ & He).
  rewrite Hres in Hres'. injection Hres' as <- <-.
  split; [reflexivity|]. exists c.
  split; [by eapply store_lookup_created|].
  destruct He as (_ & Hcat & Hsrc & _). done.
Qed.

Lemma C4_first_declared_keyword_category_witness :
  resolve_category raising_classifier "Huge POTHOLE near the market"
    = Some ("Road Issues", Some "Road Issues").
Proof.
  apply (C4_first_declared_keyword_category raising_classifier
           "Huge POTHOLE near the market" "Road Issues" "pothole").
  - exists ["road"; "pothole"; "asphalt"; "street"; "highway"; "repair";
            "damage"; "construction"].
    split; [set_solver | set_solver].
  - reflexivity.
  - intros C' kw' (i & j & Hi & Hj & Hlt) (kws & Hin & Hkw).
    destruct j as [|[|[|[|[|[|j]]]]]]; simplify_eq/=; try lia.
    destruct i as [|i]; [|lia]. simplify_eq/=.
    unfold CATEGORY_KEYWORDS in Hin.
    repeat (apply elem_of_cons in Hin as [Hin|Hin]; [simplify_eq|]).
    + repeat (apply elem_of_cons in Hkw as [->|Hkw]; [reflexivity|]).
      by apply elem_of_nil in Hkw.
    + by apply elem_of_nil in Hin.
Defined.

(** ** Severity, priority and the length check *)

(** C2, as the code has it: the document of a successful creation stores
    severity 5 when the severity field is missing or is not the writing of
    an integer, and the integer written otherwise, which lies in the range
    of 8-byte integers and is held to no other range; and a severity field
    that is missing or is not the writing of an integer raises no error of
    its own: the request is answered, and the store left, exactly as if the
    field had read 5. *)
Theorem C2_severity_parsed_or_default {F} (ml : ml_components F)
    req now id db :
  (forall body db',
      submit_complaint ml req now id db = (Success body, db') ->
      exists c,
        complaints_collection db' !! r_complaint_id body = Some c /\
        (f_severity (form req) = None -> severity c = 5) /\
        (forall s, f_severity (form req) = Some s -> py_int s = None ->
                   severity c = 5) /\
        (forall s n, f_severity (form req) = Some s -> py_int s = Some n ->
                     severity c = n /\ - 2 ^ 63 <= n < 2 ^ 63)) /\
  (forall severity,
      no_severity severity ->
      submit_complaint ml (with_severity severity req) now id db
        = submit_complaint ml (with_severity (Some "5") req) now id db).
Proof.
  split.
  - intros body db' Hsub.
    pose proof (submit_complaint_success_storable _ _ _ _ _ _ _ Hsub) as Hst.
    apply submit_complaint_success_inv in Hsub
      as (cat & man & c & _ & _ & _ & -> & Hc & _ & He).
    exists c. split; [by eapply store_lookup_created|].
    destruct He as (_ & _ & _ & _ & Hsev & _). rewrite Hsev.
    unfold parse_severity. split_and!.
    + by intros ->.
    + by intros s -> ->.
    + intros s n Hs Hn. unfold storable, parse_severity in Hst.
      rewrite Hs, Hn in Hst. rewrite Hs, Hn. split; [reflexivity|].
      assert (int64 n = true) as Hn64.
      { destruct (f_tags (form req)); try discriminate Hst;
          by apply andb_true_iff in Hst as [[? _]%andb_true_iff _]. }
      unfold int64 in Hn64. lia.
  - intros severity Hno.
    assert (parse_severity severity = parse_severity (Some "5")) as Hsev.
    { destruct Hno as [->|(s & -> & Hs)]; unfold parse_severity.
      - reflexivity.
      - by rewrite Hs. }
    unfold submit_complaint.
    change (request_text (with_severity severity req)) with (request_text req).
    change (request_text (with_severity (Some "5") req)) with (request_text req).
    change (request_location (with_severity severity req))
      with (request_location req).
    change (request_location (with_severity (Some "5") req))
      with (request_location req).
    change (request_submitted_by (with_severity severity req))
      with (request_submitted_by req).
    change (request_submitted_by (with_severity (Some "5") req))
      with (request_submitted_by req).
    cbn [form with_severity f_severity f_tags f_anonymous].
    by rewrite Hsev.
Qed.

Lemma C2_severity_parsed_or_default_witness :
  exists c,
    complaints_collection
      (snd (submit_complaint no_classifier
              (form_request "The street lamp is broken" (Some "high")) 0 "c-1"
              empty_store)) !! "c-1" = Some c /\
    severity c = 5.
Proof.
  destruct (C2_severity_parsed_or_default no_classifier
              (form_request "The street lamp is broken" (Some "high")) 0 "c-1"
              empty_store) as [Hstored _].
  destruct (Hstored {| r_complaint_id := "c-1"; r_category := "Road Issues" |}
              (snd (submit_complaint no_classifier
                      (form_request "The street lamp is broken" (Some "high"))
                      0 "c-1" empty_store)))
    as (c & Hc & _ & Hbad & _).
  - vm_compute. reflexivity.
  - exists c. split; [exact Hc|]. apply (Hbad "high"); reflexivity.
Defined.

(** C2 as stated fails: a severity field reading 42 is stored as 42. *)
Lemma C2_counterexample :
  ~ (forall (ml : ml_components unit) req now id db body db' c,
        submit_complaint ml req now id db = (Success body, db') ->
        complaints_collection db' !! r_complaint_id body = Some c ->
        1 <= severity c <= 10).
Proof.
  intros Hclaim.
  destruct (submit_complaint no_classifier
              (form_request "The street lamp is broken" (Some "42")) 0 "c-1"
              empty_store) as [r db'] eqn:Hsub.
  vm_compute in Hsub. injection Hsub as <- <-.
  edestruct (Hclaim no_classifier
               (form_request "The street lamp is broken" (Some "42"))
               0 "c-1" empty_store) as [_ Hle].
  - vm_compute. reflexivity.
  - vm_compute. reflexivity.
  - vm_compute in Hle. by apply Hle.
Qed.

(** C5: the document of a successful creation has a priority score equal
    to its severity raised by 2 and capped at 10 when the text contains
    "urgent" or "emergency" (letter case ignored), else raised by 1 and
    capped at 10 when it contains "soon" or "important", else left as it
    is; in particular "urgent" with severity 9 gives 10. *)
Theorem C5_initial_priority {F} (ml : ml_components F)
    req now id db body db' :
  submit_complaint ml req now id db = (Success body, db') ->
  exists c,
    complaints_collection db' !! r_complaint_id body = Some c /\
    severity c = parse_severity (f_severity (form req)) /\
    let text := complaint_text c in
    let urgent := contains_ci text "urgent" || contains_ci text "emergency" in
    let soon := contains_ci text "soon" || contains_ci text "important" in
    (urgent = true ->
       priority_score c = inject_Z (Z.min 10 (severity c + 2))) /\
    (urgent = false -> soon = true ->
       priority_score c = inject_Z (Z.min 10 (severity c + 1))) /\
    (urgent = false -> soon = false ->
       priority_score c = inject_Z (severity c)) /\
    (contains_ci text "urgent" = true -> severity c = 9 ->
       priority_score c = inject_Z 10).
Proof.
  intros Hsub.
  apply submit_complaint_success_inv in Hsub
    as (cat & man & c & _ & _ & _ & -> & Hc & _ & He).
  exists c. split; [by eapply store_lookup_created|].
  destruct He as (_ & _ & _ & _ & Hsev & Hprio & _).
  split; [done|]. rewrite Hprio. unfold initial_priority, contains_ci.
  change (lower "urgent") with "urgent".
  change (lower "emergency") with "emergency".
  change (lower "soon") with "soon".
  change (lower "important") with "important".
  cbv zeta. split_and!.
  - by intros ->.
  - by intros -> ->.
  - by intros -> ->.
  - intros -> ->. reflexivity.
Qed.

Lemma C5_initial_priority_witness :
  exists c,
    complaints_collection
      (snd (submit_complaint no_classifier
              (form_request "URGENT: the main road is blocked" (Some "9"))
              0 "c-1" empty_store)) !! "c-1" = Some c /\
    severity c = 9 /\
    priority_score c = inject_Z 10.
Proof.
  destruct (C5_initial_priority no_classifier
              (form_request "URGENT: the main road is blocked" (Some "9"))
              0 "c-1" empty_store
              {| r_complaint_id := "c-1"; r_category := "Road Issues" |}
              (snd (submit_complaint no_classifier
                      (form_request "URGENT: the main road is blocked" (Some "9"))
                      0 "c-1" empty_store)))
    as (c & Hc & Hsev & _ & _ & _ & Hnine).
  - vm_compute. reflexivity.
  - simpl in Hc. exists c. split; [exact Hc|].
    assert (severity c = 9) as H9 by (rewrite Hsev; reflexivity).
    split; [exact H9|]. apply Hnine; [|exact H9].
    vm_compute in Hc. injection Hc as <-. reflexivity.
Defined.



(** ** Voting *)

Lemma str_in_true (x : string) (xs : list string) :
  str_in x xs = true <-> x ∈ xs.
Proof.
  unfold str_in. rewrite existsb_exists. split.
  - intros [y [Hy Heq]]. apply String.eqb_eq in Heq as ->.
    by apply list_elem_of_In.
  - intros Hx. exists x. split; [by apply list_elem_of_In|apply String.eqb_refl].
Qed.

Lemma str_in_false (x : string) (xs : list string) :
  str_in x xs = false <-> x ∉ xs.
Proof.
  rewrite <- str_in_true. destruct (str_in x xs); split; congruence.
Qed.

Lemma falsy_Some (s : string) : s <> "" -> falsy (Some s) = false.
Proof. intros Hs. simpl. by apply String.eqb_neq. Qed.

(** The test that rejects a repeated vote is the [conflicts] relation. *)
Lemma conflict_test (email : option string) (c : complaint) :
  negb (falsy email) && str_in (default "" email) (voters c) = true
  <-> conflicts email c.
Proof.
  unfold conflicts. rewrite andb_true_iff, negb_true_iff, str_in_true. split.
  - intros [Hf Hin]. destruct email as [e|]; [|discriminate].
    exists e. split; [done|]. split; [|done].
    simpl in Hf. by apply String.eqb_neq.
  - intros (e & -> & Hne & Hin). split; [by apply falsy_Some|done].
Qed.

Lemma vote_complaint_conflict (db : store) id vt email c :
  id <> "" ->
  complaints_collection db !! id = Some c ->
  conflicts email c ->
  vote_complaint (vote_request id vt email) db
    = (Failure 400 "You have already voted on this complaint", db).
Proof.
  intros Hid Hc Hconf. apply conflict_test in Hconf.
  unfold vote_complaint, vote_request. simpl.
  rewrite (proj2 (String.eqb_neq id "") Hid), Hc.
  by rewrite Hconf.
Qed.

(** An accepted vote: the document is replaced by [apply_vote] of it and
    the answer carries the new counters. *)
Lemma vote_complaint_accepted (db : store) id vt email c :
  id <> "" ->
  complaints_collection db !! id = Some c ->
  ~ conflicts email c ->
  let up := is_upvote (default (JStr "upvote") vt) in
  let c' := apply_vote (if up then 1 else -1) email c in
  vote_complaint (vote_request id vt email) db
    = (vote_answer up c',
       set_complaints (<[id := c']> (complaints_collection db)) db).
Proof.
  intros Hid Hc Hconf up c'.
  assert (negb (falsy email) && str_in (default "" email) (voters c) = false)
    as Htest.
  { destruct (negb (falsy email) && str_in (default "" email) (voters c))
      eqn:Ht; [|done].
    by apply conflict_test in Ht. }
  unfold vote_complaint, vote_request. simpl.
  rewrite (proj2 (String.eqb_neq id "") Hid), Hc.
  rewrite Htest. subst up c'. unfold vote_answer.
  destruct (is_upvote _); reflexivity.
Qed.

Lemma is_upvote_false (v : jvalue) : v <> JStr "upvote" -> is_upvote v = false.
Proof.
  intros Hv. destruct v as [| | |s]; try reflexivity.
  simpl. apply String.eqb_neq. congruence.
Qed.

Lemma no_email_no_conflict (c : complaint) : ~ conflicts None c.
Proof. intros (e & He & _). discriminate. Qed.

Lemma apply_vote_voters_email (d : Z) (e : string) (c : complaint) :
  e <> "" -> e ∈ voters (apply_vote d (Some e) c).
Proof.
  intros He. simpl. rewrite (proj2 (String.eqb_neq e "") He). unfold add_to_set.
  destruct (str_in e (voters c)) eqn:Hin.
  - by apply str_in_true.
  - apply elem_of_app. right. by left.
Qed.

(** The failures of [vote_complaint] do not depend on [voteType]. *)
Lemma vote_complaint_failure_any_voteType data vt db code msg :
  fst (vote_complaint (with_voteType vt data) db) = Failure code msg ->
  fst (vote_complaint data db) = Failure code msg.
Proof.
  destruct data as [[id vt0 email]|]; [|done].
  unfold vote_complaint, with_voteType.
  cbn [mbind option_bind v_complaintId v_userEmail v_voteType].
  destruct (falsy id); [done|].
  destruct (complaints_collection db !! default "" id) as [c|]; [|done].
  destruct (negb (falsy email) && str_in (default "" email) (voters c)); done.
Qed.

(** C3: a vote carrying a non-empty voter identity that is already in the
    voter set of the complaint is answered with status 400 and the message
    "You have already voted on this complaint", whatever the vote type, and
    the store is left as it was: the votes, the priority score and the
    voter set of the document are unchanged. *)
Theorem C3_duplicate_vote_rejected (db : store) id email c vt :
  id <> "" ->
  email <> "" ->
  complaints_collection db !! id = Some c ->
  email ∈ voters c ->
  vote_complaint (vote_request id vt (Some email)) db
    = (Failure 400 "You have already voted on this complaint", db) /\
  exists c',
    complaints_collection
      (snd (vote_complaint (vote_request id vt (Some email)) db)) !! id
      = Some c' /\
    votes c' = votes c /\
    priority_score c' = priority_score c /\
    voters c' = voters c.
Proof.
  intros Hid Hemail Hc Hin.
  assert (conflicts (Some email) c) as Hconf by (exists email; done).
  rewrite (vote_complaint_conflict db id vt (Some email) c Hid Hc Hconf).
  split; [done|]. exists c. done.
Qed.

Lemma C3_duplicate_vote_rejected_witness :
  vote_complaint (vote_request "c-1" (Some (JStr "upvote")) (Some "ann@example.org"))
    (sample_store 1 (11 # 2) ["ann@example.org"])
  = (Failure 400 "You have already voted on this complaint",
     sample_store 1 (11 # 2) ["ann@example.org"]).
Proof.
  apply (C3_duplicate_vote_rejected (sample_store 1 (11 # 2) ["ann@example.org"])
           "c-1" "ann@example.org"
           (sample_complaint 1 (11 # 2) ["ann@example.org"])
           (Some (JStr "upvote"))).
  - discriminate.
  - discriminate.
  - reflexivity.
  - by left.
Defined.

(** A vote that was accepted with a voter identity makes the next vote
    with that identity a conflict. *)
Lemma vote_twice_same_voter (db : store) id email c vt vt' :
  id <> "" ->
  email <> "" ->
  complaints_collection db !! id = Some c ->
  email ∉ voters c ->
  exists r db1,
    vote_complaint (vote_request id vt (Some email)) db = (Success r, db1) /\
    vote_complaint (vote_request id vt' (Some email)) db1
      = (Failure 400 "You have already voted on this complaint", db1).
Proof.
  intros Hid Hemail Hc Hnew.
  assert (~ conflicts (Some email) c) as Hno.
  { intros (e & [= <-] & _ & Hin). done. }
  pose proof (vote_complaint_accepted db id vt (Some email) c Hid Hc Hno) as Hv.
  cbv zeta in Hv. eexists _, _. split; [exact Hv|].
  eapply vote_complaint_conflict; [done| |].
  - simpl. apply lookup_insert_eq.
  - exists email. split; [done|]. split; [done|].
    by apply apply_vote_voters_email.
Qed.

(** The score after a vote, when the score is [k] halves and both it and
    the sum are binary64 numbers. *)
Lemma apply_vote_halves (k change : Z) (email : option string) (c : complaint) :
  (priority_score c == k # 2)%Q ->
  Z.abs k < 2 ^ 53 ->
  Z.abs (k + change) < 2 ^ 53 ->
  (priority_score (apply_vote change email c)
   == priority_score c + inject_Z change * (1 # 2))%Q.
Proof.
  intros Hk Hbound Hbound'. cbn [apply_vote priority_score].
  by apply (binary64_half_step _ k).
Qed.

Lemma apply_vote_score (change : Z) (email : option string) (c : complaint) :
  exact_score (priority_score c) ->
  -1 <= change <= 1 ->
  (priority_score (apply_vote change email c)
   == priority_score c + inject_Z change * (1 # 2))%Q.
Proof.
  intros (k & Hk & Hbound) Hchange.
  apply (apply_vote_halves k); [done|lia|lia].
Qed.

(** C7, as the code has it: on an existing complaint and without conflict,
    whose priority score is a whole number of halves of magnitude below
    [2 ^ 52 - 1], an upvote is accepted and adds 1 to the votes and one half
    to the priority score, a downvote is accepted and subtracts them; two
    upvotes without voter identity are both accepted and add 2 to the votes
    and 1 to the priority score.  The code holds neither field to a range
    of its own. *)
Theorem C7_vote_accounting (db : store) id c email :
  id <> "" ->
  complaints_collection db !! id = Some c ->
  ~ conflicts email c ->
  exact_score (priority_score c) ->
  (exists c1 db1,
      vote_complaint (vote_request id (Some (JStr "upvote")) email) db
        = (vote_answer true c1, db1) /\
      complaints_collection db1 !! id = Some c1 /\
      votes c1 = votes c + 1 /\
      (priority_score c1 == priority_score c + (1 # 2))%Q) /\
  (exists c1 db1,
      vote_complaint (vote_request id (Some (JStr "downvote")) email) db
        = (vote_answer false c1, db1) /\
      complaints_collection db1 !! id = Some c1 /\
      votes c1 = votes c - 1 /\
      (priority_score c1 == priority_score c - (1 # 2))%Q) /\
  (exists c1 db1 c2 db2,
      vote_complaint (vote_request id (Some (JStr "upvote")) None) db
        = (vote_answer true c1, db1) /\
      vote_complaint (vote_request id (Some (JStr "upvote")) None) db1
        = (vote_answer true c2, db2) /\
      complaints_collection db2 !! id = Some c2 /\
      votes c2 = votes c + 2 /\
      (priority_score c2 == priority_score c + 1)%Q).
Proof.
  intros Hid Hc Hno Hex. split_and!.
  - eexists _, _. split.
    + exact (vote_complaint_accepted db id (Some (JStr "upvote")) email c
               Hid Hc Hno).
    + split; [apply lookup_insert_eq|]. split; [reflexivity|].
      cbn [is_upvote from_option Datatypes.id String.eqb Ascii.eqb Bool.eqb].
      rewrite (apply_vote_score 1 email c Hex) by lia. ring.
  - eexists _, _. split.
    + exact (vote_complaint_accepted db id (Some (JStr "downvote")) email c
               Hid Hc Hno).
    + split; [apply lookup_insert_eq|]. split; [reflexivity|].
      cbn [is_upvote from_option Datatypes.id String.eqb Ascii.eqb Bool.eqb].
      rewrite (apply_vote_score (-1) email c Hex) by lia. ring.
  - pose proof (vote_complaint_accepted db id (Some (JStr "upvote")) None c
                  Hid Hc (no_email_no_conflict c)) as H1.
    cbv zeta in H1.
    cbn [is_upvote from_option Datatypes.id String.eqb Ascii.eqb Bool.eqb] in H1.
    set (c1 := apply_vote 1 None c) in H1.
    set (db1 := set_complaints _ db) in H1.
    assert (complaints_collection db1 !! id = Some c1) as Hc1
      by apply lookup_insert_eq.
    pose proof (vote_complaint_accepted db1 id (Some (JStr "upvote")) None c1
                  Hid Hc1 (no_email_no_conflict c1)) as H2.
    cbv zeta in H2.
    cbn [is_upvote from_option Datatypes.id String.eqb Ascii.eqb Bool.eqb] in H2.
    eexists _, _, _, _. split; [exact H1|]. split; [exact H2|].
    split; [apply lookup_insert_eq|]. split; [simpl; lia|].
    pose proof (apply_vote_score 1 None c Hex ltac:(lia)) as Hp1. fold c1 in Hp1.
    destruct Hex as (k & Hk & Hbound).
    rewrite (apply_vote_halves (k + 1) 1 None c1); [| |lia|lia].
    + rewrite Hp1. ring.
    + rewrite Hp1, Hk. unfold Qeq, Qplus, Qmult. cbn [Qnum Qden inject_Z]. lia.
Qed.

Lemma C7_vote_accounting_witness :
  exists c1 db1 c2 db2,
    vote_complaint (vote_request "c-1" (Some (JStr "upvote")) None)
      (sample_store 3 (inject_Z 10) [])
      = (vote_answer true c1, db1) /\
    vote_complaint (vote_request "c-1" (Some (JStr "upvote")) None) db1
      = (vote_answer true c2, db2) /\
    complaints_collection db2 !! "c-1" = Some c2 /\
    votes c2 = 3 + 2 /\
    (priority_score c2 == inject_Z 10 + 1)%Q.
Proof.
  apply (C7_vote_accounting (sample_store 3 (inject_Z 10) []) "c-1"
           (sample_complaint 3 (inject_Z 10) []) None).
  - discriminate.
  - reflexivity.
  - intros (e & He & _). discriminate He.
  - exists 20. split; [reflexivity|]. vm_compute. reflexivity.
Defined.

(** C7 as stated fails: on the priority score [2 ^ 53 + 1], which a
    creation with that severity stores, an upvote leaves the score
    [2 ^ 53], not [2 ^ 53 + 1] and one half. *)
Lemma C7_counterexample :
  ~ (forall db id c email,
        id <> "" ->
        complaints_collection db !! id = Some c ->
        ~ conflicts email c ->
        exists c1 db1,
          vote_complaint (vote_request id (Some (JStr "upvote")) email) db
            = (vote_answer true c1, db1) /\
          complaints_collection db1 !! id = Some c1 /\
          votes c1 = votes c + 1 /\
          (priority_score c1 == priority_score c + (1 # 2))%Q).
Proof.
  intros Hclaim.
  destruct (Hclaim (sample_store 0 (inject_Z 9007199254740993) []) "c-1"
              (sample_complaint 0 (inject_Z 9007199254740993) []) None)
    as (c1 & db1 & Hv & Hc1 & _ & Hp).
  - discriminate.
  - reflexivity.
  - apply no_email_no_conflict.
  - rewrite (vote_complaint_accepted _ "c-1" _ None
               (sample_complaint 0 (inject_Z 9007199254740993) []))
      in Hv; [|discriminate|reflexivity|apply no_email_no_conflict].
    apply (f_equal snd) in Hv. cbn [snd] in Hv. subst db1.
    cbn [complaints_collection set_complaints] in Hc1.
    rewrite lookup_insert_eq in Hc1. injection Hc1 as <-.
    vm_compute in Hp. discriminate Hp.
Qed.

(** C10, as the code has it: a vote whose [voteType] is present and is
    anything but the string "upvote" is accepted as a downvote on an
    existing complaint without conflict: 1 is subtracted from the votes
    and, when the priority score is a whole number of halves of magnitude
    below [2 ^ 52 - 1], one half from the priority score.  An absent
    [voteType] counts as "upvote".  No failure of the operation depends on
    [voteType]: replacing it by any value, or removing it, leaves every
    failure as it is. *)
Theorem C10_non_upvote_is_downvote (db : store) id c email (v : jvalue) :
  id <> "" ->
  complaints_collection db !! id = Some c ->
  ~ conflicts email c ->
  v <> JStr "upvote" ->
  (vote_complaint (vote_request id (Some v) email) db
   = vote_complaint (vote_request id (Some (JStr "downvote")) email) db) /\
  (exists c1 db1,
      vote_complaint (vote_request id (Some v) email) db
        = (vote_answer false c1, db1) /\
      complaints_collection db1 !! id = Some c1 /\
      votes c1 = votes c - 1 /\
      (exact_score (priority_score c) ->
       (priority_score c1 == priority_score c - (1 # 2))%Q)) /\
  (exists c1 db1,
      vote_complaint (vote_request id None email) db
        = (vote_answer true c1, db1) /\
      complaints_collection db1 !! id = Some c1 /\
      votes c1 = votes c + 1 /\
      (exact_score (priority_score c) ->
       (priority_score c1 == priority_score c + (1 # 2))%Q)) /\
  (forall data vt db0 code msg,
      fst (vote_complaint (with_voteType vt data) db0) = Failure code msg ->
      fst (vote_complaint data db0) = Failure code msg).
Proof.
  intros Hid Hc Hno Hv.
  pose proof (vote_complaint_accepted db id (Some v) email c Hid Hc Hno) as H1.
  cbv zeta in H1. cbn [from_option Datatypes.id] in H1.
  rewrite (is_upvote_false v Hv) in H1.
  split_and!.
  - rewrite H1.
    by rewrite (vote_complaint_accepted db id (Some (JStr "downvote")) email c
                  Hid Hc Hno).
  - eexists _, _. split; [exact H1|].
    split; [apply lookup_insert_eq|]. split; [reflexivity|].
    intros Hex. rewrite (apply_vote_score (-1) email c Hex) by lia. ring.
  - eexists _, _. split.
    + exact (vote_complaint_accepted db id None email c Hid Hc Hno).
    + split; [apply lookup_insert_eq|]. split; [reflexivity|].
      intros Hex.
      cbn [is_upvote from_option Datatypes.id String.eqb Ascii.eqb Bool.eqb].
      rewrite (apply_vote_score 1 email c Hex) by lia. ring.
  - apply vote_complaint_failure_any_voteType.
Qed.

Lemma C10_non_upvote_is_downvote_witness :
  exists c1 db1,
    vote_complaint (vote_request "c-1" (Some (JStr "upvoet")) (Some "ann@example.org"))
      (sample_store 0 (inject_Z 5) [])
      = (vote_answer false c1, db1) /\
    complaints_collection db1 !! "c-1" = Some c1 /\
    votes c1 = 0 - 1 /\
    (priority_score c1 == inject_Z 5 - (1 # 2))%Q.
Proof.
  destruct (C10_non_upvote_is_downvote (sample_store 0 (inject_Z 5) []) "c-1"
              (sample_complaint 0 (inject_Z 5) []) (Some "ann@example.org")
              (JStr "upvoet"))
    as (_ & (c1 & db1 & Hv & Hc1 & Hvotes & Hp) & _).
  - discriminate.
  - reflexivity.
  - intros (e & _ & _ & He). by apply elem_of_nil in He.
  - discriminate.
  - exists c1, db1. split; [exact Hv|]. split; [exact Hc1|].
    split; [exact Hvotes|]. apply Hp.
    exists 10. split; [reflexivity|]. vm_compute. reflexivity.
Defined.

(** C10 as stated fails: on the priority score [2 ^ 53 + 1] a vote of type
    "downvote" leaves the score [2 ^ 53], not [2 ^ 53] and one half. *)
Lemma C10_counterexample :
  ~ (forall db id c email (v : jvalue),
        id <> "" ->
        complaints_collection db !! id = Some c ->
        ~ conflicts email c ->
        v <> JStr "upvote" ->
        exists c1 db1,
          vote_complaint (vote_request id (Some v) email) db
            = (vote_answer false c1, db1) /\
          complaints_collection db1 !! id = Some c1 /\
          votes c1 = votes c - 1 /\
          (priority_score c1 == priority_score c - (1 # 2))%Q).
Proof.
  intros Hclaim.
  destruct (Hclaim (sample_store 0 (inject_Z 9007199254740993) []) "c-1"
              (sample_complaint 0 (inject_Z 9007199254740993) []) None
              (JStr "downvote"))
    as (c1 & db1 & Hv & Hc1 & _ & Hp).
  - discriminate.
  - reflexivity.
  - apply no_email_no_conflict.
  - discriminate.
  - rewrite (vote_complaint_accepted _ "c-1" _ None
               (sample_complaint 0 (inject_Z 9007199254740993) []))
      in Hv; [|discriminate|reflexivity|apply no_email_no_conflict].
    apply (f_equal snd) in Hv. cbn [snd] in Hv. subst db1.
    cbn [complaints_collection set_complaints] in Hc1.
    rewrite lookup_insert_eq in Hc1. injection Hc1 as <-.
    vm_compute in Hp. discriminate Hp.
Qed.

(** ** Status updates *)

Lemma update_status_invalid (data : option status_json) now db :
  (forall s, data ≫= s_status = Some s -> s ∉ valid_statuses) ->
  update_status data now db = (Failure 400 "Missing required fields", db) \/
  update_status data now db = (Failure 400 "Invalid status value", db).
Proof.
  intros Hbad. unfold update_status.
  destruct (falsy (data ≫= s_complaintId) || falsy (data ≫= s_status)) eqn:Hf;
    [by left|right].
  apply orb_false_iff in Hf as [_ Hs].
  destruct (data ≫= s_status) as [s|] eqn:Hst; [|discriminate].
  specialize (Hbad s eq_refl). apply str_in_false in Hbad.
  cbn [default from_option id]. unfold valid_statuses in Hbad.
  by rewrite Hbad.
Qed.

Lemma update_status_valid (id s : string) now db c :
  id <> "" ->
  s ∈ valid_statuses ->
  complaints_collection db !! id = Some c ->
  update_status (status_request id s) now db
    = (Success (),
       log_activity "status_update"
         ("Complaint #" +:+ slice_to 8 id +:+ " marked as " +:+ status_text s)
         now
         (set_complaints (<[id := set_status s c]> (complaints_collection db)) db)).
Proof.
  intros Hid Hs Hc. apply str_in_true in Hs. unfold valid_statuses in Hs.
  assert (s <> "") as Hne by (intros ->; discriminate Hs).
  unfold update_status, status_request.
  cbn [mbind option_bind s_complaintId s_status].
  rewrite (falsy_Some id Hid), (falsy_Some s Hne).
  cbn [orb from_option Datatypes.id]. rewrite Hs. cbn [negb].
  by rewrite Hc.
Qed.

Lemma str_pair_in (p : string * string) (l : list (string * string)) :
  existsb (fun q => String.eqb (fst p) (fst q) && String.eqb (snd p) (snd q)) l
    = true ->
  p ∈ l.
Proof.
  intros Hex. apply existsb_exists in Hex as ([a b] & Hin & Heq).
  apply andb_true_iff in Heq as [Ha Hb].
  apply String.eqb_eq in Ha, Hb. destruct p as [x y]. simpl in *. subst.
  by apply list_elem_of_In.
Qed.

Lemma status_text_label (s : string) :
  s ∈ valid_statuses -> (s, status_text s) ∈ status_labels.
Proof.
  unfold valid_statuses, status_labels. intros Hs.
  repeat (apply elem_of_cons in Hs as [->|Hs];
          [apply str_pair_in; reflexivity|]).
  by apply elem_of_nil in Hs.
Qed.

(** C8: a status update whose new status is not one of new, in_progress and
    resolved is answered with status 400 (missing fields or invalid status
    value) and leaves the store, hence the status of every document, as it
    was; on an existing complaint and one of the three statuses it
    succeeds, sets the status of the document and appends one activity
    entry whose message names the status by its label New, In Progress or
    Resolved. *)
Theorem C8_update_status (now : Z) (db : store) :
  (forall data,
      (forall s, data ≫= s_status = Some s -> s ∉ valid_statuses) ->
      (update_status data now db = (Failure 400 "Missing required fields", db) \/
       update_status data now db = (Failure 400 "Invalid status value", db)) /\
      forall id c, complaints_collection db !! id = Some c ->
                   complaints_collection (snd (update_status data now db)) !! id
                     = Some c) /\
  (forall id s c,
      id <> "" ->
      s ∈ valid_statuses ->
      complaints_collection db !! id = Some c ->
      exists db' c' label,
        update_status (status_request id s) now db = (Success (), db') /\
        complaints_collection db' !! id = Some c' /\
        status c' = s /\
        (s, label) ∈ status_labels /\
        activity_collection db' =
          (activity_collection db ++
             [ {| activity_type := "status_update";
                  activity_message :=
                    "Complaint #" +:+ slice_to 8 id +:+ " marked as " +:+ label;
                  activity_timestamp := bson_date now |} ])%list).
Proof.
  split.
  - intros data Hbad.
    pose proof (update_status_invalid data now db Hbad) as Hfail.
    split; [done|]. intros id c Hc.
    destruct Hfail as [-> | ->]; done.
  - intros id s c Hid Hs Hc.
    exists (log_activity "status_update"
              ("Complaint #" +:+ slice_to 8 id +:+ " marked as " +:+ status_text s)
              now
              (set_complaints (<[id := set_status s c]> (complaints_collection db)) db)),
      (set_status s c), (status_text s).
    split; [by apply update_status_valid|].
    split; [apply lookup_insert_eq|]. split; [reflexivity|].
    split; [by apply status_text_label|reflexivity].
Qed.

Lemma C8_update_status_witness :
  update_status (status_request "c-1" "closed") 0 (sample_store 0 (inject_Z 5) [])
    = (Failure 400 "Invalid status value", sample_store 0 (inject_Z 5) []) /\
  exists db' c',
    update_status (status_request "c-1" "resolved") 0
      (sample_store 0 (inject_Z 5) []) = (Success (), db') /\
    complaints_collection db' !! "c-1" = Some c' /\
    status c' = "resolved" /\
    activity_message <$> activity_collection db'
      = ["Complaint #c-1 marked as Resolved"].
Proof.
  destruct (C8_update_status 0 (sample_store 0 (inject_Z 5) [])) as [Hbad Hgood].
  split.
  - destruct (Hbad (status_request "c-1" "closed")) as [[Hm|Hi] _].
    + intros s [= <-]. apply str_in_false. reflexivity.
    + discriminate Hm.
    + exact Hi.
  - destruct (Hgood "c-1" "resolved" (sample_complaint 0 (inject_Z 5) []))
      as (db' & c' & label & Hup & Hc' & Hst & Hlab & Hact).
    + discriminate.
    + apply str_in_true. reflexivity.
    + reflexivity.
    + exists db', c'. split; [exact Hup|]. split; [exact Hc'|].
      split; [exact Hst|].
      vm_compute in Hup. injection Hup as <-. reflexivity.
Defined.

(** ** The activity feed *)

Lemma insert_desc_perm (a : activity) (l : list activity) :
  insert_desc a l ≡ₚ a :: l.
Proof.
  induction l as [|b l IH]; simpl; [done|].
  destruct (activity_timestamp b <=? activity_timestamp a); [done|].
  rewrite IH. apply Permutation_swap.
Qed.

Lemma sort_desc_perm (l : list activity) : sort_desc l ≡ₚ l.
Proof.
  induction l as [|a l IH]; simpl; [done|].
  by rewrite insert_desc_perm, IH.
Qed.

Lemma not_older_trans (a b c : activity) :
  not_older a b -> not_older b c -> not_older a c.
Proof. unfold not_older. lia. Qed.

Lemma insert_desc_sorted (a : activity) (l : list activity) :
  StronglySorted not_older l -> StronglySorted not_older (insert_desc a l).
Proof.
  induction 1 as [|b l Hl IH Hb]; simpl.
  - repeat constructor.
  - destruct (activity_timestamp b <=? activity_timestamp a) eqn:Hle.
    + apply Z.leb_le in Hle. constructor; [by constructor|].
      constructor; [done|].
      eapply Forall_impl; [exact Hb|]. intros c Hc.
      by eapply not_older_trans.
    + apply Z.leb_gt in Hle. constructor; [done|].
      rewrite insert_desc_perm. constructor; [|done].
      unfold not_older. lia.
Qed.

Lemma sort_desc_sorted (l : list activity) :
  StronglySorted not_older (sort_desc l).
Proof.
  induction l as [|a l IH]; simpl; [constructor|].
  by apply insert_desc_sorted.
Qed.

Lemma str_of_int_plural (n : Z) :
  1 <= n -> plural n = if n =? 1 then "" else "s".
Proof.
  intros Hn. unfold plural.
  destruct (Z.ltb_spec 1 n), (Z.eqb_spec n 1); (reflexivity || lia).
Qed.

Lemma units_label (n : Z) (unit : string) :
  1 <= n ->
  str_of_int n +:+ " " +:+ unit +:+ plural n +:+ " ago" = count_label n unit.
Proof. intros Hn. unfold count_label. by rewrite str_of_int_plural. Qed.

(** The label falls in the four buckets of the age. *)
Lemma time_ago_label (now ts : Z) : age_label (now - ts) (time_ago now ts).
Proof.
  unfold age_label, time_ago. cbv zeta.
  set (d := now - ts).
  rewrite !total_seconds_lt by lia.
  destruct (Z.ltb_spec d (60 * 1000000)) as [H1|H1];
    [split_and!; intros; (reflexivity || lia)|].
  destruct (Z.ltb_spec d (3600 * 1000000)) as [H2|H2].
  { split_and!; intros; try lia.
    rewrite whole_minutes by lia.
    apply (units_label _ "minute"). apply Z.div_le_lower_bound; lia. }
  destruct (Z.ltb_spec d (86400 * 1000000)) as [H3|H3].
  { split_and!; intros; try lia.
    rewrite whole_hours by lia.
    apply (units_label _ "hour"). apply Z.div_le_lower_bound; lia. }
  split_and!; intros; try lia.
  eexists. split; [by apply some_days|].
  split; [apply (units_label _ "day"); by apply some_days|].
  intros Hd. by apply whole_days.
Qed.

(** C9: the read answers with at most 10 entries, all 10 when the log has
    that many; they are entries of the log in descending order of time
    stamp and no entry left out is more recent than one returned; the entry
    at each position carries the stored type, message and time stamp, and the
    age label of the clock reading taken for it minus its time stamp: "just
    now" under 60 seconds, whole minutes under one hour, whole hours under
    24 hours, a count of days of at least 1 otherwise, which is the whole
    days of the age under one hundred years, singular for one and plural
    above; the store is returned as it was, so no label is stored. *)
Theorem C9_recent_activity (clock : nat -> Z) (db : store) :
  exists views recent older,
    get_recent_activity clock db = (Success views, db) /\
    activity_collection db ≡ₚ (recent ++ older)%list /\
    length recent = Nat.min 10 (length (activity_collection db)) /\
    StronglySorted not_older recent /\
    (forall a b, a ∈ recent -> b ∈ older -> not_older a b) /\
    length views = length recent /\
    forall i a, recent !! i = Some a ->
      exists v, views !! i = Some v /\
        view_type v = activity_type a /\
        view_message v = activity_message a /\
        view_timestamp v = activity_timestamp a /\
        age_label (clock i - activity_timestamp a) (view_time_ago v).
Proof.
  set (sorted := sort_desc (activity_collection db)).
  exists (imap (fun i a => annotate (clock i) a) (take 10 sorted)),
    (take 10 sorted), (drop 10 sorted).
  pose proof (sort_desc_sorted (activity_collection db)) as Hsorted.
  fold sorted in Hsorted.
  split; [reflexivity|]. split.
  { rewrite take_drop. symmetry. apply sort_desc_perm. }
  split.
  { rewrite length_take. unfold sorted.
    by rewrite (Permutation_length (sort_desc_perm (activity_collection db))). }
  split.
  { rewrite <- (take_drop 10 sorted) in Hsorted.
    by apply StronglySorted_app_1_l in Hsorted. }
  split.
  { intros a b Ha Hb. rewrite <- (take_drop 10 sorted) in Hsorted.
    by eapply StronglySorted_app_1_elem_of. }
  split; [apply length_imap|].
  intros i a Hi. exists (annotate (clock i) a).
  split; [by rewrite list_lookup_imap, Hi|].
  split_and!; try reflexivity. apply time_ago_label.
Qed.

(** ** Worked scenarios *)

(** A submission on a water supply, severity 5, into an empty store. *)
Example water_supply_scenario :
  let r := submit_complaint no_classifier
             (form_request "There is no water supply in my street for 3 days"
                (Some "5")) 0 "c-1" empty_store in
  fst r = Success {| r_complaint_id := "c-1"; r_category := "Water Issues" |} /\
  (fun c => (category c, prediction_source c, priority_score c, status c, votes c))
    <$> complaints_collection (snd r) !! "c-1"
  = Some ("Water Issues", "manual", inject_Z 5, "new", 0) /\
  activity_message <$> activity_collection (snd r)
  = ["New complaint submitted in Water Issues category"].
Proof. vm_compute. done. Qed.

(** Of a log of 12 entries the read keeps the 10 latest, latest first. *)
Example recent_activity_scenario :
  let db := {| complaints_collection := ∅; activity_collection := sample_log 12 |} in
  match fst (get_recent_activity (fun _ => 3611 * 1000000) db) with
  | Success views =>
      view_timestamp <$> views
        = (fun k => k * 1000000) <$> [11; 10; 9; 8; 7; 6; 5; 4; 3; 2] /\
      view_time_ago <$> views
        = ["1 hour ago"; "1 hour ago"; "1 hour ago"; "1 hour ago"; "1 hour ago";
           "1 hour ago"; "1 hour ago"; "1 hour ago"; "1 hour ago";
           "1 hour ago"]
  | Failure _ _ => False
  end.
Proof. vm_compute. done. Qed.

Example time_ago_buckets :
  time_ago 100000000000 <$>
    [100000000000 - 59999999; 100000000000 - 60000000;
     100000000000 - 120000000; 100000000000 - 3599999999;
     100000000000 - 3600000000; 100000000000 - 2 * 86400000000;
     100000000001]
  = ["just now"; "1 minute ago"; "2 minutes ago"; "59 minutes ago";
     "1 hour ago"; "2 days ago"; "just now"].
Proof. vm_compute. reflexivity. Qed.

Example py_int_samples :
  py_int <$> ["42"; " -7 "; "+1_000"; "007"; "1__0"; "_1"; "1_"; ""; "high"; "3.5"]
  = [Some 42; Some (-7); Some 1000; Some 7; None; None; None; None; None; None].
Proof. vm_compute. reflexivity. Qed.

(** Beyond some centuries the day count is the one of the floating point
    division: here one more than the whole days of the age. *)
Example time_ago_centuries :
  time_ago 17279999999999999 0 = "200000 days ago" /\
  17279999999999999 / (86400 * 1000000) = 199999.
Proof. vm_compute. done. Qed.

(** A severity beyond 8-byte integers parses, and the store refuses the
    document. *)
Example severity_beyond_int64 :
  py_int "9223372036854775808" = Some (2 ^ 63) /\
  submit_complaint no_classifier
    (form_request "The street lamp is broken" (Some "9223372036854775808"))
    0 "c-1" empty_store
  = (Failure 500 "Internal server error", empty_store).
Proof. vm_compute. done. Qed.

(** Votes on a score that binary64 cannot hold: the stored [2 ^ 53 + 1]
    becomes [2 ^ 53] at the first vote. *)
Example vote_beyond_exactness :
  (fun c => Qred (priority_score (apply_vote 1 None c))) <$>
    [sample_complaint 0 (inject_Z (2 ^ 53 + 1)) [];
     sample_complaint 0 (11 # 2) []]
  = [inject_Z (2 ^ 53); inject_Z 6].
Proof. vm_compute. done. Qed.

(** The same through the handlers: a submission with severity [2 ^ 53 + 1]
    is stored with that priority score, and an upvote leaves [2 ^ 53]. *)
Example unclamped_severity_then_vote :
  let created :=
    snd (submit_complaint no_classifier
           (form_request "The street lamp is broken" (Some "9007199254740993"))
           0 "c-1" empty_store) in
  let voted :=
    snd (vote_complaint (vote_request "c-1" (Some (JStr "upvote")) None)
           created) in
  (fun c => (severity c, Qred (priority_score c)))
    <$> complaints_collection created !! "c-1"
  = Some (2 ^ 53 + 1, inject_Z (2 ^ 53 + 1)) /\
  (fun c => (votes c, Qred (priority_score c)))
    <$> complaints_collection voted !! "c-1"
  = Some (1, inject_Z (2 ^ 53)).
Proof. vm_compute. done. Qed.

(** * Further properties *)

(** ** The keyword classifier, read backwards *)

Lemma first_match_Some (text C : string) (t : list (string * list string)) :
  first_match t text = Some C ->
  exists t1 kws t2,
    t = (t1 ++ (C, kws) :: t2)%list /\
    hit text kws = true /\
    forall C' kws', (C', kws') ∈ t1 -> hit text kws' = false.
Proof.
  induction t as [|[D kws] t IH]; simpl; [discriminate|].
  fold (hit text kws). destruct (hit text kws) eqn:Hhit.
  - intros [= <-]. exists [], kws, t. split; [done|]. split; [done|].
    intros C' kws' Hin. by apply elem_of_nil in Hin.
  - intros Hm. destruct (IH Hm) as (t1 & kws1 & t2 & -> & Hh & Hno).
    exists ((D, kws) :: t1), kws1, t2. split; [done|]. split; [done|].
    intros C' kws' [Heq|Hin]%elem_of_cons; [congruence|eauto].
Qed.

Lemma CATEGORIES_NoDup : NoDup CATEGORIES.
Proof. apply (bool_decide_unpack _). vm_compute. reflexivity. Qed.

(** X1: what the keyword classifier answers is justified by the text: when
    it answers [C], a keyword of [C] occurs in the text, letter case
    ignored, and no keyword of a category declared before [C] does. *)
Theorem X1_keyword_answer_justified (text C : string) :
  manual_category_detection text = Some C ->
  (exists kw, keyword_of C kw /\ contains_ci text kw = true) /\
  (forall C' kw', declared_before C' C -> keyword_of C' kw' ->
                  contains_ci text kw' = false).
Proof.
  intros Hm. unfold manual_category_detection in Hm.
  apply first_match_Some in Hm as (t1 & kws & t2 & Htable & Hhit & Hno).
  split.
  - apply any_true in Hhit as (kw & Hkw & Hc).
    exists kw. split; [|done]. exists kws. split; [|done].
    rewrite Htable. apply elem_of_app. right. by left.
  - intros C' kw' (i & j & Hi & Hj & Hlt) (kws' & Hin & Hkw').
    assert (CATEGORIES !! length t1 = Some C) as Hpos.
    { rewrite <- CATEGORY_KEYWORDS_order, Htable, list_lookup_fmap.
      by rewrite list_lookup_middle. }
    assert (j = length t1) as ->
      by (eapply NoDup_lookup; eauto using CATEGORIES_NoDup).
    apply list_elem_of_lookup in Hin as [i' Hi'].
    assert (CATEGORIES !! i' = Some C') as Hpos'.
    { by rewrite <- CATEGORY_KEYWORDS_order, list_lookup_fmap, Hi'. }
    assert (i' = i) as ->
      by (eapply NoDup_lookup; eauto using CATEGORIES_NoDup).
    rewrite Htable, lookup_app_l in Hi' by done.
    apply list_elem_of_lookup_2 in Hi'.
    specialize (Hno C' kws' Hi'). by eapply any_false in Hno.
Qed.

Lemma X1_keyword_answer_justified_witness :
  exists kw, keyword_of "Electricity" kw /\
             contains_ci "Power OUTAGE since last night" kw = true.
Proof.
  apply (X1_keyword_answer_justified "Power OUTAGE since last night" "Electricity").
  reflexivity.
Defined.

(** The keyword classifier answers nothing exactly when no configured
    keyword of any category occurs in the text, letter case ignored. *)
Theorem no_answer_iff_no_keyword (text : string) :
  manual_category_detection text = None <->
  forall C kw, keyword_of C kw -> contains_ci text kw = false.
Proof.
  unfold manual_category_detection, contains_ci, keyword_of.
  rewrite first_match_None. split.
  - intros Hall C kw (kws & Hin & Hkw).
    pose proof (Hall C kws Hin) as Hnone.
    unfold hit in Hnone. rewrite any_false in Hnone. by apply Hnone.
  - intros Hall C kws Hin. unfold hit. apply any_false.
    intros kw Hkw. apply (Hall C kw). eauto.
Qed.

(** ** The resolution on the classifier's side *)

Lemma final_check_declared (c : string) :
  str_in (if negb (str_in c CATEGORIES) then "Other" else c) CATEGORIES = true.
Proof. destruct (str_in c CATEGORIES) eqn:Hc; simpl; [done|reflexivity]. Qed.

Lemma resolve_category_declared {F} (ml : ml_components F) text cat man :
  resolve_category ml text = Some (cat, man) -> cat ∈ CATEGORIES.
Proof.
  unfold resolve_category. intros Hres.
  destruct (match manual_category_detection text with
            | Some c => Some c
            | None => _
            end) as [c|]; [|discriminate].
  cbn [mbind option_bind] in Hres. injection Hres as <- _.
  apply str_in_true, final_check_declared.
Qed.

(** X2: whatever the classifier is and whatever it answers, a resolution
    that returns gives one of the six declared categories, and so does the
    category of every document a submission creates. *)
Theorem X2_category_always_declared {F} (ml : ml_components F) :
  (forall text cat man,
      resolve_category ml text = Some (cat, man) -> cat ∈ CATEGORIES) /\
  (forall req now id db body db',
      submit_complaint ml req now id db = (Success body, db') ->
      r_category body ∈ CATEGORIES /\
      exists c, complaints_collection db' !! id = Some c /\
                category c ∈ CATEGORIES).
Proof.
  split.
  - intros text cat man. apply resolve_category_declared.
  - intros req now id db body db' Hsub.
    apply submit_complaint_success_inv in Hsub
      as (cat & man & c & _ & Hres & _ & -> & Hc & _ & He).
    apply resolve_category_declared in Hres.
    split; [done|]. exists c. split; [by eapply store_lookup_created|].
    destruct He as (_ & -> & _). done.
Qed.

Lemma X2_category_always_declared_witness :
  r_category
    {| r_complaint_id := "c-1"; r_category := "Other" |} ∈ CATEGORIES.
Proof.
  destruct (X2_category_always_declared (constant_classifier "Parking")) as [_ H].
  apply (H (form_request "hello there my friend" None) 0 "c-1" empty_store
           {| r_complaint_id := "c-1"; r_category := "Other" |}
           (snd (submit_complaint (constant_classifier "Parking")
                   (form_request "hello there my friend" None) 0 "c-1"
                   empty_store))).
  vm_compute. reflexivity.
Defined.

(** X3: when no keyword occurs in the text and the three artifacts are
    loaded and answer [label], the resolution gives [label] if it is a
    declared category and ["Other"] if not, with no keyword match; every
    creation that succeeds answers with that category and stores a document
    of that category whose [prediction_source] is ["model"]. *)
Theorem X3_classifier_label_validated {F} (ml : ml_components F)
    predict transform inverse_transform req x n label :
  manual_category_detection (request_text req) = None ->
  model ml = Some predict ->
  tfidf_vectorizer ml = Some transform ->
  label_encoder ml = Some inverse_transform ->
  transform (lower (request_text req)) = Some x ->
  predict x = Some n ->
  inverse_transform n = Some label ->
  let cat := if str_in label CATEGORIES then label else "Other" in
  resolve_category ml (lower (request_text req)) = Some (cat, None) /\
  forall now id db body db',
    submit_complaint ml req now id db = (Success body, db') ->
    r_category body = cat /\
    exists c,
      complaints_collection db' !! r_complaint_id body = Some c /\
      category c = cat /\
      prediction_source c = "model".
Proof.
  intros Hnone Hm Ht He Hx Hn Hl cat.
  assert (resolve_category ml (lower (request_text req)) = Some (cat, None))
    as Hres.
  { unfold resolve_category.
    rewrite manual_category_detection_lower, Hnone, Hm, Ht, He.
    unfold ml_predict. rewrite Hx. cbn [mbind option_bind].
    rewrite Hn. cbn [mbind option_bind]. rewrite Hl. cbn [mbind option_bind].
    unfold validate_prediction. subst cat.
    destruct (str_in label CATEGORIES) eqn:Hin; cbn [negb]; [by rewrite Hin|].
    reflexivity. }
  split; [done|].
  intros now id db body db' Hsub.
  apply submit_complaint_success_inv in Hsub
    as (cat' & man & c & _ & Hres' & _ & -> & Hc & _ & Hentry).
  rewrite Hres in Hres'. injection Hres' as <- <-.
  split; [reflexivity|]. exists c.
  split; [by eapply store_lookup_created|].
  destruct Hentry as (_ & Hcat & Hsrc & _). done.
Qed.

Lemma X3_classifier_label_validated_witness :
  exists c,
    complaints_collection
      (snd (submit_complaint (constant_classifier "Parking")
              (form_request "hello there my friend" None) 0 "c-1"
              empty_store)) !! "c-1" = Some c /\
    category c = "Other" /\
    prediction_source c = "model".
Proof.
  destruct (X3_classifier_label_validated (constant_classifier "Parking")
              (fun _ => Some 0) (fun _ => Some tt) (fun _ => Some "Parking")
              (form_request "hello there my friend" None) tt 0 "Parking")
    as [_ Hsub]; try reflexivity.
  destruct (Hsub 0 "c-1" empty_store
              {| r_complaint_id := "c-1"; r_category := "Other" |}
              (snd (submit_complaint (constant_classifier "Parking")
                      (form_request "hello there my friend" None) 0 "c-1"
                      empty_store)))
    as (_ & c & Hc & Hcat & Hsrc).
  - vm_compute. reflexivity.
  - exists c. split; [exact Hc|]. split; [exact Hcat|exact Hsrc].
Defined.

(** X4: when no keyword occurs in the text, the three artifacts are loaded
    and one of their calls raises, a submission of at least 10 characters is
    answered with status 500 and the store is left as it was; the
    prediction endpoint answers 500 on the same text. *)
Theorem X4_classifier_exception_is_500 {F} (ml : ml_components F)
    predict transform inverse_transform body f now id db :
  let req := json_request body f in
  manual_category_detection (request_text req) = None ->
  model ml = Some predict ->
  tfidf_vectorizer ml = Some transform ->
  label_encoder ml = Some inverse_transform ->
  ml_predict predict transform inverse_transform (lower (request_text req))
    = None ->
  10 <= len (request_text req) ->
  submit_complaint ml req now id db
    = (Failure 500 "Internal server error", db) /\
  predict_category ml (Some body) = Failure 500 "Internal server error".
Proof.
  intros req Hnone Hm Ht He Hraise Hlen.
  assert (resolve_category ml (lower (request_text req)) = None) as Hres.
  { unfold resolve_category.
    by rewrite manual_category_detection_lower, Hnone, Hm, Ht, He, Hraise. }
  pose proof (lower_not_shorter (request_text req)) as Hlower.
  split.
  - apply Z.ltb_ge in Hlen. unfold submit_complaint. by rewrite Hlen, Hres.
  - unfold predict_category.
    change (strip (default "" (j_complaint body))) with (request_text req).
    rewrite (proj2 (Z.ltb_ge (len (lower (request_text req))) 10)) by lia.
    by rewrite Hres.
Qed.

Lemma X4_classifier_exception_is_500_witness :
  submit_complaint raising_classifier
    (json_request (text_body "hello there my friend") empty_form) 0 "c-1"
    empty_store
  = (Failure 500 "Internal server error", empty_store).
Proof.
  apply (X4_classifier_exception_is_500 raising_classifier
           (fun _ => None) (fun _ => None) (fun _ => None)
           (text_body "hello there my friend") empty_form 0 "c-1" empty_store);
    try reflexivity.
  by vm_compute.
Defined.



(** ** Creation: failures, frame and defaults *)

Lemma rstrip_last (s : string) (c : ascii) :
  last_char (rstrip s) = Some c -> isspace c = false.
Proof.
  induction s as [|d s IH]; [discriminate|]. simpl.
  destruct (rstrip s) as [|e r] eqn:Hr.
  - destruct (isspace d) eqn:Hd; [discriminate|]. simpl. congruence.
  - intros Hlast. apply IH. exact Hlast.
Qed.

Lemma strip_first (s : string) (c : ascii) :
  first_char (strip s) = Some c -> isspace c = false.
Proof.
  intros Hfirst.
  assert (lstrip (strip s) = strip s) as Hfix
    by (unfold strip; apply lstrip_rstrip, lstrip_idem).
  apply lstrip_fixed in Hfix. destruct (strip s); [discriminate|].
  simpl in Hfirst. congruence.
Qed.

Lemma request_text_stripped (req : submit_request) :
  strip (request_text req) = request_text req.
Proof. rewrite request_text_strip. apply strip_idem. Qed.

(** The fields of the created document that [entry_of] leaves out. *)
Lemma submit_complaint_created_defaults {F} (ml : ml_components F)
    req now id db body db' :
  submit_complaint ml req now id db = (Success body, db') ->
  exists c,
    complaints_collection db' !! id = Some c /\
    location c = request_location req /\
    submitted_by c = request_submitted_by req /\
    anonymous c
      = String.eqb (lower (default "false" (f_anonymous (form req)))) "true" /\
    severity c = parse_severity (f_severity (form req)) /\
    model_version c = MODEL_VERSION.
Proof.
  unfold submit_complaint.
  destruct (len (request_text req) <? 10); [discriminate|].
  destruct (resolve_category ml (lower (request_text req))) as [[cat man]|];
    [|discriminate].
  destruct (f_tags (form req)); try discriminate;
    (destruct (negb _); [discriminate|]);
    (destruct (complaints_collection db !! id); [discriminate|]);
    intros [= <- <-]; (eexists; split; [apply lookup_insert_eq|]);
    split_and!; reflexivity.
Qed.

(** A submission that passes the length check under an identifier that
    is already stored is answered with status 500, and the store is left as
    it was: the stored document is not overwritten and no activity entry is
    appended. *)
Theorem duplicate_identifier_is_500 {F} (ml : ml_components F)
    req now id db c :
  10 <= len (request_text req) ->
  complaints_collection db !! id = Some c ->
  submit_complaint ml req now id db
    = (Failure 500 "Internal server error", db).
Proof.
  intros Hlen Hc. apply Z.ltb_ge in Hlen. unfold submit_complaint.
  rewrite Hlen, Hc.
  destruct (resolve_category ml (lower (request_text req))) as [[cat man]|];
    [|done].
  destruct (f_tags (form req)); try done; by destruct (negb _).
Qed.

Lemma duplicate_identifier_is_500_witness :
  submit_complaint no_classifier
    (form_request "The street lamp is broken" None) 0 "c-1"
    (sample_store 0 (inject_Z 5) [])
  = (Failure 500 "Internal server error", sample_store 0 (inject_Z 5) []).
Proof.
  apply (duplicate_identifier_is_500 no_classifier
           (form_request "The street lamp is broken" None) 0 "c-1"
           (sample_store 0 (inject_Z 5) []) (sample_complaint 0 (inject_Z 5) [])).
  - by vm_compute.
  - reflexivity.
Defined.

(** X6: a successful submission adds exactly one document, under the
    identifier it was given, which was free; every other document is as
    before; the new document is in status ["new"] with no votes and no
    voters; and exactly one activity entry is appended, of type
    ["new_complaint"], whose message names the category of the answer. *)
Theorem X6_creation_frame {F} (ml : ml_components F)
    req now id db body db' :
  submit_complaint ml req now id db = (Success body, db') ->
  r_complaint_id body = id /\
  complaints_collection db !! id = None /\
  (forall id', id' <> id ->
     complaints_collection db' !! id' = complaints_collection db !! id') /\
  size (complaints_collection db') = S (size (complaints_collection db)) /\
  (exists c,
      complaints_collection db' !! id = Some c /\
      category c = r_category body /\
      status c = "new" /\ votes c = 0 /\ voters c = []) /\
  activity_collection db' =
    (activity_collection db ++
       [ {| activity_type := "new_complaint";
            activity_message :=
              "New complaint submitted in " +:+ r_category body +:+ " category";
            activity_timestamp := bson_date now |} ])%list.
Proof.
  intros Hsub.
  apply submit_complaint_success_inv in Hsub
    as (cat & man & c & _ & _ & Hfresh & -> & Hc & Hact & He).
  split; [done|]. split; [done|]. split.
  { intros id' Hne. rewrite Hc. by apply lookup_insert_ne. }
  split.
  { rewrite Hc. by apply map_size_insert_None. }
  split; [|done].
  exists c. split; [by eapply store_lookup_created|].
  destruct He as (_ & Hcat & _ & Hst & _ & _ & Hv & Hvs & _). done.
Qed.

Lemma X6_creation_frame_witness :
  activity_message <$>
    activity_collection
      (snd (submit_complaint no_classifier
              (form_request "The street lamp is broken" None) 0 "c-2"
              (sample_store 0 (inject_Z 5) [])))
  = ["New complaint submitted in Road Issues category"].
Proof.
  destruct (X6_creation_frame no_classifier
              (form_request "The street lamp is broken" None) 0 "c-2"
              (sample_store 0 (inject_Z 5) [])
              {| r_complaint_id := "c-2"; r_category := "Road Issues" |}
              (snd (submit_complaint no_classifier
                      (form_request "The street lamp is broken" None) 0 "c-2"
                      (sample_store 0 (inject_Z 5) []))))
    as (_ & _ & _ & _ & _ & Hact).
  - vm_compute. reflexivity.
  - rewrite Hact. reflexivity.
Defined.

(** X7: what a created document holds for what the request leaves out.  A
    form submission without location is stored with ["Not specified"], a
    JSON submission without location with the empty string; without
    submitter either is stored under ["Anonymous"]; the severity and the
    anonymity are read from the form only, so a submission whose form has
    neither field is stored with severity 5 and not anonymous. *)
Theorem X7_defaults_of_a_submission {F} (ml : ml_components F)
    req now id db body db' :
  submit_complaint ml req now id db = (Success body, db') ->
  exists c,
    complaints_collection db' !! id = Some c /\
    (is_json req = false -> f_location (form req) = None ->
       location c = "Not specified") /\
    (is_json req = true -> json req ≫= j_location = None ->
       location c = "") /\
    ((if is_json req then json req ≫= j_submitted_by
      else f_submitted_by (form req)) = None ->
       submitted_by c = "Anonymous") /\
    (f_severity (form req) = None -> severity c = 5) /\
    (f_anonymous (form req) = None -> anonymous c = false).
Proof.
  intros Hsub.
  apply submit_complaint_created_defaults in Hsub
    as (c & Hc & Hloc & Hby & Han & Hsev & _).
  exists c. split; [done|].
  rewrite Hloc, Hby, Han, Hsev.
  unfold request_location, request_submitted_by.
  split_and!.
  - by intros -> ->.
  - intros ->. by destruct (json req) as [data|]; simpl; [intros ->|].
  - destruct (is_json req); [|by intros ->].
    by destruct (json req) as [data|]; simpl; [intros ->|].
  - by intros ->.
  - by intros ->.
Qed.

Lemma X7_defaults_of_a_submission_witness :
  exists c,
    complaints_collection
      (snd (submit_complaint no_classifier
              (json_request (text_body "Garbage bin overflowing") empty_form)
              0 "c-1" empty_store)) !! "c-1" = Some c /\
    location c = "" /\ submitted_by c = "Anonymous" /\ severity c = 5.
Proof.
  destruct (X7_defaults_of_a_submission no_classifier
              (json_request (text_body "Garbage bin overflowing") empty_form)
              0 "c-1" empty_store
              {| r_complaint_id := "c-1"; r_category := "Garbage Issues" |}
              (snd (submit_complaint no_classifier
                      (json_request (text_body "Garbage bin overflowing")
                         empty_form) 0 "c-1" empty_store)))
    as (c & Hc & _ & Hloc & Hby & Hsev & _).
  - vm_compute. reflexivity.
  - exists c. split; [exact Hc|].
    split; [by apply Hloc|]. split; [by apply Hby|]. by apply Hsev.
Defined.

(** X8: the priority score of a created document is an integer between
    the smaller and the larger of 10 and the severity, and at most the
    severity plus 2.  So with a severity of at most 10 the score lies
    between the severity and 10; with a severity above 10 a text holding
    "urgent" or "emergency" brings the score down to 10. *)
Theorem X8_initial_priority_bounds {F} (ml : ml_components F)
    req now id db body db' :
  submit_complaint ml req now id db = (Success body, db') ->
  exists c p,
    complaints_collection db' !! id = Some c /\
    priority_score c = inject_Z p /\
    Z.min 10 (severity c) <= p <= Z.max 10 (severity c) /\
    p <= severity c + 2 /\
    (10 < severity c ->
     contains_ci (complaint_text c) "urgent"
       || contains_ci (complaint_text c) "emergency" = true ->
     p = 10).
Proof.
  intros Hsub.
  apply submit_complaint_success_inv in Hsub
    as (cat & man & c & _ & _ & _ & -> & Hc & _ & He).
  destruct He as (_ & _ & _ & _ & _ & Hprio & _).
  exists c, (initial_priority (severity c) (complaint_text c)).
  split; [by eapply store_lookup_created|]. split; [done|].
  unfold initial_priority, contains_ci.
  change (lower "urgent") with "urgent".
  change (lower "emergency") with "emergency".
  destruct (contains "urgent" (lower (complaint_text c))
            || contains "emergency" (lower (complaint_text c))).
  { split_and!; try lia. }
  destruct (contains "soon" (lower (complaint_text c))
            || contains "important" (lower (complaint_text c)));
    split_and!; (lia || discriminate || intros; lia).
Qed.

Lemma X8_initial_priority_bounds_witness :
  exists c p,
    complaints_collection
      (snd (submit_complaint no_classifier
              (form_request "Emergency: the sewer floods" (Some "42"))
              0 "c-1" empty_store)) !! "c-1" = Some c /\
    priority_score c = inject_Z p /\ severity c = 42 /\ p = 10.
Proof.
  destruct (X8_initial_priority_bounds no_classifier
              (form_request "Emergency: the sewer floods" (Some "42"))
              0 "c-1" empty_store
              {| r_complaint_id := "c-1"; r_category := "Drainage Issues" |}
              (snd (submit_complaint no_classifier
                      (form_request "Emergency: the sewer floods" (Some "42"))
                      0 "c-1" empty_store)))
    as (c & p & Hc & Hp & _ & _ & Hdown).
  - vm_compute. reflexivity.
  - exists c, p. split; [exact Hc|]. split; [exact Hp|].
    vm_compute in Hc. injection Hc as <-.
    split; [reflexivity|]. apply Hdown; [by vm_compute|reflexivity].
Defined.

(** X9: the text of a created document is the submitted text stripped of
    the white space around it: stripping it again changes nothing, its
    first and last characters are no white space, and it has at least 10
    characters. *)
Theorem X9_stored_text_is_stripped {F} (ml : ml_components F)
    req now id db body db' :
  submit_complaint ml req now id db = (Success body, db') ->
  exists c,
    complaints_collection db' !! id = Some c /\
    complaint_text c = strip (submitted_text req) /\
    strip (complaint_text c) = complaint_text c /\
    10 <= len (complaint_text c) /\
    (forall x, first_char (complaint_text c) = Some x -> isspace x = false) /\
    (forall x, last_char (complaint_text c) = Some x -> isspace x = false).
Proof.
  intros Hsub.
  apply submit_complaint_success_inv in Hsub
    as (cat & man & c & Hlen & _ & _ & -> & Hc & _ & He).
  destruct He as (Htext & _).
  exists c. split; [by eapply store_lookup_created|].
  rewrite Htext. split; [apply request_text_strip|].
  split; [apply request_text_stripped|].
  split; [by apply Z.ltb_ge|].
  rewrite request_text_strip. split.
  - intros x. apply strip_first.
  - intros x. unfold strip. apply rstrip_last.
Qed.

Lemma X9_stored_text_is_stripped_witness :
  exists c,
    complaints_collection
      (snd (submit_complaint no_classifier
              (form_request "   The street lamp is broken  " None) 0 "c-1"
              empty_store)) !! "c-1" = Some c /\
    complaint_text c = "The street lamp is broken".
Proof.
  destruct (X9_stored_text_is_stripped no_classifier
              (form_request "   The street lamp is broken  " None) 0 "c-1"
              empty_store
              {| r_complaint_id := "c-1"; r_category := "Road Issues" |}
              (snd (submit_complaint no_classifier
                      (form_request "   The street lamp is broken  " None)
                      0 "c-1" empty_store)))
    as (c & Hc & Htext & _).
  - vm_compute. reflexivity.
  - exists c. split; [exact Hc|]. rewrite Htext. reflexivity.
Defined.

(** ** Voting: failures, frame and the voter set *)

(** A vote with no complaint identifier (no body, no field, or the
    empty string) is answered with status 400, and a vote on an identifier
    that is not stored with status 404; in both cases the store is left as
    it was. *)
Theorem vote_without_target (db : store) :
  (forall data,
      falsy (data ≫= v_complaintId) = true ->
      vote_complaint data db = (Failure 400 "Complaint ID is required", db)) /\
  (forall id vt email,
      id <> "" ->
      complaints_collection db !! id = None ->
      vote_complaint (vote_request id vt email) db
        = (Failure 404 "Complaint not found", db)).
Proof.
  split.
  - intros data Hf. unfold vote_complaint. by rewrite Hf.
  - intros id vt email Hid Hnone. unfold vote_complaint, vote_request. simpl.
    by rewrite (proj2 (String.eqb_neq id "") Hid), Hnone.
Qed.

Lemma vote_without_target_witness :
  vote_complaint None (sample_store 0 (inject_Z 5) [])
    = (Failure 400 "Complaint ID is required", sample_store 0 (inject_Z 5) []) /\
  vote_complaint (vote_request "c-9" None None) (sample_store 0 (inject_Z 5) [])
    = (Failure 404 "Complaint not found", sample_store 0 (inject_Z 5) []).
Proof.
  destruct (vote_without_target (sample_store 0 (inject_Z 5) [])) as [H400 H404].
  split.
  - apply H400. reflexivity.
  - apply H404; [discriminate|reflexivity].
Defined.

(** X10: an accepted vote touches nothing but the votes, the priority score
    and the voter set of its target: the other fields of the target, every
    other document and the activity log are as before, and the answer
    carries the new votes and priority score. *)
Theorem X10_vote_frame (db : store) id c vt email :
  id <> "" ->
  complaints_collection db !! id = Some c ->
  ~ conflicts email c ->
  exists r c' db',
    vote_complaint (vote_request id vt email) db = (Success r, db') /\
    complaints_collection db' !! id = Some c' /\
    vr_votes r = votes c' /\
    vr_priority_score r = priority_score c' /\
    (complaint_text c', category c', location c', timestamp c',
     prediction_source c', model_version c', status c', severity c',
     anonymous c', submitted_by c')
    = (complaint_text c, category c, location c, timestamp c,
       prediction_source c, model_version c, status c, severity c,
       anonymous c, submitted_by c) /\
    (forall id', id' <> id ->
       complaints_collection db' !! id' = complaints_collection db !! id') /\
    activity_collection db' = activity_collection db.
Proof.
  intros Hid Hc Hno.
  pose proof (vote_complaint_accepted db id vt email c Hid Hc Hno) as Hv.
  cbv zeta in Hv. unfold vote_answer in Hv.
  eexists _, _, _. split; [exact Hv|].
  split; [apply lookup_insert_eq|]. split; [reflexivity|].
  split; [reflexivity|]. split; [reflexivity|]. split; [|reflexivity].
  intros id' Hne. simpl. by apply lookup_insert_ne.
Qed.

Lemma X10_vote_frame_witness :
  exists r c' db',
    vote_complaint (vote_request "c-1" None (Some "ann@example.org"))
      (sample_store 0 (inject_Z 5) []) = (Success r, db') /\
    complaints_collection db' !! "c-1" = Some c' /\
    vr_votes r = votes c' /\
    status c' = "new" /\
    activity_collection db' = [].
Proof.
  destruct (X10_vote_frame (sample_store 0 (inject_Z 5) []) "c-1"
              (sample_complaint 0 (inject_Z 5) []) None (Some "ann@example.org"))
    as (r & c' & db' & Hv & Hc' & Hr & _ & Hsame & _ & Hact).
  - discriminate.
  - reflexivity.
  - intros (e & _ & _ & He). by apply elem_of_nil in He.
  - exists r, c', db'. split; [exact Hv|]. split; [exact Hc'|].
    split; [exact Hr|]. split; [|exact Hact]. by injection Hsame.
Defined.

(** X11: an upvote followed by a downvote, both without voter identity,
    are both accepted and bring the votes back to what they were, and the
    priority score as well when it is a whole number of halves of magnitude
    below [2 ^ 52 - 1], on which the additions of the store are exact; the
    voter set is untouched. *)
Theorem X11_upvote_then_downvote (db : store) id c :
  id <> "" ->
  complaints_collection db !! id = Some c ->
  exact_score (priority_score c) ->
  exists r1 db1 r2 db2 c2,
    vote_complaint (vote_request id (Some (JStr "upvote")) None) db
      = (Success r1, db1) /\
    vote_complaint (vote_request id (Some (JStr "downvote")) None) db1
      = (Success r2, db2) /\
    complaints_collection db2 !! id = Some c2 /\
    votes c2 = votes c /\
    (priority_score c2 == priority_score c)%Q /\
    voters c2 = voters c /\
    vr_votes r1 = votes c + 1 /\
    vr_votes r2 = votes c.
Proof.
  intros Hid Hc Hex.
  pose proof (vote_complaint_accepted db id (Some (JStr "upvote")) None c
                Hid Hc (no_email_no_conflict c)) as H1.
  cbv zeta in H1. unfold vote_answer in H1.
  cbn [is_upvote from_option Datatypes.id String.eqb Ascii.eqb Bool.eqb] in H1.
  set (c1 := apply_vote 1 None c) in H1.
  set (db1 := set_complaints _ db) in H1.
  assert (complaints_collection db1 !! id = Some c1) as Hc1
    by apply lookup_insert_eq.
  pose proof (vote_complaint_accepted db1 id (Some (JStr "downvote")) None c1
                Hid Hc1 (no_email_no_conflict c1)) as H2.
  cbv zeta in H2. unfold vote_answer in H2.
  cbn [is_upvote from_option Datatypes.id String.eqb Ascii.eqb Bool.eqb] in H2.
  eexists _, _, _, _, _. split; [exact H1|]. split; [exact H2|].
  split; [apply lookup_insert_eq|].
  split; [simpl; lia|]. split; [|split; [reflexivity|split; simpl; lia]].
  pose proof (apply_vote_score 1 None c Hex ltac:(lia)) as Hp1. fold c1 in Hp1.
  destruct Hex as (k & Hk & Hbound).
  rewrite (apply_vote_halves (k + 1) (-1) None c1); [| |lia|lia].
  - rewrite Hp1. ring.
  - rewrite Hp1, Hk. unfold Qeq, Qplus, Qmult. cbn [Qnum Qden inject_Z]. lia.
Qed.

Lemma X11_upvote_then_downvote_witness :
  exists r1 db1 r2 db2 c2,
    vote_complaint (vote_request "c-1" (Some (JStr "upvote")) None)
      (sample_store 3 (13 # 2) []) = (Success r1, db1) /\
    vote_complaint (vote_request "c-1" (Some (JStr "downvote")) None) db1
      = (Success r2, db2) /\
    complaints_collection db2 !! "c-1" = Some c2 /\
    votes c2 = 3 /\
    (priority_score c2 == 13 # 2)%Q.
Proof.
  destruct (X11_upvote_then_downvote (sample_store 3 (13 # 2) []) "c-1"
              (sample_complaint 3 (13 # 2) []))
    as (r1 & db1 & r2 & db2 & c2 & H1 & H2 & Hc2 & Hv & Hp & _).
  - discriminate.
  - reflexivity.
  - exists 13. split; [reflexivity|]. vm_compute. reflexivity.
  - exists r1, db1, r2, db2, c2. auto.
Defined.

(** X12: once a vote with a voter identity has been accepted, every later
    vote with that identity on that complaint is refused, whatever its vote
    type: an identified voter can neither repeat nor reverse a vote. *)
Theorem X12_identified_vote_is_final (db : store) id email c vt vt' :
  id <> "" ->
  email <> "" ->
  complaints_collection db !! id = Some c ->
  email ∉ voters c ->
  exists r db1,
    vote_complaint (vote_request id vt (Some email)) db = (Success r, db1) /\
    vote_complaint (vote_request id vt' (Some email)) db1
      = (Failure 400 "You have already voted on this complaint", db1).
Proof.
  intros Hid Hemail Hc Hnew.
  assert (~ conflicts (Some email) c) as Hno.
  { intros (e & [= <-] & _ & Hin). done. }
  pose proof (vote_complaint_accepted db id vt (Some email) c Hid Hc Hno) as Hv.
  cbv zeta in Hv. eexists _, _. split; [exact Hv|].
  apply (vote_complaint_conflict _ id vt' (Some email)
           (apply_vote (if is_upvote (default (JStr "upvote") vt) then 1 else -1)
              (Some email) c)); [done| |].
  - apply lookup_insert_eq.
  - exists email. split; [done|]. split; [done|].
    by apply apply_vote_voters_email.
Qed.

Lemma X12_identified_vote_is_final_witness :
  exists r db1,
    vote_complaint (vote_request "c-1" (Some (JStr "upvote")) (Some "ann@example.org"))
      (sample_store 0 (inject_Z 5) []) = (Success r, db1) /\
    vote_complaint (vote_request "c-1" (Some (JStr "downvote")) (Some "ann@example.org"))
      db1
      = (Failure 400 "You have already voted on this complaint", db1).
Proof.
  apply (X12_identified_vote_is_final (sample_store 0 (inject_Z 5) []) "c-1"
           "ann@example.org" (sample_complaint 0 (inject_Z 5) [])).
  - discriminate.
  - discriminate.
  - reflexivity.
  - apply not_elem_of_nil.
Defined.

(** X13: an accepted vote with a non-empty voter identity appends that
    identity to the voter set, one without leaves the set as it is, and a
    voter set without repetition stays without repetition. *)
Theorem X13_voter_set_grows_without_repetition (db : store) id c vt email :
  id <> "" ->
  complaints_collection db !! id = Some c ->
  ~ conflicts email c ->
  exists r c' db',
    vote_complaint (vote_request id vt email) db = (Success r, db') /\
    complaints_collection db' !! id = Some c' /\
    (forall e, email = Some e -> e <> "" ->
               voters c' = (voters c ++ [e])%list) /\
    (falsy email = true -> voters c' = voters c) /\
    (NoDup (voters c) -> NoDup (voters c')).
Proof.
  intros Hid Hc Hno.
  pose proof (vote_complaint_accepted db id vt email c Hid Hc Hno) as Hv.
  cbv zeta in Hv. unfold vote_answer in Hv.
  eexists _, _, _. split; [exact Hv|]. split; [apply lookup_insert_eq|].
  assert (forall e, email = Some e -> e <> "" -> e ∉ voters c) as Hfresh.
  { intros e -> He Hin. apply Hno. exists e. done. }
  simpl. split_and!.
  - intros e -> He. simpl. rewrite (proj2 (String.eqb_neq e "") He).
    unfold add_to_set.
    by rewrite (proj2 (str_in_false e (voters c)) (Hfresh e eq_refl He)).
  - by intros ->.
  - intros Hnd. destruct (falsy email) eqn:Hf; [done|].
    destruct email as [e|]; [|discriminate]. simpl in Hf.
    apply String.eqb_neq in Hf. unfold add_to_set. simpl.
    rewrite ?(proj2 (String.eqb_neq e "") Hf).
    rewrite (proj2 (str_in_false e (voters c)) (Hfresh e eq_refl Hf)).
    apply NoDup_app. split; [done|]. split; [|apply NoDup_singleton].
    intros x Hx ->%list_elem_of_singleton. by apply (Hfresh e).
Qed.

Lemma X13_voter_set_grows_without_repetition_witness :
  exists r c' db',
    vote_complaint (vote_request "c-1" None (Some "bob@example.org"))
      (sample_store 1 (11 # 2) ["ann@example.org"]) = (Success r, db') /\
    complaints_collection db' !! "c-1" = Some c' /\
    voters c' = ["ann@example.org"; "bob@example.org"].
Proof.
  destruct (X13_voter_set_grows_without_repetition
              (sample_store 1 (11 # 2) ["ann@example.org"]) "c-1"
              (sample_complaint 1 (11 # 2) ["ann@example.org"]) None
              (Some "bob@example.org"))
    as (r & c' & db' & Hv & Hc' & Hadd & _).
  - discriminate.
  - reflexivity.
  - intros (e & [= <-] & _ & Hin). apply str_in_true in Hin. discriminate Hin.
  - exists r, c', db'. split; [exact Hv|]. split; [exact Hc'|].
    apply (Hadd "bob@example.org"); [reflexivity|discriminate].
Defined.

(** A vote whose voter identity is the empty string is handled as a
    vote without identity: same answer and same store, on every store and
    every request. *)
Theorem empty_identity_is_anonymous (db : store) id vt :
  vote_complaint (Some {| v_complaintId := id;
                          v_voteType := vt;
                          v_userEmail := Some "" |}) db
  = vote_complaint (Some {| v_complaintId := id;
                            v_voteType := vt;
                            v_userEmail := None |}) db.
Proof.
  unfold vote_complaint. cbn [mbind option_bind v_complaintId v_userEmail
    v_voteType].
  destruct (falsy id); [done|].
  destruct (complaints_collection db !! default "" id) as [c|]; done.
Qed.

(** ** Status updates and the activity log *)

Lemma set_status_same (c : complaint) : set_status (status c) c = c.
Proof. by destruct c. Qed.



(** X15: setting a complaint to the status it already has succeeds, leaves
    every document as it is, and still appends an activity entry. *)
Theorem X15_same_status_is_logged_again (id : string) (now : Z) (db : store) c :
  id <> "" ->
  complaints_collection db !! id = Some c ->
  status c ∈ valid_statuses ->
  exists db' e,
    update_status (status_request id (status c)) now db = (Success (), db') /\
    complaints_collection db' = complaints_collection db /\
    activity_collection db' = (activity_collection db ++ [e])%list /\
    activity_type e = "status_update".
Proof.
  intros Hid Hc Hs.
  eexists _, _. split; [by apply update_status_valid|].
  split; [|split; reflexivity].
  simpl. rewrite set_status_same. by apply insert_id.
Qed.

Lemma X15_same_status_is_logged_again_witness :
  exists db' e,
    update_status (status_request "c-1" "new") 0 (sample_store 0 (inject_Z 5) [])
      = (Success (), db') /\
    complaints_collection db'
      = complaints_collection (sample_store 0 (inject_Z 5) []) /\
    activity_collection db' = [e] /\
    activity_type e = "status_update".
Proof.
  apply (X15_same_status_is_logged_again "c-1" 0 (sample_store 0 (inject_Z 5) [])
           (sample_complaint 0 (inject_Z 5) [])).
  - discriminate.
  - reflexivity.
  - apply str_in_true. reflexivity.
Defined.

Lemma sort_desc_newest_last (l : list activity) (a : activity) :
  (forall b, b ∈ l -> activity_timestamp b < activity_timestamp a) ->
  sort_desc (l ++ [a]) = a :: sort_desc l.
Proof.
  induction l as [|b l IH]; intros Hnew; [reflexivity|].
  simpl. rewrite IH by (intros x Hx; apply Hnew; by right).
  simpl. destruct (Z.leb_spec (activity_timestamp a) (activity_timestamp b))
    as [Hle|Hlt]; [|reflexivity].
  specialize (Hnew b (list_elem_of_here _ _)). lia.
Qed.

(** X16: when a status update succeeds at an instant later than every
    entry of the log, the next read of the activity feed has that update as
    its first entry, with the message of the update. *)
Theorem X16_status_update_heads_the_feed (id s : string) (now : Z)
    (clock : nat -> Z) (db : store) c :
  id <> "" ->
  s ∈ valid_statuses ->
  complaints_collection db !! id = Some c ->
  (forall e, e ∈ activity_collection db -> activity_timestamp e < bson_date now) ->
  exists db' v rest,
    update_status (status_request id s) now db = (Success (), db') /\
    get_recent_activity clock db' = (Success (v :: rest), db') /\
    view_type v = "status_update" /\
    view_message v
      = "Complaint #" +:+ slice_to 8 id +:+ " marked as " +:+ status_text s /\
    view_timestamp v = bson_date now /\
    view_time_ago v = time_ago (clock 0%nat) (bson_date now).
Proof.
  intros Hid Hs Hc Hnew.
  eexists _, _, _. split; [by apply update_status_valid|].
  unfold get_recent_activity, log_activity. cbn [activity_collection].
  rewrite sort_desc_newest_last by exact Hnew.
  cbn [set_complaints activity_collection].
  split; [reflexivity|]. split_and!; reflexivity.
Qed.

Lemma X16_status_update_heads_the_feed_witness :
  exists db' v rest,
    update_status (status_request "c-1" "in_progress") 5000000
      (sample_store 0 (inject_Z 5) []) = (Success (), db') /\
    get_recent_activity (fun _ => 65000000) db' = (Success (v :: rest), db') /\
    view_message v = "Complaint #c-1 marked as In Progress" /\
    view_time_ago v = "1 minute ago".
Proof.
  destruct (X16_status_update_heads_the_feed "c-1" "in_progress" 5000000
              (fun _ => 65000000) (sample_store 0 (inject_Z 5) [])
              (sample_complaint 0 (inject_Z 5) []))
    as (db' & v & rest & Hup & Hfeed & _ & Hmsg & _ & Hago).
  - discriminate.
  - apply str_in_true. reflexivity.
  - reflexivity.
  - intros e He. by apply elem_of_nil in He.
  - exists db', v, rest. split; [exact Hup|]. split; [exact Hfeed|].
    split; [exact Hmsg|exact Hago].
Defined.

(** X17: the activity log is append-only.  A submission or a status update
    appends exactly one entry when it succeeds and none when it fails, and
    a submission that fails leaves the whole store as it was; a vote and a
    read of the feed never touch the log. *)
Theorem X17_activity_log_append_only (now : Z) (db : store) :
  (forall F (ml : ml_components F) req id,
      match submit_complaint ml req now id db with
      | (Success _, db') =>
          exists e, activity_collection db'
                    = (activity_collection db ++ [e])%list
      | (Failure _ _, db') => db' = db
      end) /\
  (forall data,
      match update_status data now db with
      | (Success _, db') =>
          exists e, activity_collection db'
                    = (activity_collection db ++ [e])%list
      | (Failure _ _, db') => activity_collection db' = activity_collection db
      end) /\
  (forall data,
      activity_collection (snd (vote_complaint data db))
        = activity_collection db) /\
  (forall clock, snd (get_recent_activity clock db) = db).
Proof.
  split_and!.
  - intros F ml req id. unfold submit_complaint.
    destruct (len (request_text req) <? 10); [done|].
    destruct (resolve_category ml (lower (request_text req))) as [[cat man]|];
      [|done].
    destruct (f_tags (form req)); try done;
      (destruct (negb _); [done|]);
      (destruct (complaints_collection db !! id); [done|]);
      eexists; reflexivity.
  - intros data. unfold update_status.
    destruct (falsy (data ≫= s_complaintId) || falsy (data ≫= s_status));
      [done|].
    destruct (negb (str_in _ _)); [done|].
    destruct (complaints_collection db !! _); [|done].
    eexists. reflexivity.
  - intros data. unfold vote_complaint.
    destruct (falsy (data ≫= v_complaintId)); [done|].
    destruct (complaints_collection db !! _) as [c|]; [|done].
    by destruct (negb _ && _).
  - done.
Qed.

(** ** Sorting *)

Section sort_by.
Context {A : Type} (le : A -> A -> bool).

Lemma insert_by_perm (a : A) (l : list A) : insert_by le a l ≡ₚ a :: l.
Proof.
  induction l as [|b l IH]; simpl; [done|].
  destruct (le a b); [done|]. rewrite IH. apply Permutation_swap.
Qed.

Lemma sort_by_perm (l : list A) : sort_by le l ≡ₚ l.
Proof.
  induction l as [|a l IH]; simpl; [done|].
  by rewrite insert_by_perm, IH.
Qed.

Hypothesis le_total : forall a b, le a b = true \/ le b a = true.
Hypothesis le_trans : forall a b c, le a b = true -> le b c = true -> le a c = true.

Lemma insert_by_sorted (a : A) (l : list A) :
  StronglySorted (fun x y => le x y = true) l ->
  StronglySorted (fun x y => le x y = true) (insert_by le a l).
Proof.
  induction 1 as [|b l Hl IH Hb]; simpl.
  - repeat constructor.
  - destruct (le a b) eqn:Hab.
    + constructor; [by constructor|]. constructor; [done|].
      eapply Forall_impl; [exact Hb|]. intros c Hc. by eapply le_trans.
    + constructor; [done|]. rewrite insert_by_perm. constructor; [|done].
      destruct (le_total a b) as [H|H]; congruence.
Qed.

Lemma sort_by_sorted (l : list A) :
  StronglySorted (fun x y => le x y = true) (sort_by le l).
Proof.
  induction l as [|a l IH]; simpl; [constructor|].
  by apply insert_by_sorted.
Qed.
End sort_by.

Lemma StronglySorted_weaken {A} (R R' : A -> A -> Prop) (l : list A) :
  (forall x y, R x y -> R' x y) -> StronglySorted R l -> StronglySorted R' l.
Proof.
  intros Himp. induction 1 as [|x l Hl IH Hx]; constructor; [done|].
  eapply Forall_impl; [exact Hx|]. intros y. apply Himp.
Qed.

(** ** Analytics *)

Lemma count_if_perm {A} (p : A -> bool) (l1 l2 : list A) :
  l1 ≡ₚ l2 -> count_if p l1 = count_if p l2.
Proof.
  unfold count_if. induction 1 as [|x l1 l2 _ IH|x y l|l1 l2 l3 _ IH1 _ IH2];
    simpl; [done| | |congruence].
  - destruct (p x); simpl; congruence.
  - destruct (p x), (p y); reflexivity.
Qed.

Lemma count_if_split {A} (p : A -> bool) (l : list A) :
  (count_if p l + count_if (fun x => negb (p x)) l = length l)%nat.
Proof.
  unfold count_if. induction l as [|x l IH]; simpl; [done|].
  destruct (p x); simpl; lia.
Qed.

Lemma count_if_all {A} (l : list A) : count_if (fun _ => true) l = length l.
Proof. unfold count_if. induction l; simpl; congruence. Qed.

Lemma count_documents_stored (p : complaint -> bool) (db : store) :
  count_documents p db = count_if p (stored db).
Proof. reflexivity. Qed.

Lemma stored_length (db : store) :
  length (stored db) = size (complaints_collection db).
Proof. unfold stored. by rewrite length_fmap, length_map_to_list. Qed.

Lemma group_count_perm (cat : string) (g1 g2 : list (string * nat)) :
  g1 ≡ₚ g2 -> group_count cat g1 = group_count cat g2.
Proof.
  induction 1 as [|[c n] g1 g2 _ IH|[c n] [d m] g|g1 g2 g3 _ IH1 _ IH2];
    simpl; [done| | |congruence]; lia.
Qed.

Lemma group_count_add (cat d : string) (g : list (string * nat)) :
  group_count cat (add_to_group d g)
  = ((if String.eqb d cat then 1 else 0) + group_count cat g)%nat.
Proof.
  induction g as [|[c n] g IH]; simpl; [lia|].
  destruct (String.eqb_spec c d) as [->|Hne]; simpl.
  - destruct (String.eqb d cat); lia.
  - rewrite IH. lia.
Qed.

Lemma group_count_by_category (cat : string) (docs : list complaint) :
  group_count cat (group_by_category docs)
  = count_if (fun c => String.eqb (category c) cat) docs.
Proof.
  unfold count_if. induction docs as [|d docs IH]; simpl; [done|].
  rewrite group_count_add, IH. destruct (String.eqb (category d) cat); simpl; lia.
Qed.

Lemma add_to_group_keys (d : string) (g : list (string * nat)) :
  (add_to_group d g).*1 = g.*1 \/
  ((d ∉ g.*1) /\ (add_to_group d g).*1 = (g.*1 ++ [d])%list).
Proof.
  induction g as [|[c n] g IH]; simpl.
  - right. split; [apply not_elem_of_nil|done].
  - destruct (String.eqb_spec c d) as [->|Hne]; simpl; [by left|].
    destruct IH as [IH|[Hnot Heq]].
    + left. by f_equal.
    + right. split; [|by f_equal].
      intros [?|?]%elem_of_cons; [congruence|done].
Qed.

Lemma add_to_group_NoDup (d : string) (g : list (string * nat)) :
  NoDup g.*1 -> NoDup (add_to_group d g).*1.
Proof.
  intros Hnd. destruct (add_to_group_keys d g) as [->|[Hnot ->]]; [done|].
  apply NoDup_app. split; [done|]. split; [|apply NoDup_singleton].
  intros x Hx ->%list_elem_of_singleton. done.
Qed.

Lemma group_by_category_NoDup (docs : list complaint) :
  NoDup (group_by_category docs).*1.
Proof.
  induction docs as [|d docs IH]; simpl; [constructor|].
  by apply add_to_group_NoDup.
Qed.

Lemma add_to_group_positive (d : string) (g : list (string * nat)) :
  Forall (fun cn => (1 <= snd cn)%nat) g ->
  Forall (fun cn => (1 <= snd cn)%nat) (add_to_group d g).
Proof.
  induction 1 as [|[c n] g Hn Hg IH]; simpl.
  - repeat constructor.
  - destruct (String.eqb c d); constructor; simpl in *; (lia || done).
Qed.

Lemma group_by_category_positive (docs : list complaint) :
  Forall (fun cn => (1 <= snd cn)%nat) (group_by_category docs).
Proof.
  induction docs as [|d docs IH]; simpl; [constructor|].
  by apply add_to_group_positive.
Qed.

(** With distinct keys, the count held for a key is the count of its
    group. *)
Lemma group_count_elem (cat : string) (n : nat) (g : list (string * nat)) :
  NoDup g.*1 -> (cat, n) ∈ g -> group_count cat g = n.
Proof.
  induction g as [|[c m] g IH]; simpl; intros Hnd Hin.
  - by apply elem_of_nil in Hin.
  - apply NoDup_cons in Hnd as [Hc Hnd].
    apply elem_of_cons in Hin as [[= <- <-]|Hin].
    + rewrite String.eqb_refl.
      assert (group_count cat g = 0%nat) as ->; [|lia].
      clear -Hc. induction g as [|[d k] g IH]; simpl; [done|].
      simpl in Hc. apply not_elem_of_cons in Hc as [Hne Hc].
      rewrite (proj2 (String.eqb_neq d cat)) by congruence.
      by rewrite IH.
    + assert (c <> cat) as Hne.
      { intros ->. apply Hc. apply list_elem_of_fmap. by exists (cat, n). }
      rewrite (proj2 (String.eqb_neq c cat) Hne). simpl. by apply IH.
Qed.

Lemma group_count_positive_elem (cat : string) (g : list (string * nat)) :
  (1 <= group_count cat g)%nat -> exists n, (cat, n) ∈ g.
Proof.
  induction g as [|[c m] g IH]; simpl; [lia|].
  destruct (String.eqb_spec c cat) as [->|Hne].
  - intros _. exists m. by left.
  - simpl. intros Hpos. destruct (IH Hpos) as [n Hn]. exists n. by right.
Qed.

Lemma sum_groups_add (d : string) (g : list (string * nat)) :
  sum_list_with snd (add_to_group d g) = S (sum_list_with snd g).
Proof.
  induction g as [|[c n] g IH]; simpl; [done|].
  destruct (String.eqb c d); simpl; [done|]. rewrite IH. lia.
Qed.

Lemma sum_groups (docs : list complaint) :
  sum_list_with snd (group_by_category docs) = length docs.
Proof.
  induction docs as [|d docs IH]; [done|].
  change (group_by_category (d :: docs))
    with (add_to_group (category d) (group_by_category docs)).
  rewrite sum_groups_add, IH. reflexivity.
Qed.

(** X18: in the analytics the resolved and the pending counts add up to
    the total, which is the number of stored documents. *)
Theorem X18_resolved_and_pending_partition (db : store) :
  exists a,
    get_analytics db = (Success a, db) /\
    total_complaints a = size (complaints_collection db) /\
    (resolved_count a + pending_count a = total_complaints a)%nat.
Proof.
  eexists. split; [reflexivity|]. simpl.
  rewrite !count_documents_stored, count_if_all.
  split; [apply stored_length|].
  apply (count_if_split (fun c => String.eqb (status c) "resolved")).
Qed.

(** X19: the category counts of the analytics are right and complete.  A
    category is listed exactly when a stored document has it, at most once,
    with the number of stored documents of that category; and the counts
    add up to the total. *)
Theorem X19_category_counts (db : store) :
  exists a,
    get_analytics db = (Success a, db) /\
    NoDup (category_counts a).*1 /\
    (forall cat n,
        (cat, n) ∈ category_counts a <->
        (1 <= n)%nat /\
        n = count_if (fun c => String.eqb (category c) cat) (stored db)) /\
    sum_list_with snd (category_counts a) = total_complaints a.
Proof.
  eexists. split; [reflexivity|]. simpl. unfold aggregate_categories.
  fold (stored db).
  set (le := fun g h : string * nat => (snd h <=? snd g)%nat).
  pose proof (sort_by_perm le (group_by_category (stored db))) as Hperm.
  assert (NoDup (sort_by le (group_by_category (stored db))).*1) as Hnd.
  { rewrite Hperm. apply group_by_category_NoDup. }
  split; [done|]. split.
  - intros cat n. split.
    + intros Hin. split.
      * pose proof (group_by_category_positive (stored db)) as Hpos.
        rewrite <- Hperm in Hpos. rewrite Forall_forall in Hpos.
        apply (Hpos (cat, n) Hin).
      * rewrite <- group_count_by_category.
        rewrite <- (group_count_perm cat _ _ Hperm).
        symmetry. by apply group_count_elem.
    + intros [Hpos ->]. rewrite <- group_count_by_category in *.
      rewrite <- (group_count_perm cat _ _ Hperm) in *.
      destruct (group_count_positive_elem cat _ Hpos) as [m Hm].
      by rewrite (group_count_elem cat m _ Hnd Hm).
  - rewrite count_documents_stored, count_if_all.
    rewrite <- (sum_groups (stored db)). by rewrite Hperm.
Qed.

Lemma stored_insert_fresh (db db' : store) id c :
  complaints_collection db !! id = None ->
  complaints_collection db' = <[id := c]> (complaints_collection db) ->
  stored db' ≡ₚ c :: stored db.
Proof.
  intros Hfresh Hc. unfold stored. rewrite Hc.
  by rewrite (map_to_list_insert _ _ _ Hfresh).
Qed.

Lemma stored_replace (db db' : store) id c c' :
  complaints_collection db !! id = Some c ->
  complaints_collection db' = <[id := c']> (complaints_collection db) ->
  exists others, stored db ≡ₚ c :: others /\ stored db' ≡ₚ c' :: others.
Proof.
  intros Hc Hc'.
  exists (snd <$> map_to_list (delete id (complaints_collection db))).
  unfold stored. split.
  - by rewrite <- (map_to_list_delete _ _ _ Hc).
  - rewrite Hc', <- insert_delete_eq.
    by rewrite map_to_list_insert by apply lookup_delete_eq.
Qed.

Lemma category_count_of (cat : string) (db : store) :
  group_count cat (aggregate_categories db)
  = count_if (fun c => String.eqb (category c) cat) (stored db).
Proof.
  unfold aggregate_categories. fold (stored db).
  rewrite (group_count_perm cat _ _ (sort_by_perm _ _)).
  apply group_count_by_category.
Qed.

Lemma count_if_cons {A} (p : A -> bool) (x : A) (l : list A) :
  count_if p (x :: l) = ((if p x then 1 else 0) + count_if p l)%nat.
Proof. unfold count_if. simpl. by destruct (p x). Qed.

(** X20: a successful submission shows in the analytics of the store it
    leaves: the total and the pending count are one more, the resolved
    count is the same, and the count of the category of the answer is one
    more while the count of every other category is the same. *)
Theorem X20_submission_in_analytics {F} (ml : ml_components F)
    req now id db body db' :
  submit_complaint ml req now id db = (Success body, db') ->
  exists a a',
    analytics_of db = Some a /\
    analytics_of db' = Some a' /\
    total_complaints a' = S (total_complaints a) /\
    pending_count a' = S (pending_count a) /\
    resolved_count a' = resolved_count a /\
    forall cat,
      group_count cat (category_counts a')
      = ((if String.eqb (r_category body) cat then 1 else 0)
         + group_count cat (category_counts a))%nat.
Proof.
  intros Hsub.
  apply submit_complaint_success_inv in Hsub
    as (cat & man & c & _ & _ & Hfresh & -> & Hc & _ & He).
  destruct He as (_ & Hcat & _ & Hst & _).
  pose proof (stored_insert_fresh db db' id c Hfresh Hc) as Hperm.
  eexists _, _. split; [reflexivity|]. split; [reflexivity|].
  cbn [total_complaints pending_count resolved_count category_counts r_category].
  rewrite !count_documents_stored.
  rewrite !(count_if_perm _ _ _ Hperm), !count_if_cons, Hst.
  split; [done|]. split; [done|]. split; [done|].
  intros cat'. rewrite !category_count_of.
  by rewrite (count_if_perm _ _ _ Hperm), count_if_cons, Hcat.
Qed.

Lemma X20_submission_in_analytics_witness :
  exists a a',
    analytics_of (sample_store 0 (inject_Z 5) []) = Some a /\
    analytics_of
      (snd (submit_complaint no_classifier
              (form_request "Garbage bin overflowing" None) 0 "c-2"
              (sample_store 0 (inject_Z 5) []))) = Some a' /\
    total_complaints a = 1%nat /\
    total_complaints a' = 2%nat /\
    pending_count a' = S (pending_count a).
Proof.
  destruct (X20_submission_in_analytics no_classifier
              (form_request "Garbage bin overflowing" None) 0 "c-2"
              (sample_store 0 (inject_Z 5) [])
              {| r_complaint_id := "c-2"; r_category := "Garbage Issues" |}
              (snd (submit_complaint no_classifier
                      (form_request "Garbage bin overflowing" None) 0 "c-2"
                      (sample_store 0 (inject_Z 5) []))))
    as (a & a' & Ha & Ha' & Ht & Hp & _).
  - vm_compute. reflexivity.
  - exists a, a'. split; [exact Ha|]. split; [exact Ha'|].
    assert (total_complaints a = 1%nat) as H1.
    { vm_compute in Ha. injection Ha as <-. reflexivity. }
    split; [exact H1|]. split; [by rewrite Ht, H1|exact Hp].
Defined.

(** X21: a successful status update moves one document between the
    resolved and the pending counts according to its old and new status,
    and changes neither the total nor any category count.  In particular
    resolving a complaint that was not resolved adds one to the resolved
    count and takes one from the pending count. *)
Theorem X21_status_update_in_analytics (id s : string) (now : Z) (db : store) c :
  id <> "" ->
  s ∈ valid_statuses ->
  complaints_collection db !! id = Some c ->
  exists db' a a',
    update_status (status_request id s) now db = (Success (), db') /\
    analytics_of db = Some a /\
    analytics_of db' = Some a' /\
    total_complaints a' = total_complaints a /\
    (forall cat, group_count cat (category_counts a')
                 = group_count cat (category_counts a)) /\
    (resolved_count a' + (if String.eqb (status c) "resolved" then 1 else 0)
     = resolved_count a + (if String.eqb s "resolved" then 1 else 0))%nat /\
    (pending_count a' + (if String.eqb s "resolved" then 1 else 0)
     = pending_count a + (if String.eqb (status c) "resolved" then 1 else 0))%nat.
Proof.
  intros Hid Hs Hc.
  pose proof (update_status_valid id s now db c Hid Hs Hc) as Hup.
  set (db' := log_activity _ _ _ _) in Hup.
  destruct (stored_replace db db' id c (set_status s c) Hc eq_refl)
    as (others & Hp & Hp').
  exists db'. eexists _, _. split; [exact Hup|].
  split; [reflexivity|]. split; [reflexivity|].
  cbn [total_complaints pending_count resolved_count category_counts].
  rewrite !count_documents_stored.
  rewrite !(count_if_perm _ _ _ Hp), !(count_if_perm _ _ _ Hp'), !count_if_cons.
  cbn [status set_status].
  split; [done|]. split.
  { intros cat. rewrite !category_count_of.
    by rewrite (count_if_perm _ _ _ Hp), (count_if_perm _ _ _ Hp'), !count_if_cons. }
  destruct (String.eqb (status c) "resolved"), (String.eqb s "resolved");
    simpl; lia.
Qed.

Lemma X21_status_update_in_analytics_witness :
  exists db' a a',
    update_status (status_request "c-1" "resolved") 0
      (sample_store 0 (inject_Z 5) []) = (Success (), db') /\
    analytics_of (sample_store 0 (inject_Z 5) []) = Some a /\
    analytics_of db' = Some a' /\
    (resolved_count a' + 0 = resolved_count a + 1)%nat.
Proof.
  destruct (X21_status_update_in_analytics "c-1" "resolved" 0
              (sample_store 0 (inject_Z 5) []) (sample_complaint 0 (inject_Z 5) []))
    as (db' & a & a' & Hup & Ha & Ha' & _ & _ & Hres & _).
  - discriminate.
  - apply str_in_true. reflexivity.
  - reflexivity.
  - exists db', a, a'. split; [exact Hup|]. split; [exact Ha|].
    split; [exact Ha'|exact Hres].
Defined.

(** ** Comments, admin notes and departments *)


Lemma save_admin_note_found (db : database) id text now d :
  id <> "" -> text <> "" ->
  documents db !! id = Some d ->
  save_admin_note (note_request id text) now db
  = (Success "Admin note saved successfully",
     set_documents
       (<[id := push_admin_note {| note_text := text;
                                   note_timestamp := bson_date now;
                                   note_admin := "Administrator" |} d]>
          (documents db)) db).
Proof.
  intros Hid Htext Hd. unfold save_admin_note, note_request.
  cbn [mbind option_bind n_complaintId n_noteText].
  rewrite (falsy_Some id Hid), (falsy_Some text Htext).
  cbn [orb from_option Datatypes.id]. by rewrite Hd.
Qed.




(** An admin note on a stored complaint is appended after the notes
    already there, signed ["Administrator"], and nothing else changes: not
    the complaint, its comments or its department, not another document,
    not the activity log. *)
Theorem admin_note_is_appended (db : database) id text now d :
  id <> "" ->
  text <> "" ->
  documents db !! id = Some d ->
  exists db' d',
    save_admin_note (note_request id text) now db
      = (Success "Admin note saved successfully", db') /\
    documents db' !! id = Some d' /\
    admin_notes d' =
      (admin_notes d ++ [ {| note_text := text;
                             note_timestamp := bson_date now;
                             note_admin := "Administrator" |} ])%list /\
    base d' = base d /\
    comments d' = comments d /\
    assigned_department d' = assigned_department d /\
    (forall id', id' <> id -> documents db' !! id' = documents db !! id') /\
    activities db' = activities db.
Proof.
  intros Hid Htext Hd.
  eexists _, _. split; [by apply save_admin_note_found|].
  split; [apply lookup_insert_eq|].
  split; [reflexivity|]. split; [reflexivity|]. split; [reflexivity|].
  split; [reflexivity|]. split; [|reflexivity].
  intros id' Hne. simpl. by apply lookup_insert_ne.
Qed.

Lemma admin_note_is_appended_witness :
  exists db' d',
    save_admin_note (note_request "c-1" "Crew sent") 2000 (sample_database [])
      = (Success "Admin note saved successfully", db') /\
    documents db' !! "c-1" = Some d' /\
    note_text <$> admin_notes d' = ["Crew sent"].
Proof.
  destruct (admin_note_is_appended (sample_database []) "c-1" "Crew sent" 2000
              {| base := sample_complaint 0 (inject_Z 5) [];
                 assigned_department := None;
                 admin_notes := [];
                 comments := [] |})
    as (db' & d' & Hsave & Hd' & Hnotes & _).
  - discriminate.
  - discriminate.
  - reflexivity.
  - exists db', d'. split; [exact Hsave|]. split; [exact Hd'|].
    rewrite Hnotes. reflexivity.
Defined.





(** ** Queries *)

Lemma compare_field_key (f : sort_field) (a b : complaint) :
  compare_field f a b = (sort_key f a ?= sort_key f b)%Q.
Proof.
  destruct f; simpl; [|reflexivity|]; unfold Qcompare; simpl;
    by rewrite !Z.mul_1_r.
Qed.

Lemma order_le_total (order : list (sort_field * Z)) (a b : complaint) :
  Forall (fun fd => snd fd <> 0) order ->
  order_le order a b = true \/ order_le order b a = true.
Proof.
  induction 1 as [|[f d] order Hd _ IH]; simpl; [by left|].
  rewrite !compare_field_key. rewrite <- (Qcompare_antisym (sort_key f a)).
  destruct (sort_key f a ?= sort_key f b)%Q; simpl in *; [done| |];
    destruct (Z.ltb_spec 0 d), (Z.ltb_spec d 0); auto; lia.
Qed.

Lemma order_le_trans (order : list (sort_field * Z)) (a b c : complaint) :
  order_le order a b = true -> order_le order b c = true ->
  order_le order a c = true.
Proof.
  induction order as [|[f d] order IH]; simpl; [done|].
  rewrite !compare_field_key.
  destruct (Qcompare_spec (sort_key f a) (sort_key f b)) as [Hab|Hab|Hab];
    destruct (Qcompare_spec (sort_key f b) (sort_key f c)) as [Hbc|Hbc|Hbc];
    destruct (Qcompare_spec (sort_key f a) (sort_key f c)) as [Hac|Hac|Hac];
    try (exfalso; lra); try done;
    intros H1 H2; apply Z.ltb_lt in H1, H2; lia.
Qed.

Lemma sort_order_of_directions (s : string) :
  Forall (fun fd => snd fd <> 0) (sort_order_of s).
Proof.
  unfold sort_order_of.
  repeat (match goal with
          | |- context [if ?b then _ else _] => destruct b
          end); repeat constructor; done.
Qed.

Lemma listing_perm p order db : listing p order db ≡ₚ selection p db.
Proof. apply sort_by_perm. Qed.

Lemma list_filter_elem {A} (f : A -> bool) (l : list A) (x : A) :
  x ∈ List.filter f l <-> x ∈ l /\ f x = true.
Proof. by rewrite !list_elem_of_In, filter_In. Qed.

Lemma list_filter_NoDup {A} (f : A -> bool) (l : list A) :
  NoDup l -> NoDup (List.filter f l).
Proof.
  induction 1 as [|x l Hx Hl IH]; simpl; [constructor|].
  destruct (f x); [|done]. constructor; [|done].
  rewrite list_filter_elem. tauto.
Qed.

Lemma selection_elem p db id c :
  (id, c) ∈ selection p db <->
  complaints_collection db !! id = Some c /\ p c = true.
Proof.
  unfold selection. rewrite list_filter_elem.
  by rewrite elem_of_map_to_list.
Qed.

Lemma selection_NoDup p db : NoDup (selection p db).
Proof. apply list_filter_NoDup, NoDup_map_to_list. Qed.

Lemma selection_count p db :
  length (selection p db) = count_documents p db.
Proof.
  unfold selection, count_documents.
  induction (map_to_list (complaints_collection db)) as [|[k c] l IH];
    [done|].
  rewrite fmap_cons. cbn [List.filter snd].
  destruct (p c); cbn [length]; by rewrite IH.
Qed.

(** A query that answers went through every check, and its answer is a
    window of the listing. *)
Lemma get_complaints_success_inv ts args db body db' :
  get_complaints ts args db = (Success body, db') ->
  exists pg pp p,
    int_arg (a_page args) 1 = Some pg /\
    int_arg (a_per_page args) 10 = Some pp /\
    matches ts (query_of args) = Some p /\
    pp <> 0 /\ 0 <= (pg - 1) * pp /\
    db' = db /\
    body = {| pg_complaints :=
                take (Z.to_nat (Z.abs pp))
                  (drop (Z.to_nat ((pg - 1) * pp)) (listing p (order_of args) db));
              pg_total := Z.of_nat (length (selection p db));
              pg_page := pg;
              pg_per_page := pp;
              pg_total_pages :=
                (Z.of_nat (length (selection p db)) + pp - 1) / pp |}.
Proof.
  unfold get_complaints. fold (query_of args). fold (order_of args).
  destruct (int_arg (a_page args) 1) as [pg|]; [|discriminate].
  destruct (int_arg (a_per_page args) 10) as [pp|]; [|discriminate].
  cbn [mbind option_bind].
  destruct (matches ts (query_of args)) as [p|]; [|discriminate].
  cbn [mbind option_bind]. unfold find.
  destruct (Z.ltb_spec ((pg - 1) * pp) 0) as [Hneg|Hskip]; [discriminate|].
  cbn [orb].
  destruct (negb (int64 ((pg - 1) * pp) && int64 (Z.abs pp)));
    [discriminate|].
  cbn [mbind option_bind].
  destruct (Z.eqb_spec pp 0) as [->|Hpp]; [discriminate|].
  intros [= <- <-]. exists pg, pp, p.
  rewrite selection_count. split_and!; done.
Qed.

(** X25: a page of a query.  When a query with a page number and a page
    size of at least 1 answers, the total is the number of stored documents
    the filter selects; the page holds [per_page] of them, or what is left
    of them after the pages before it, or nothing; and [total_pages] is the
    least number of pages that hold them all. *)
Theorem X25_page_size_and_page_count ts args db body db' :
  get_complaints ts args db = (Success body, db') ->
  1 <= pg_page body ->
  1 <= pg_per_page body ->
  let pg := pg_page body in
  let pp := pg_per_page body in
  db' = db /\
  int_arg (a_page args) 1 = Some pg /\
  int_arg (a_per_page args) 10 = Some pp /\
  (exists p,
      matches ts (query_of args) = Some p /\
      pg_total body = Z.of_nat (count_if p (stored db))) /\
  Z.of_nat (length (pg_complaints body))
    = Z.min pp (Z.max 0 (pg_total body - (pg - 1) * pp)) /\
  (pg_total_pages body - 1) * pp < pg_total body <= pg_total_pages body * pp /\
  (pg_total_pages body < pg -> pg_complaints body = []).
Proof.
  intros Hget H1 H2 pg pp. subst pg pp.
  apply get_complaints_success_inv in Hget
    as (pg & pp & p & Hpg & Hpp & Hp & _ & _ & -> & ->).
  cbn [pg_page pg_per_page pg_total pg_complaints pg_total_pages] in *.
  split; [done|]. split; [done|]. split; [done|].
  set (T := Z.of_nat (length (selection p db))).
  assert (0 <= T) as HT by (subst T; lia).
  assert (length (listing p (order_of args) db) = length (selection p db))
    as Hlen by apply Permutation_length, listing_perm.
  split.
  { exists p. split; [done|]. subst T. by rewrite selection_count. }
  pose proof (Z.mul_div_le (T + pp - 1) pp ltac:(lia)) as Hlo.
  pose proof (Z.mul_succ_div_gt (T + pp - 1) pp ltac:(lia)) as Hhi.
  split; [|split].
  - rewrite length_take, length_drop, Hlen. subst T. nia.
  - nia.
  - intros Hbeyond. apply nil_length_inv.
    rewrite length_take, length_drop, Hlen. subst T. nia.
Qed.

Lemma X25_page_size_and_page_count_witness :
  exists body,
    get_complaints no_text_search
      (with_paging (Some "2") (Some "3") no_args) sample_collection
      = (Success body, sample_collection) /\
    pg_total body = 4 /\
    length (pg_complaints body) = 1%nat /\
    pg_total_pages body = 2.
Proof.
  destruct (get_complaints no_text_search
              (with_paging (Some "2") (Some "3") no_args) sample_collection)
    as [[body|code msg] db'] eqn:Hget; [|by vm_compute in Hget].
  assert (pg_page body = 2 /\ pg_per_page body = 3) as [Hpg Hpp].
  { vm_compute in Hget. injection Hget as <- _. split; reflexivity. }
  destruct (X25_page_size_and_page_count no_text_search
              (with_paging (Some "2") (Some "3") no_args) sample_collection
              body db' Hget)
    as (-> & _ & _ & (p & Hp & Htotal) & Hlen & Hpages & _).
  - rewrite Hpg. lia.
  - rewrite Hpp. lia.
  - exists body. split; [reflexivity|].
    injection Hp as <-.
    assert (pg_total body = 4) as H4 by (rewrite Htotal; reflexivity).
    rewrite Hpg, Hpp, H4 in *. split; [reflexivity|]. split; lia.
Defined.

Lemma split_on_no_separator (sep : ascii) (s : string) :
  contains (String sep EmptyString) s = false -> split_on sep s = [s].
Proof.
  induction s as [|c s IH]; [reflexivity|].
  cbn [contains startswith split_on].
  rewrite (Ascii.eqb_sym sep c).
  destruct (Ascii.eqb c sep); [destruct s; discriminate|].
  cbn [andb]. intros Hs. by rewrite (IH Hs).
Qed.

(** The filter built from a request selects the wanted documents. *)
Lemma matches_wanted ts args p :
  matches ts (query_of args) = Some p ->
  exists t,
    match a_search args with
    | None => t = fun _ => true
    | Some s => if String.eqb s "" then t = fun _ => true
                else ts s = Some t
    end /\
    forall c, p c = wanted args t c.
Proof.
  unfold matches, query_of, build_query. cbn [q_text q_category q_status
    q_submitted_by].
  set (text := match (if String.eqb (default "" (a_search args)) "" then None
                      else Some (default "" (a_search args))) with
               | Some s => ts s
               | None => Some (fun _ => true)
               end).
  destruct text as [t|] eqn:Ht; [|discriminate]. cbn [mbind option_bind].
  intros [= <-]. exists t. split.
  - subst text. destruct (a_search args) as [s|]; simpl in Ht.
    + destruct (String.eqb s ""); congruence.
    + congruence.
  - intros c. unfold wanted, given_not_all.
    f_equal; [f_equal; f_equal|].
    + destruct (a_category args) as [x|]; [|reflexivity]. simpl.
      destruct (String.eqb x ""); [reflexivity|].
      destruct (String.eqb x "All"); reflexivity.
    + destruct (a_status args) as [s|]; [|reflexivity]. simpl.
      destruct (String.eqb s ""); [reflexivity|].
      destruct (String.eqb s "All"); [reflexivity|]. simpl.
      destruct (contains "," s) eqn:Hcomma; [reflexivity|].
      rewrite (split_on_no_separator _ _ Hcomma). simpl.
      by rewrite orb_false_r.
    + destruct (a_submitted_by args) as [x|]; [|reflexivity]. simpl.
      destruct (String.eqb x ""); reflexivity.
Qed.

Lemma window_subseteq {A} (n k : nat) (l : list A) (x : A) :
  x ∈ take n (drop k l) -> x ∈ l.
Proof.
  intros Hx. apply (subseteq_drop k l). by apply (subseteq_take n (drop k l)).
Qed.

Lemma window_NoDup {A} (n k : nat) (l : list A) :
  NoDup l -> NoDup (take n (drop k l)).
Proof.
  intros Hl. eapply sublist_NoDup; [exact Hl|].
  etrans; [apply sublist_take|apply sublist_drop].
Qed.

Lemma window_sorted {A} (R : A -> A -> Prop) (n k : nat) (l : list A) :
  StronglySorted R l -> StronglySorted R (take n (drop k l)).
Proof.
  intros Hl. rewrite <- (take_drop k l) in Hl.
  apply StronglySorted_app_1_r in Hl.
  rewrite <- (take_drop n (drop k l)) in Hl.
  by apply StronglySorted_app_1_l in Hl.
Qed.

(** X26: what a query returns is what was asked for.  Every document of
    the answer is stored under the identifier it is returned with and is
    wanted: it has the category asked for, one of the comma-separated
    statuses asked for and the submitter asked for, and passes the text
    filter; no document is returned twice; the total is the number of
    stored documents that are wanted; and the store is left as it was. *)
Theorem X26_query_returns_what_is_wanted ts args db body db' :
  get_complaints ts args db = (Success body, db') ->
  exists t,
    match a_search args with
    | None => t = fun _ => true
    | Some s => if String.eqb s "" then t = fun _ => true
                else ts s = Some t
    end /\
    db' = db /\
    NoDup (pg_complaints body) /\
    (forall id c,
        (id, c) ∈ pg_complaints body ->
        complaints_collection db !! id = Some c /\ wanted args t c = true) /\
    pg_total body = Z.of_nat (count_if (wanted args t) (stored db)).
Proof.
  intros Hget.
  apply get_complaints_success_inv in Hget
    as (pg & pp & p & _ & _ & Hp & _ & _ & -> & ->).
  destruct (matches_wanted ts args p Hp) as (t & Ht & Hwanted).
  exists t. split; [done|]. split; [done|].
  cbn [pg_complaints pg_total]. split; [|split].
  - apply window_NoDup. rewrite listing_perm. apply selection_NoDup.
  - intros id c Hin. apply window_subseteq in Hin.
    rewrite listing_perm in Hin. apply selection_elem in Hin as [Hc Hpc].
    split; [done|]. by rewrite <- Hwanted.
  - rewrite selection_count, count_documents_stored. f_equal.
    unfold count_if. f_equal. apply filter_ext. intros c. apply Hwanted.
Qed.

Lemma X26_query_returns_what_is_wanted_witness :
  exists body,
    get_complaints no_text_search
      (with_status (Some "new,resolved") no_args) sample_collection
      = (Success body, sample_collection) /\
    pg_total body = 3 /\
    forall id c, (id, c) ∈ pg_complaints body ->
                 status c = "new" \/ status c = "resolved".
Proof.
  destruct (get_complaints no_text_search
              (with_status (Some "new,resolved") no_args) sample_collection)
    as [r db'] eqn:Hget.
  assert (exists body, r = Success body) as [body ->]
    by (vm_compute in Hget; injection Hget as <- _; eauto).
  destruct (X26_query_returns_what_is_wanted no_text_search
              (with_status (Some "new,resolved") no_args) sample_collection
              body db' Hget) as (t & Ht & -> & _ & Hin & Htotal).
  simpl in Ht. subst t.
  exists body. split; [reflexivity|]. split.
  - rewrite Htotal. reflexivity.
  - intros id c Hc. apply Hin in Hc as [_ Hw].
    unfold wanted in Hw. simpl in Hw.
    rewrite !andb_true_r in Hw.
    apply orb_true_iff in Hw as [Hw|Hw].
    + left. by apply String.eqb_eq.
    + rewrite orb_false_r in Hw. right. by apply String.eqb_eq.
Defined.

Lemma order_le_first_desc f rest (a b : complaint) :
  order_le ((f, -1) :: rest) a b = true ->
  (sort_key f b <= sort_key f a)%Q.
Proof.
  simpl. rewrite compare_field_key.
  destruct (Qcompare_spec (sort_key f a) (sort_key f b)) as [H|H|H];
    [lra|discriminate|lra].
Qed.

Lemma order_le_first_asc f rest (a b : complaint) :
  order_le ((f, 1) :: rest) a b = true ->
  (sort_key f a <= sort_key f b)%Q.
Proof.
  simpl. rewrite compare_field_key.
  destruct (Qcompare_spec (sort_key f a) (sort_key f b)) as [H|H|H];
    [lra|lra|discriminate].
Qed.

Lemma inject_Z_le (x y : Z) : (inject_Z x <= inject_Z y)%Q -> x <= y.
Proof. by rewrite <- Zle_Qle. Qed.

(** X27: the documents of an answer come in the order asked for.  They
    are sorted by the fields of the sort order, each in its direction and
    each deciding where the fields before it tie; so under "newest", an
    unknown sort or none the time stamps never increase along the answer,
    under "oldest" they never decrease, under "most_votes" the votes never
    increase and under "highest_priority" the priority scores never
    increase. *)
Theorem X27_query_answers_in_order ts args db body db' :
  get_complaints ts args db = (Success body, db') ->
  StronglySorted (fun x y => order_le (order_of args) (snd x) (snd y) = true)
    (pg_complaints body) /\
  (a_sort args = Some "oldest" ->
     StronglySorted (fun x y => timestamp (snd x) <= timestamp (snd y))
       (pg_complaints body)) /\
  (a_sort args = Some "most_votes" ->
     StronglySorted (fun x y => votes (snd y) <= votes (snd x))
       (pg_complaints body)) /\
  (a_sort args = Some "highest_priority" ->
     StronglySorted
       (fun x y => (priority_score (snd y) <= priority_score (snd x))%Q)
       (pg_complaints body)) /\
  ((forall s, a_sort args = Some s ->
              s ∉ ["oldest"; "most_votes"; "highest_priority"]) ->
     StronglySorted (fun x y => timestamp (snd y) <= timestamp (snd x))
       (pg_complaints body)).
Proof.
  intros Hget.
  apply get_complaints_success_inv in Hget
    as (pg & pp & p & _ & _ & _ & _ & _ & -> & ->).
  cbn [pg_complaints].
  assert (StronglySorted
            (fun x y => order_le (order_of args) (snd x) (snd y) = true)
            (take (Z.to_nat (Z.abs pp))
               (drop (Z.to_nat ((pg - 1) * pp))
                  (listing p (order_of args) db)))) as Hsorted.
  { apply window_sorted. unfold listing. apply sort_by_sorted.
    - intros x y. apply order_le_total, sort_order_of_directions.
    - intros x y z. apply order_le_trans. }
  split; [done|]. unfold order_of in Hsorted |- *. split_and!.
  - intros Hs. rewrite Hs in Hsorted |- *.
    eapply StronglySorted_weaken; [|exact Hsorted].
    intros x y Hle. by apply order_le_first_asc, inject_Z_le in Hle.
  - intros Hs. rewrite Hs in Hsorted |- *.
    eapply StronglySorted_weaken; [|exact Hsorted].
    intros x y Hle. by apply order_le_first_desc, inject_Z_le in Hle.
  - intros Hs. rewrite Hs in Hsorted |- *.
    eapply StronglySorted_weaken; [|exact Hsorted].
    intros x y Hle. by apply order_le_first_desc in Hle.
  - intros Hother.
    assert (sort_order_of (default "newest" (a_sort args)) = [(Timestamp, -1)])
      as Horder.
    { destruct (a_sort args) as [s|]; [|reflexivity]. simpl.
      specialize (Hother s eq_refl). apply str_in_false in Hother.
      unfold sort_order_of. simpl in Hother.
      destruct (String.eqb s "newest"); [done|].
      destruct (String.eqb_spec s "oldest") as [->|_]; [discriminate|].
      destruct (String.eqb_spec s "highest_priority") as [->|_]; [discriminate|].
      destruct (String.eqb_spec s "most_votes") as [->|_]; [discriminate|].
      reflexivity. }
    rewrite Horder in Hsorted |- *.
    eapply StronglySorted_weaken; [|exact Hsorted].
    intros x y Hle. by apply order_le_first_desc, inject_Z_le in Hle.
Qed.

Lemma X27_query_answers_in_order_witness :
  fst <$> pg_complaints
            {| pg_complaints :=
                 [("d", sample_entry "Other" "new" 5 7 (inject_Z 9));
                  ("b", sample_entry "Road Issues" "resolved" 20 3 (11 # 2));
                  ("c", sample_entry "Water Issues" "in_progress" 30 1 (inject_Z 5));
                  ("a", sample_entry "Water Issues" "new" 10 0 (inject_Z 5))];
               pg_total := 4; pg_page := 1; pg_per_page := 10;
               pg_total_pages := 1 |}
  = ["d"; "b"; "c"; "a"] /\
  StronglySorted
    (fun x y => (priority_score (snd y) <= priority_score (snd x))%Q)
    [("d", sample_entry "Other" "new" 5 7 (inject_Z 9));
     ("b", sample_entry "Road Issues" "resolved" 20 3 (11 # 2));
     ("c", sample_entry "Water Issues" "in_progress" 30 1 (inject_Z 5));
     ("a", sample_entry "Water Issues" "new" 10 0 (inject_Z 5))].
Proof.
  split; [reflexivity|].
  destruct (X27_query_answers_in_order no_text_search
              (with_sort (Some "highest_priority") no_args) sample_collection
              {| pg_complaints :=
                   [("d", sample_entry "Other" "new" 5 7 (inject_Z 9));
                    ("b", sample_entry "Road Issues" "resolved" 20 3 (11 # 2));
                    ("c", sample_entry "Water Issues" "in_progress" 30 1 (inject_Z 5));
                    ("a", sample_entry "Water Issues" "new" 10 0 (inject_Z 5))];
                 pg_total := 4; pg_page := 1; pg_per_page := 10;
                 pg_total_pages := 1 |}
              sample_collection)
    as (_ & _ & _ & Hprio & _).
  - vm_compute. reflexivity.
  - apply Hprio. reflexivity.
Defined.

(** X29: a page number or a page size that is not the writing of an
    integer, and a page size of 0, are answered with status 500; the store
    is left as it was. *)
Theorem X29_bad_paging_is_500 ts args db :
  (exists s, a_page args = Some s /\ py_int s = None) \/
  (exists s, a_per_page args = Some s /\
             (py_int s = None \/ py_int s = Some 0)) ->
  get_complaints ts args db = (Failure 500 "Internal server error", db).
Proof.
  intros Hbad. unfold get_complaints.
  destruct Hbad as [(s & Hs & Hint)|(s & Hs & Hint)]; rewrite Hs; simpl.
  - by rewrite Hint.
  - destruct (int_arg (a_page args) 1) as [pg|]; [|done].
    cbn [mbind option_bind].
    destruct Hint as [Hint|Hint]; rewrite Hint; [done|].
    cbn [mbind option_bind].
    destruct (matches ts _) as [p|]; [|done]. cbn [mbind option_bind].
    unfold find. rewrite Z.mul_0_r. simpl. done.
Qed.

Lemma X29_bad_paging_is_500_witness :
  get_complaints no_text_search (with_paging None (Some "0") no_args)
    sample_collection
  = (Failure 500 "Internal server error", sample_collection).
Proof.
  apply (X29_bad_paging_is_500 no_text_search
           (with_paging None (Some "0") no_args) sample_collection).
  right. exists "0". split; [reflexivity|]. right. reflexivity.
Defined.

(** X30: parameters that ask for nothing.  A category or a status that is
    ["All"] or empty gives the answer of the request without that
    parameter, and so does a sort that is none of "oldest",
    "highest_priority" and "most_votes". *)
Theorem X30_all_and_unknown_sort_ask_for_nothing ts args db :
  (forall x, x ∈ ["All"; ""] ->
     get_complaints ts (with_category (Some x) args) db
       = get_complaints ts (with_category None args) db /\
     get_complaints ts (with_status (Some x) args) db
       = get_complaints ts (with_status None args) db) /\
  (forall s, s ∉ ["oldest"; "highest_priority"; "most_votes"] ->
     get_complaints ts (with_sort (Some s) args) db
       = get_complaints ts (with_sort None args) db).
Proof.
  split.
  - intros x Hx.
    assert (given_not_all (Some x) = false) as Hnone.
    { repeat (apply elem_of_cons in Hx as [->|Hx]; [reflexivity|]).
      by apply elem_of_nil in Hx. }
    unfold get_complaints, build_query.
    cbn [a_category a_status a_sort a_page a_per_page a_search a_submitted_by
           with_category with_status].
    by rewrite Hnone.
  - intros s Hs. apply str_in_false in Hs.
    assert (sort_order_of s = sort_order_of "newest") as Horder.
    { unfold sort_order_of. unfold str_in in Hs. cbn [existsb] in Hs.
      apply orb_false_iff in Hs as [E1 Hs].
      apply orb_false_iff in Hs as [E2 Hs].
      apply orb_false_iff in Hs as [E3 _].
      rewrite E1, E2, E3. by destruct (String.eqb s "newest"). }
    unfold get_complaints.
    cbn [a_category a_status a_sort a_page a_per_page a_search a_submitted_by
           with_sort default from_option Datatypes.id].
    by rewrite Horder.
Qed.

Lemma X30_all_and_unknown_sort_ask_for_nothing_witness :
  get_complaints no_text_search (with_category (Some "All") no_args)
    sample_collection
  = get_complaints no_text_search (with_category None no_args) sample_collection.
Proof.
  destruct (X30_all_and_unknown_sort_ask_for_nothing no_text_search no_args
              sample_collection) as [Hall _].
  apply (Hall "All"). apply str_in_true. reflexivity.
Defined.
